(** * rag-agent: ingestion and retrieval pipeline

    A shallow embedding of [rag_agent/ingestion.py] and
    [rag_agent/retrieval.py], and the properties of the pipeline stated
    over it.

    Conventions.
    - Python [float]s are modelled as rationals [Q]; NaN and infinities are
      outside the model.
    - Python [int]s are [Z]; [str] is [string], one character per element,
      a character being a code point below 256.
    - Code that can raise returns an [outcome]; [try ... except Exception]
      is [try_except], or [attempt] where the code also acts on the store.
    - Third-party collaborators are parameters: the nearest-neighbour search
      of the Chroma vector store is a [SimilaritySearch]; the langchain text
      splitter, the document decoders, the file system, the clock and md5
      are the fields of [Externals].  Chroma's collection itself is a list
      of entries.
    - Logging is not modelled. *)

From Stdlib Require Import ZArith QArith Qminmax Qround Qabs.
From Stdlib Require Import String Ascii List Bool Lia Permutation Sorted.
From Stdlib Require Import DecimalString Lqa.
Import ListNotations.

Local Open Scope string_scope.
Local Open Scope list_scope.

(* ------------------------------------------------------------------ *)
(** ** Python primitives used by the pipeline *)

Module Py.

(** [len(s)] *)
Definition len (s : string) : Z := Z.of_nat (String.length s).

(** ["\n"] *)
Definition nl : string := String (ascii_of_nat 10) EmptyString.

(** [str(n)] for an [int]; also what an f-string does with an [int]. *)
Definition str_int (n : Z) : string := NilZero.string_of_int (Z.to_int n).

(** [max(a, b)]: the second argument is returned only when it is strictly
    larger than the first. *)
Definition max (a b : Q) : Q := if Qle_bool b a then a else b.

(** Rounding to the nearest integer, ties to even, as [format] does on the
    exact value of the number. *)
Definition round_half_even (q : Q) : Z :=
  let f := Qfloor q in
  match (q - inject_Z f ?= 1 # 2)%Q with
  | Lt => f
  | Gt => (f + 1)%Z
  | Eq => if Z.even f then f else (f + 1)%Z
  end.

Definition two_digits (n : Z) : string :=
  if (n <? 10)%Z then "0" ++ str_int n else str_int n.

(** [f"{x:.2f}"] *)
Definition format_2f (x : Q) : string :=
  let n := round_half_even (Qabs x * 100) in
  (if Qle_bool 0 x then "" else "-")
    ++ str_int (n / 100) ++ "." ++ two_digits (n mod 100).

(** [c.isspace()] for a character below 256. *)
Definition isspace (c : ascii) : bool :=
  let n := nat_of_ascii c in
  ((9 <=? n) && (n <=? 13) || (28 <=? n) && (n <=? 32) || (n =? 133) || (n =? 160))%nat.

(** [not s.strip()]: the string is empty or all whitespace. *)
Fixpoint strip_is_empty (s : string) : bool :=
  match s with
  | EmptyString => true
  | String c s' => isspace c && strip_is_empty s'
  end.

(** [c.lower()] for a character below 256: the letters A-Z and the
    capital letters of Latin-1 (192-214 and 216-222) have their lower-case
    form 32 places further on. *)
Definition lower_char (c : ascii) : ascii :=
  let n := nat_of_ascii c in
  if ((65 <=? n) && (n <=? 90) || (192 <=? n) && (n <=? 214)
      || (216 <=? n) && (n <=? 222))%nat
  then ascii_of_nat (n + 32) else c.

(** [s.lower()] *)
Fixpoint lower (s : string) : string :=
  match s with
  | EmptyString => EmptyString
  | String c s' => String (lower_char c) (lower s')
  end.

(** [s.rfind(c)]: the last index of [c], or [-1]. *)
Fixpoint rfind_from (c : ascii) (s : string) (i found : Z) : Z :=
  match s with
  | EmptyString => found
  | String a s' => rfind_from c s' (i + 1)%Z (if Ascii.eqb a c then i else found)
  end.

Definition rfind (s : string) (c : ascii) : Z := rfind_from c s 0 (-1).

(** The components of a POSIX path between slashes. *)
Fixpoint split_slash (s cur : string) : list string :=
  match s with
  | EmptyString => [cur]
  | String c s' =>
      if Ascii.eqb c "/" then cur :: split_slash s' ""
      else split_slash s' (cur ++ String c "")
  end.

(** [Path(p).name]: the last component, empty and ["."] components being
    dropped by [pathlib]. *)
Definition path_name (p : string) : string :=
  last (filter (fun part => negb (part =? "") && negb (part =? ".")) (split_slash p "")) "".

(** [Path(p).suffix] *)
Definition path_suffix (p : string) : string :=
  let name := path_name p in
  let i := rfind name "." in
  if ((0 <? i) && (i <? len name - 1))%Z
  then substring (Z.to_nat i) (String.length name - Z.to_nat i) name
  else "".

(** [dict.get(key, default)] on an optional entry. *)
Definition get {A : Type} (entry : option A) (default : A) : A :=
  match entry with
  | Some v => v
  | None => default
  end.

End Py.

(* ------------------------------------------------------------------ *)
(** ** Exceptions *)

Inductive exn_class : Set :=
| RuntimeError
| ValueError
| ImportError
| OSError
| UnicodeDecodeError
| AttributeError
| LibraryError.

Record exn : Set := Raise { exn_cls : exn_class; exn_msg : string }.

(** The result of running code that may raise. *)
Inductive outcome (A : Type) : Type :=
| Ok (a : A)
| Raised (e : exn).

Arguments Ok {A} a.
Arguments Raised {A} e.

Definition obind {A B : Type} (m : outcome A) (f : A -> outcome B) : outcome B :=
  match m with
  | Ok a => f a
  | Raised e => Raised e
  end.

(** [try: m  except Exception as e: h e] *)
Definition try_except {A : Type} (m : outcome A) (h : exn -> outcome A) : outcome A :=
  match m with
  | Ok a => Ok a
  | Raised e => h e
  end.

Declare Scope outcome_scope.
Delimit Scope outcome_scope with outcome.
Notation "x <- m ;; k" := (obind m (fun x => k))
  (at level 61, m at next level, right associativity) : outcome_scope.

(* ------------------------------------------------------------------ *)
(** ** Documents and the vector store *)

(** The per-chunk metadata dictionary.  A key may be absent, which is what
    [metadata.get(key, default)] caters for. *)
Record Metadata : Set := mkMetadata {
  md_file_name : option string;
  md_chunk_id : option Z;
  md_total_chunks : option Z;
  md_upload_date : option string;
  md_file_hash : option string
}.

(** langchain's [Document]. *)
Record Document : Set := mkDocument {
  page_content : string;
  doc_metadata : Metadata
}.

(** An entry of the Chroma collection: the id Chroma gave the chunk, and
    the chunk. *)
Record Entry : Set := mkEntry {
  entry_id : nat;
  entry_doc : Document
}.

(** The persisted collection, shared by the ingestion and the retrieval
    object (both open the same [persist_directory]). *)
Definition Collection : Set := list Entry.

(** A [Chroma] client object; [None] in a field of this type is Python's
    [None]. *)
Record Chroma : Set := mkChroma { persist_directory : string }.

(** A loaded embedding model. *)
Record HuggingFaceEmbeddings : Set := mkEmbeddings { model_name : string }.

(* ------------------------------------------------------------------ *)
(** ** retrieval.py *)

Record RetrievalResult : Set := mkRetrievalResult {
  content : string;
  metadata : Metadata;
  score : Q;
  file_name : string;
  chunk_id : Z
}.

Record DocumentRetrieval : Set := mkDocumentRetrieval {
  embedding_model_name : string;
  embeddings : option HuggingFaceEmbeddings;
  vector_store : option Chroma
}.

Definition is_available (self : DocumentRetrieval) : bool :=
  match vector_store self, embeddings self with
  | Some _, Some _ => true
  | _, _ => false
  end.

(** [similarity_score = max(0.0, 1.0 - score)] *)
Definition similarity_score (d : Q) : Q := Py.max 0 (1 - d).

Definition make_result (doc : Document) (s : Q) : RetrievalResult :=
  {| content := page_content doc;
     metadata := doc_metadata doc;
     score := s;
     file_name := Py.get (md_file_name (doc_metadata doc)) "unknown";
     chunk_id := Py.get (md_chunk_id (doc_metadata doc)) 0%Z |}.

(** The loop over [docs_and_scores]: results are appended in the order of
    the hits. *)
Fixpoint collect_results (score_threshold : Q) (docs_and_scores : list (Document * Q))
  : list RetrievalResult :=
  match docs_and_scores with
  | [] => []
  | (doc, d) :: rest =>
      if Qle_bool score_threshold (similarity_score d)
      then make_result doc (similarity_score d) :: collect_results score_threshold rest
      else collect_results score_threshold rest
  end.

(** [results.sort(key=lambda x: x.score, reverse=True)].  Python's sort is
    stable, also with [reverse=True]: an element is placed before the
    elements that followed it and do not have a strictly larger score. *)
Fixpoint insert_by_score (x : RetrievalResult) (l : list RetrievalResult)
  : list RetrievalResult :=
  match l with
  | [] => [x]
  | y :: l' =>
      if Qle_bool (score y) (score x) then x :: y :: l'
      else y :: insert_by_score x l'
  end.

Fixpoint sort_by_score (l : list RetrievalResult) : list RetrievalResult :=
  match l with
  | [] => []
  | x :: l' => insert_by_score x (sort_by_score l')
  end.

Definition no_relevant_documents : string :=
  "No relevant documents found in the knowledge base.".

(** The text built for one retrieved chunk in [get_context_for_query]. *)
Definition format_chunk (doc : RetrievalResult) : string :=
  "## From " ++ file_name doc ++ " (chunk " ++ Py.str_int (chunk_id doc + 1) ++ ")" ++ Py.nl
    ++ "Relevance: " ++ Py.format_2f (score doc) ++ Py.nl ++ Py.nl
    ++ content doc ++ Py.nl ++ Py.nl.

(** [len(chunk_text) // 4] *)
Definition estimate_tokens (text : string) : Z := (Py.len text / 4)%Z.

(** The packing loop of [get_context_for_query]; [total_length] is the
    running sum, the result is [context_parts]. *)
Fixpoint pack_chunks (max_tokens total_length : Z) (relevant_docs : list RetrievalResult)
  : list string :=
  match relevant_docs with
  | [] => []
  | doc :: rest =>
      let chunk_text := format_chunk doc in
      let chunk_tokens := estimate_tokens chunk_text in
      if (total_length + chunk_tokens >? max_tokens)%Z then []
      else chunk_text :: pack_chunks max_tokens (total_length + chunk_tokens) rest
  end.

Definition render_context (context_parts : list string) : string :=
  "## Relevant Context" ++ Py.nl ++ Py.nl ++ String.concat "" context_parts
    ++ Py.nl ++ "---" ++ Py.nl ++ "*Retrieved "
    ++ Py.str_int (Z.of_nat (length context_parts)) ++ " relevant document chunks*".

(** [Chroma.similarity_search_with_score(query, k)] over the collection:
    the hits with their raw distances, or an exception of the backend. *)
Definition SimilaritySearch : Type :=
  Collection -> string -> Z -> outcome (list (Document * Q)).

Section Retrieval.

Variable similarity_search_with_score : SimilaritySearch.

Definition retrieve_relevant_docs (self : DocumentRetrieval) (db : Collection)
    (query : string) (k : Z) (score_threshold : Q) : outcome (list RetrievalResult) :=
  if negb (is_available self) then Ok []
  else
    try_except
      (docs_and_scores <- similarity_search_with_score db query k ;;
       Ok (sort_by_score (collect_results score_threshold docs_and_scores)))%outcome
      (fun _ => Ok []).

Definition get_context_for_query (self : DocumentRetrieval) (db : Collection)
    (query : string) (max_tokens : Z) : outcome string :=
  (relevant_docs <- retrieve_relevant_docs self db query 10 0 ;;
   match relevant_docs with
   | [] => Ok no_relevant_documents
   | _ :: _ =>
       match pack_chunks max_tokens 0 relevant_docs with
       | [] => Ok no_relevant_documents
       | context_parts => Ok (render_context context_parts)
       end
   end)%outcome.

End Retrieval.

(** One value of the [files_info] dictionary of [get_statistics]. *)
Record FileInfo : Set := mkFileInfo {
  fi_name : string;
  fi_chunk_count : Z;
  fi_upload_date : string
}.

(** One round of the loop of [get_statistics] over the metadatas: the
    dictionary keeps its keys in the order they were first inserted. *)
Fixpoint count_chunk (name upload_date : string) (files_info : list FileInfo)
  : list FileInfo :=
  match files_info with
  | [] => [mkFileInfo name 1 upload_date]
  | f :: rest =>
      if fi_name f =? name
      then mkFileInfo (fi_name f) (fi_chunk_count f + 1) (fi_upload_date f) :: rest
      else f :: count_chunk name upload_date rest
  end.

Definition collect_files_info (db : Collection) : list FileInfo :=
  fold_left
    (fun files_info e =>
       count_chunk (Py.get (md_file_name (doc_metadata (entry_doc e))) "unknown")
                   (Py.get (md_upload_date (doc_metadata (entry_doc e))) "unknown")
                   files_info)
    db [].

(** The dictionary returned by [get_statistics]. *)
Inductive Statistics : Set :=
| StatisticsError (error : string)
| StatisticsOf (total_chunks total_files : Z) (files : list FileInfo)
    (embedding_model : option string).

Definition get_statistics (self : DocumentRetrieval) (db : Collection) : Statistics :=
  if negb (is_available self) then StatisticsError "Vector store not available"
  else
    match db with
    | [] => StatisticsOf 0 0 [] None
    | _ :: _ =>
        let files_info := collect_files_info db in
        StatisticsOf (Z.of_nat (length db)) (Z.of_nat (length files_info)) files_info
          (Some (embedding_model_name self))
    end.

(* ------------------------------------------------------------------ *)
(** ** ingestion.py

    The module defines [DocumentParser] and [DocumentIngestion] twice; the
    second definitions rebind the names, so they are the classes a caller
    gets.  They are the ones embedded here. *)

(** The calls the pipeline makes to its collaborators, in order. *)
Inductive Call : Set :=
| CallGetsize (path : string)
| CallParser (file_type path : string)
| CallSplitText (text : string)
| CallAddDocuments (documents : list Document)
| CallGet
| CallDelete (ids : list nat).

(** What the ingestion code acts on: the persisted collection, the ids
    Chroma has handed out, the clock, and the calls made so far. *)
Record World : Set := mkWorld {
  collection : Collection;
  next_id : nat;
  clock : nat;
  calls : list Call
}.

(** State and exceptions. *)
Definition M (A : Type) : Type := World -> outcome A * World.

Definition ret {A : Type} (a : A) : M A := fun w => (Ok a, w).

Definition raise {A : Type} (cls : exn_class) (msg : string) : M A :=
  fun w => (Raised (Raise cls msg), w).

Definition lift {A : Type} (o : outcome A) : M A := fun w => (o, w).

Definition bind {A B : Type} (m : M A) (f : A -> M B) : M B :=
  fun w =>
    match m w with
    | (Ok a, w') => f a w'
    | (Raised e, w') => (Raised e, w')
    end.

(** [try: m  except Exception as e: h e]; what [m] did before raising
    stays done. *)
Definition attempt {A : Type} (m : M A) (h : exn -> M A) : M A :=
  fun w =>
    match m w with
    | (Ok a, w') => (Ok a, w')
    | (Raised e, w') => h e w'
    end.

Definition call (c : Call) : M unit :=
  fun w => (Ok tt, mkWorld (collection w) (next_id w) (clock w) (calls w ++ [c])).

Declare Scope pipeline_scope.
Delimit Scope pipeline_scope with pipeline.
Notation "x <- m ;; k" := (bind m (fun x => k))
  (at level 61, m at next level, right associativity) : pipeline_scope.
Notation "m ;;; k" := (bind m (fun _ => k))
  (at level 61, right associativity) : pipeline_scope.

(** [SUPPORTED_EXTENSIONS] *)
Definition SUPPORTED_EXTENSIONS : list (string * string) :=
  [ (".txt", "text"); (".md", "text"); (".py", "text"); (".js", "text");
    (".ts", "text"); (".html", "text"); (".css", "text"); (".json", "text");
    (".yml", "text"); (".yaml", "text"); (".xml", "text"); (".pdf", "pdf");
    (".docx", "docx"); (".csv", "csv"); (".xlsx", "excel"); (".xls", "excel") ].

Fixpoint dict_get (d : list (string * string)) (key : string) : option string :=
  match d with
  | [] => None
  | (k, v) :: d' => if k =? key then Some v else dict_get d' key
  end.

Definition is_supported (file_path : string) : bool :=
  match dict_get SUPPORTED_EXTENSIONS (Py.lower (Py.path_suffix file_path)) with
  | Some _ => true
  | None => false
  end.

Definition get_file_type (file_path : string) : option string :=
  dict_get SUPPORTED_EXTENSIONS (Py.lower (Py.path_suffix file_path)).

(** The size limit of [ingest_document]: [50 * 1024 * 1024]. *)
Definition MAX_FILE_SIZE : Z := 50 * 1024 * 1024.

Record DocumentIngestion : Set := mkDocumentIngestion {
  ing_vector_store_path : string;
  ing_embedding_model_name : string;
  ing_embeddings : option HuggingFaceEmbeddings;
  ing_vector_store : option Chroma
}.

(** The dictionary returned by [ingest_document] and [ingest_text]. *)
Inductive IngestResult : Set :=
| IngestSuccess (file_name : string) (file_size : option Z) (num_chunks : nat)
    (chunk_ids : list nat) (upload_date : string)
| IngestError (file_name : string) (error : string).

Definition status (r : IngestResult) : string :=
  match r with
  | IngestSuccess _ _ _ _ _ => "success"
  | IngestError _ _ => "error"
  end.

(** The [pandas] module, as far as the parsers use it. *)
Record Pandas : Type := mkPandas {
  (** [pd.read_csv(path).to_string(index=False)] *)
  read_csv_to_string : string -> outcome string;
  (** for each sheet of [pd.ExcelFile(path)], its name and
      [pd.read_excel(path, sheet_name=name).to_string(index=False)] *)
  read_excel_sheets : string -> outcome (list (string * string))
}.

Fixpoint enumerate_from {A : Type} (i : nat) (l : list A) : list (nat * A) :=
  match l with
  | [] => []
  | x :: l' => (i, x) :: enumerate_from (S i) l'
  end.

(** [Chroma.get()]: every entry of the collection. *)
Definition chroma_get : M Collection :=
  (call CallGet ;;; fun w => (Ok (collection w), w))%pipeline.

(** [Chroma.delete(ids=ids)] *)
Definition chroma_delete (ids : list nat) : M unit :=
  (call (CallDelete ids) ;;;
   fun w =>
     (Ok tt,
      mkWorld (filter (fun e => negb (existsb (Nat.eqb (entry_id e)) ids)) (collection w))
              (next_id w) (clock w) (calls w)))%pipeline.

(** [Chroma.add_documents(documents)]: each document is stored under a
    fresh id (a uuid in Chroma, a counter here); the ids are returned.
    The call is modelled where it succeeds; an exception of the store
    (Chroma raises one for an empty list of documents) is outside the
    model, and what is proved about stored chunks is stated for calls that
    returned a result with status "success". *)
Definition chroma_add_documents (documents : list Document) : M (list nat) :=
  (call (CallAddDocuments documents) ;;;
   fun w =>
     let ids := seq (next_id w) (length documents) in
     (Ok ids,
      mkWorld (collection w ++ map (fun '(i, d) => mkEntry i d)
                                   (enumerate_from (next_id w) documents))
              (next_id w + length documents) (clock w) (calls w)))%pipeline.

(** [datetime.now()]: reading the clock advances it. *)
Definition datetime_now : M nat :=
  fun w => (Ok (clock w), mkWorld (collection w) (next_id w) (S (clock w)) (calls w)).

(** [if not file_name: file_name = Path(file_path).name] *)
Definition default_file_name (file_path : string) (file_name : option string) : string :=
  match file_name with
  | None | Some "" => Py.path_name file_path
  | Some name => name
  end.

(** The collaborators of the ingestion pipeline that live outside the
    repository. *)
Record Externals : Type := mkExternals {
  (** [os.path.getsize] *)
  getsize : string -> outcome Z;
  (** [open(path, 'r', encoding=enc).read()] *)
  read_file : string -> string -> outcome string;
  (** The [pypdf] module, [None] when the import failed: the text of each
      page of [PdfReader(f)]. *)
  pypdf : option (string -> outcome (list string));
  (** The [docx2txt] module: [docx2txt.process]. *)
  docx2txt : option (string -> outcome string);
  (** The [pandas] module.  The parsers test it like the two modules
      above, but the module imports it without a guard at its head, so
      it is [None] in no state of a loaded module. *)
  pd : option Pandas;
  (** [self.text_splitter.split_text], langchain's
      [RecursiveCharacterTextSplitter] configured with [chunk_size=500],
      [chunk_overlap=50] and the separators of [__init__]. *)
  split_text : string -> list string;
  (** [t.isoformat()] for the clock reading [t]. *)
  isoformat : nat -> string;
  (** [hashlib.md5(text.encode()).hexdigest()] *)
  md5_hexdigest : string -> string
}.

Section Ingestion.

Variable env : Externals.

(** *** DocumentParser *)

Definition parse_text (file_path : string) : outcome string :=
  match read_file env file_path "utf-8" with
  | Raised (Raise UnicodeDecodeError _) => read_file env file_path "latin-1"
  | r => r
  end.

Definition parse_pdf (file_path : string) : outcome string :=
  match pypdf env with
  | None => Raised (Raise ImportError "pypdf package required for PDF parsing")
  | Some pages_of =>
      (pages <- pages_of file_path ;;
       Ok (String.concat "" (map (fun page => (page ++ Py.nl)%string) pages)))%outcome
  end.

Definition parse_docx (file_path : string) : outcome string :=
  match docx2txt env with
  | None => Raised (Raise ImportError "docx2txt package required for DOCX parsing")
  | Some process => process file_path
  end.

Definition parse_csv (file_path : string) : outcome string :=
  match pd env with
  | None => Raised (Raise ImportError "pandas package required for CSV parsing")
  | Some pandas => read_csv_to_string pandas file_path
  end.

Definition parse_excel (file_path : string) : outcome string :=
  match pd env with
  | None => Raised (Raise ImportError "pandas package required for Excel parsing")
  | Some pandas =>
      (sheets <- read_excel_sheets pandas file_path ;;
       Ok (String.concat ""
             (flat_map (fun '(sheet_name, table) =>
                          [ ("Sheet: " ++ sheet_name ++ Py.nl)%string; table;
                            (Py.nl ++ Py.nl)%string ])
                       sheets)))%outcome
  end.

(** *** DocumentIngestion *)

(** The [if file_type == ...] chain of [parse_document]. *)
Definition dispatch_parser (file_type file_path : string) : outcome string :=
  if file_type =? "text" then parse_text file_path
  else if file_type =? "pdf" then parse_pdf file_path
  else if file_type =? "docx" then parse_docx file_path
  else if file_type =? "csv" then parse_csv file_path
  else if file_type =? "excel" then parse_excel file_path
  else Raised (Raise ValueError ("Unknown file type: " ++ file_type)).

Definition parse_document (file_path : string) : M string :=
  match get_file_type file_path with
  | None => raise ValueError ("Unsupported file type: " ++ Py.path_suffix file_path)%string
  | Some file_type =>
      attempt
        (call (CallParser file_type file_path) ;;;
         lift (dispatch_parser file_type file_path))%pipeline
        (fun e => lift (Raised e))
  end.

(** The documents [chunk_text] builds from the splitter's chunks;
    [clock0] is the clock reading at the first chunk. *)
Definition make_documents (clock0 : nat) (text file_name : string)
    (chunks : list string) : list Document :=
  map (fun '(i, chunk) =>
         mkDocument chunk
           (mkMetadata (Some file_name) (Some (Z.of_nat i))
              (Some (Z.of_nat (length chunks)))
              (Some (isoformat env (clock0 + i)))
              (Some (substring 0 8 (md5_hexdigest env text)))))
      (enumerate_from 0 chunks).

Definition chunk_text (text file_name : string) : M (list Document) :=
  attempt
    (call (CallSplitText text) ;;;
     fun w =>
       let chunks := split_text env text in
       (Ok (make_documents (clock w) text file_name chunks),
        mkWorld (collection w) (next_id w) (clock w + length chunks) (calls w)))%pipeline
    (fun e => lift (Raised e)).

Definition ingest_document (self : DocumentIngestion) (file_path : string)
    (file_name : option string) : M IngestResult :=
  match ing_vector_store self with
  | None => raise RuntimeError "Vector store not initialized"
  | Some _ =>
      let file_name := default_file_name file_path file_name in
      attempt
        (call (CallGetsize file_path) ;;;
         file_size <- lift (getsize env file_path) ;;
         if (file_size >? MAX_FILE_SIZE)%Z
         then raise ValueError "File too large (max 50MB)"
         else
           text <- parse_document file_path ;;
           if Py.strip_is_empty text
           then raise ValueError "No text content extracted from document"
           else
             documents <- chunk_text text file_name ;;
             ids <- chroma_add_documents documents ;;
             now <- datetime_now ;;
             ret (IngestSuccess file_name (Some file_size) (length documents) ids
                    (isoformat env now)))%pipeline
        (fun e => ret (IngestError file_name (exn_msg e)))
  end.

Definition ingest_text (self : DocumentIngestion) (text title : string)
    : M IngestResult :=
  match ing_vector_store self with
  | None => raise RuntimeError "Vector store not initialized"
  | Some _ =>
      attempt
        (documents <- chunk_text text title ;;
         ids <- chroma_add_documents documents ;;
         now <- datetime_now ;;
         ret (IngestSuccess title None (length documents) ids (isoformat env now)))%pipeline
        (fun e => ret (IngestError title (exn_msg e)))
  end.

End Ingestion.

(** Whether the chunk was stored under this file name:
    [metadata.get('file_name') == file_name]. *)
Definition has_file_name (file_name : string) (e : Entry) : bool :=
  match md_file_name (doc_metadata (entry_doc e)) with
  | Some name => name =? file_name
  | None => false
  end.

Definition delete_document (self : DocumentIngestion) (file_name : string) : M bool :=
  match ing_vector_store self with
  | None => ret false
  | Some _ =>
      attempt
        (results <- chroma_get ;;
         match results with
         | [] => ret false
         | _ :: _ =>
             let ids_to_delete := map entry_id (filter (has_file_name file_name) results) in
             match ids_to_delete with
             | [] => ret false
             | _ :: _ => chroma_delete ids_to_delete ;;; ret true
             end
         end)%pipeline
        (fun _ => ret false)
  end.

Definition clear_all_documents (self : DocumentIngestion) : M bool :=
  match ing_vector_store self with
  | None => ret false
  | Some _ =>
      attempt
        (results <- chroma_get ;;
         match results with
         | [] => ret true
         | _ :: _ => chroma_delete (map entry_id results) ;;; ret true
         end)%pipeline
        (fun _ => ret false)
  end.

(** The operations of the library on the persisted state, and the states
    they can build from an empty collection. *)
Inductive Operation : Set :=
| OpIngestDocument (self : DocumentIngestion) (file_path : string) (file_name : option string)
| OpIngestText (self : DocumentIngestion) (text title : string)
| OpDeleteDocument (self : DocumentIngestion) (file_name : string)
| OpClearAllDocuments (self : DocumentIngestion).

Definition run (env : Externals) (op : Operation) (w : World) : World :=
  match op with
  | OpIngestDocument self file_path file_name =>
      snd (ingest_document env self file_path file_name w)
  | OpIngestText self text title => snd (ingest_text env self text title w)
  | OpDeleteDocument self file_name => snd (delete_document self file_name w)
  | OpClearAllDocuments self => snd (clear_all_documents self w)
  end.

Inductive reachable (env : Externals) : World -> Prop :=
| reachable_empty (t : nat) : reachable env (mkWorld [] 0 t [])
| reachable_run (op : Operation) (w : World) :
    reachable env w -> reachable env (run env op w).

(* ------------------------------------------------------------------ *)
(** ** retrieval.py: retrieve_by_file and search_files *)

(** [needle in s] on strings. *)
Fixpoint str_contains (needle s : string) : bool :=
  if String.prefix needle s then true
  else
    match s with
    | EmptyString => false
    | String _ s' => str_contains needle s'
    end.

(** The result [retrieve_by_file] builds for a chunk of the file. *)
Definition file_result (file_name : string) (e : Entry) : RetrievalResult :=
  mkRetrievalResult (page_content (entry_doc e)) (doc_metadata (entry_doc e)) 1
    file_name (Py.get (md_chunk_id (doc_metadata (entry_doc e))) 0%Z).

(** The loop of [retrieve_by_file] over the metadatas, with its [break]. *)
Fixpoint collect_file_chunks (file_name : string) (limit : Z) (entries : Collection)
    (results : list RetrievalResult) : list RetrievalResult :=
  match entries with
  | [] => results
  | e :: rest =>
      if has_file_name file_name e
      then
        if (Z.of_nat (length results) >=? limit)%Z then results
        else collect_file_chunks file_name limit rest
               (results ++ [file_result file_name e])
      else collect_file_chunks file_name limit rest results
  end.

(** [results.sort(key=lambda x: x.chunk_id)], a stable ascending sort. *)
Fixpoint insert_by_chunk_id (x : RetrievalResult) (l : list RetrievalResult)
  : list RetrievalResult :=
  match l with
  | [] => [x]
  | y :: l' =>
      if (chunk_id x <=? chunk_id y)%Z then x :: y :: l'
      else y :: insert_by_chunk_id x l'
  end.

Fixpoint sort_by_chunk_id (l : list RetrievalResult) : list RetrievalResult :=
  match l with
  | [] => []
  | x :: l' => insert_by_chunk_id x (sort_by_chunk_id l')
  end.

Definition retrieve_by_file (self : DocumentRetrieval) (db : Collection)
    (file_name : string) (limit : Z) : list RetrievalResult :=
  if negb (is_available self) then []
  else
    match db with
    | [] => []
    | _ :: _ => sort_by_chunk_id (collect_file_chunks file_name limit db [])
    end.

(** [matching_files.add(file_name)]; the set is kept as a list without
    repetition. *)
Definition set_add (x : string) (s : list string) : list string :=
  if existsb (String.eqb x) s then s else s ++ [x].

(** The loop of [search_files] over the metadatas. *)
Definition matching_files (search_term : string) (db : Collection) : list string :=
  fold_left
    (fun matching e =>
       let file_name := Py.get (md_file_name (doc_metadata (entry_doc e))) "" in
       if str_contains (Py.lower search_term) (Py.lower file_name)
       then set_add file_name matching
       else matching)
    db [].

(** [sorted(...)] on strings, which Python orders by code point. *)
Fixpoint insert_string (x : string) (l : list string) : list string :=
  match l with
  | [] => [x]
  | y :: l' => if (x <=? y)%string then x :: y :: l' else y :: insert_string x l'
  end.

Fixpoint sorted_strings (l : list string) : list string :=
  match l with
  | [] => []
  | x :: l' => insert_string x (sorted_strings l')
  end.

Definition search_files (self : DocumentRetrieval) (db : Collection)
    (search_term : string) : list string :=
  if negb (is_available self) then []
  else
    match db with
    | [] => []
    | _ :: _ => sorted_strings (matching_files search_term db)
    end.

(* ------------------------------------------------------------------ *)
(** ** ingestion.py: get_document_list *)





(* ------------------------------------------------------------------ *)
(** ** agent.py: the caller of get_context_for_query *)

(** The text [_create_system_prompt] appends for the retrieved context. *)
Definition rag_prompt (context : string) : string :=
  Py.nl ++ Py.nl ++ "## Available Context" ++ Py.nl
    ++ "You have access to the following relevant information from the user's documents:"
    ++ Py.nl ++ Py.nl ++ context ++ Py.nl ++ Py.nl
    ++ "Use this context to provide more accurate and specific answers when relevant. If the context doesn't contain relevant information for the user's question, rely on your general knowledge.".

(** [RAGAgent._create_system_prompt(use_rag, query)].  [base_prompt] is
    the fixed opening text of the prompt, [retrieval] is
    [self.retrieval]. *)
Definition _create_system_prompt (search : SimilaritySearch) (base_prompt : string)
    (retrieval : DocumentRetrieval) (db : Collection) (use_rag : bool)
    (query : option string) : outcome string :=
  match query with
  | None => Ok base_prompt
  | Some query =>
      if use_rag && negb (query =? "") && is_available retrieval
      then
        (context <- get_context_for_query search retrieval db query 2000 ;;
         if negb (context =? "")
            && negb (str_contains "No relevant documents found" context)
         then Ok (base_prompt ++ rag_prompt context)%string
         else Ok base_prompt)%outcome
      else Ok base_prompt
  end.

(* ------------------------------------------------------------------ *)
(** ** The first definitions of ingestion.py

    The first [DocumentParser] and [DocumentIngestion] of the module are
    rebound by the second ones and cannot be reached by a caller.  They
    are embedded here for comparison: they keep a ledger of content hashes
    in [self.metadata]. *)

Module Shadowed.

(** The metadata of a stored chunk. *)
Record ChunkMetadata : Set := mkChunkMetadata {
  source : string;
  chunk_id : Z;
  total_chunks : Z;
  file_hash : string;
  file_size : Z;
  ingestion_time : string;
  file_type : string
}.

Record Chunk : Set := mkChunk {
  page_content : string;
  metadata : ChunkMetadata
}.

(** A value of the ledger [self.metadata]. *)
Record DocumentRecord : Set := mkDocumentRecord {
  document_name : string;
  record_file_size : Z;
  chunk_count : Z;
  record_ingestion_time : string;
  record_file_type : string;
  content_preview : string
}.

(** The vector store and the ledger, a dictionary from content hash to
    record in insertion order, with the clock. *)
Record State : Set := mkState {
  vector_store : list Chunk;
  ledger : list (string * DocumentRecord);
  clock : nat
}.

Inductive IngestResult : Set :=
| Skipped (document_name : string)
| Success (document_name : string) (chunk_count : nat) (file_size : Z)
| Error (document_name message : string).

Definition status (r : IngestResult) : string :=
  match r with
  | Skipped _ => "skipped"
  | Success _ _ _ => "success"
  | Error _ _ => "error"
  end.

Record Externals : Type := mkExternals {
  (** [file_path.exists()] *)
  file_exists : string -> bool;
  (** [file_path.stat().st_size] *)
  st_size : string -> outcome Z;
  (** [_get_file_hash]: the md5 digest of the bytes of the file *)
  get_file_hash : string -> outcome string;
  (** whether the name [DocumentParser] stands for a class with a
      [parse_file] when [ingest_document] runs: it does where the first
      definitions stand alone; in the module as a whole the second
      [DocumentParser], which has no such method, has taken the name *)
  parse_file_bound : bool;
  (** the parsers of the first [DocumentParser], by name *)
  run_parser : string -> string -> outcome string;
  split_text : string -> list string;
  isoformat : nat -> string;
  (** [self.vector_store.persist()]: langchain_chroma's [Chroma] has no
      such method, and the call raises [AttributeError] *)
  persist : outcome unit
}.

(** The [parsers] dictionary of [parse_file]. *)
Definition parsers : list (string * string) :=
  [ (".txt", "parse_text_file"); (".md", "parse_text_file"); (".py", "parse_text_file");
    (".js", "parse_text_file"); (".html", "parse_text_file"); (".css", "parse_text_file");
    (".json", "parse_text_file"); (".xml", "parse_text_file");
    (".yaml", "parse_text_file"); (".yml", "parse_text_file"); (".pdf", "parse_pdf");
    (".docx", "parse_docx"); (".csv", "parse_csv"); (".xlsx", "parse_excel");
    (".xls", "parse_excel") ].

(** [file_hash in self.metadata] *)
Definition known (hash : string) (ledger : list (string * DocumentRecord)) : bool :=
  existsb (fun entry => fst entry =? hash) ledger.

(** [self.metadata[file_hash] = record] *)
Fixpoint record (hash : string) (r : DocumentRecord)
    (ledger : list (string * DocumentRecord)) : list (string * DocumentRecord) :=
  match ledger with
  | [] => [(hash, r)]
  | (h, r') :: rest =>
      if h =? hash then (h, r) :: rest else (h, r') :: record hash r rest
  end.

(** [del self.metadata[file_hash]] *)
Definition forget (hash : string) (ledger : list (string * DocumentRecord))
  : list (string * DocumentRecord) :=
  filter (fun entry => negb (fst entry =? hash)) ledger.

Section Pipeline.

Variable env : Externals.

(** An unknown extension is parsed as text. *)
Definition parse_file (file_path : string) : outcome string :=
  match dict_get parsers (Py.lower (Py.path_suffix file_path)) with
  | Some parser => run_parser env parser file_path
  | None => run_parser env "parse_text_file" file_path
  end.

Definition make_chunks (clock0 : nat) (document_name hash : string) (size : Z)
    (suffix : string) (chunks : list string) : list Chunk :=
  map (fun '(i, chunk) =>
         mkChunk chunk
           (mkChunkMetadata document_name (Z.of_nat i) (Z.of_nat (length chunks)) hash
              size (isoformat env (clock0 + i)) suffix))
      (enumerate_from 0 chunks).

(** [DocumentParser.parse_file(str(file_path))], the name [DocumentParser]
    being looked up when the call is made. *)
Definition resolve_parse_file (file_path : string) : outcome string :=
  if parse_file_bound env then parse_file file_path
  else Raised (Raise AttributeError
                 "type object 'DocumentParser' has no attribute 'parse_file'").

(** The result of the [except] branch: the message is
    [f"Error processing {document_name}: {str(e)}"]. *)
Definition error_result (document_name text : string) : IngestResult :=
  Error document_name ("Error processing " ++ document_name ++ ": " ++ text).

Definition ingest_document (file_path : string) (original_name : option string)
    (s : State) : IngestResult * State :=
  let document_name := default_file_name file_path original_name in
  if negb (file_exists env file_path)
  then (error_result document_name ("File not found: " ++ file_path), s)
  else
    match st_size env file_path with
    | Raised e => (error_result document_name (exn_msg e), s)
    | Ok size =>
        match get_file_hash env file_path with
        | Raised e => (error_result document_name (exn_msg e), s)
        | Ok hash =>
            if known hash (ledger s) then (Skipped document_name, s)
            else
              match resolve_parse_file file_path with
              | Raised e => (error_result document_name (exn_msg e), s)
              | Ok text =>
                  if Py.strip_is_empty text
                  then (error_result document_name
                          "Document appears to be empty or could not be parsed", s)
                  else
                    let chunks := split_text env text in
                    let suffix := Py.lower (Py.path_suffix file_path) in
                    let n := length chunks in
                    let written :=
                      mkState
                        (vector_store s
                         ++ make_chunks (clock s) document_name hash size suffix chunks)
                        (record hash
                           (mkDocumentRecord document_name size (Z.of_nat n)
                              (isoformat env (clock s + n)) suffix
                              (if (200 <? Py.len text)%Z
                               then (substring 0 200 text ++ "...")%string
                               else text))
                           (ledger s))
                        (S (clock s + n)) in
                    match persist env with
                    | Ok _ => (Success document_name n size, written)
                    | Raised e => (error_result document_name (exn_msg e), written)
                    end
              end
        end
    end.

End Pipeline.

(** Only the ledger is touched; the chunks stay in the vector store. *)
Definition remove_document (hash : string) (s : State) : bool * State :=
  if known hash (ledger s)
  then (true, mkState (vector_store s) (forget hash (ledger s)) (clock s))
  else (false, s).

(** [ingest_multiple_documents]: the files are ingested one after the
    other, each with its own result. *)
Fixpoint ingest_multiple_documents (env : Externals) (file_paths : list string)
    (s : State) : list IngestResult * State :=
  match file_paths with
  | [] => ([], s)
  | file_path :: rest =>
      let (result, s1) := ingest_document env file_path None s in
      let (results, s2) := ingest_multiple_documents env rest s1 in
      (result :: results, s2)
  end.

(** The name an ingestion result is about. *)
Definition result_name (r : IngestResult) : string :=
  match r with
  | Skipped name | Success name _ _ | Error name _ => name
  end.

(** [total_documents] and [total_chunks] of [get_document_stats]. *)
Definition stats_total_documents (s : State) : Z := Z.of_nat (length (ledger s)).

Definition stats_total_chunks (s : State) : Z :=
  fold_right (fun entry acc => (chunk_count (snd entry) + acc)%Z) 0%Z (ledger s).

End Shadowed.

(* ------------------------------------------------------------------ *)
(** ** Vocabulary of the properties *)

(** [a] may stand before [b] in a list sorted by descending score. *)
Definition score_ge (a b : RetrievalResult) : Prop := (score b <= score a)%Q.

(** The results of a list whose score equals [s], in the order they have
    in the list. *)
Definition with_score (s : Q) (l : list RetrievalResult) : list RetrievalResult :=
  filter (fun r => Qeq_bool (score r) s) l.

(** What every vector index guarantees of its search: a hit is a chunk of
    the collection. *)
Definition search_within
    (search : SimilaritySearch) : Prop :=
  forall db query k hits,
    search db query k = Ok hits ->
    forall doc d, In (doc, d) hits -> In doc (map entry_doc db).

(** The sum of the per-chunk token estimates of the packed chunks. *)
Definition total_tokens (context_parts : list string) : Z :=
  fold_right (fun part acc => (estimate_tokens part + acc)%Z) 0%Z context_parts.

(** The world after further calls have been logged. *)
Definition log_calls (w : World) (cs : list Call) : World :=
  mkWorld (collection w) (next_id w) (clock w) (calls w ++ cs).

(** The name a chunk is listed under: [metadata.get('file_name', 'unknown')]. *)
Definition listed_name (e : Entry) : string :=
  Py.get (md_file_name (doc_metadata (entry_doc e))) "unknown".

(** The state the operations of the library maintain: Chroma's ids are
    unique and were handed out by the counter, and every chunk carries the
    name of its file. *)
Definition well_formed (w : World) : Prop :=
  NoDup (map entry_id (collection w))
  /\ Forall (fun e => (entry_id e < next_id w)%nat) (collection w)
  /\ Forall (fun e => md_file_name (doc_metadata (entry_doc e)) <> None) (collection w).

Definition total_files (s : Statistics) : option Z :=
  match s with
  | StatisticsOf _ n _ _ => Some n
  | StatisticsError _ => None
  end.

Definition total_chunks (s : Statistics) : option Z :=
  match s with
  | StatisticsOf n _ _ _ => Some n
  | StatisticsError _ => None
  end.

(** Calls that do parsing, chunking or indexing work. *)
Definition is_work (c : Call) : bool :=
  match c with
  | CallParser _ _ | CallSplitText _ | CallAddDocuments _ => true
  | CallGetsize _ | CallGet | CallDelete _ => false
  end.

(** The number of chunks the collection lists under a name. *)
Definition chunk_count_of (name : string) (db : Collection) : Z :=
  Z.of_nat (length (filter (fun e => listed_name e =? name) db)).

(** The count [files_info] holds for a name, 0 when it has no such key. *)
Definition file_count (name : string) (files_info : list FileInfo) : Z :=
  match find (fun f => fi_name f =? name) files_info with
  | Some f => fi_chunk_count f
  | None => 0
  end.

Definition sum_chunk_counts (files : list FileInfo) : Z :=
  fold_right (fun f acc => (fi_chunk_count f + acc)%Z) 0%Z files.


(** [a] may stand before [b] in a list sorted by ascending chunk id. *)
Definition chunk_id_le (a b : RetrievalResult) : Prop := (chunk_id a <= chunk_id b)%Z.

(** [a] may stand before [b] in a list of names sorted by code point. *)
Definition name_le (a b : string) : Prop := (a <=? b)%string = true.

(** The name [search_files] reads off a chunk:
    [metadata.get('file_name', '')]. *)
Definition searched_name (e : Entry) : string :=
  Py.get (md_file_name (doc_metadata (entry_doc e))) "".

(** The [chunk_count] an ingestion of the first [DocumentIngestion]
    reports; only a result with status "success" carries one. *)
Definition reported_chunks (r : Shadowed.IngestResult) : nat :=
  match r with
  | Shadowed.Success _ n _ => n
  | Shadowed.Skipped _ | Shadowed.Error _ _ => 0
  end.

(** Calls to the splitter and to the index. *)
Definition reaches_store (c : Call) : bool :=
  match c with
  | CallSplitText _ | CallAddDocuments _ => true
  | CallGetsize _ | CallParser _ _ | CallGet | CallDelete _ => false
  end.

(** The reasons for which [ingest_document] gives up before it chunks and
    stores, each with the text of the exception it raises inside its
    [try]: the size query fails, the file is above the limit, the
    extension is not supported, the parser raises, the text is blank. *)
Inductive rejected (env : Externals) (file_path : string) : string -> Prop :=
| rejected_no_size (e : exn) :
    getsize env file_path = Raised e ->
    rejected env file_path (exn_msg e)
| rejected_too_large (file_size : Z) :
    getsize env file_path = Ok file_size ->
    (file_size > MAX_FILE_SIZE)%Z ->
    rejected env file_path "File too large (max 50MB)"
| rejected_unsupported (file_size : Z) :
    getsize env file_path = Ok file_size ->
    (file_size <= MAX_FILE_SIZE)%Z ->
    is_supported file_path = false ->
    rejected env file_path ("Unsupported file type: " ++ Py.path_suffix file_path)%string
| rejected_by_parser (file_size : Z) (file_type : string) (e : exn) :
    getsize env file_path = Ok file_size ->
    (file_size <= MAX_FILE_SIZE)%Z ->
    get_file_type file_path = Some file_type ->
    dispatch_parser env file_type file_path = Raised e ->
    rejected env file_path (exn_msg e)
| rejected_blank (file_size : Z) (file_type text : string) :
    getsize env file_path = Ok file_size ->
    (file_size <= MAX_FILE_SIZE)%Z ->
    get_file_type file_path = Some file_type ->
    dispatch_parser env file_type file_path = Ok text ->
    Py.strip_is_empty text = true ->
    rejected env file_path "No text content extracted from document".

(** ** Sample data for the closed instances *)

Module Sample.

Definition document (name text : string) (i n : Z) : Document :=
  mkDocument text
    (mkMetadata (Some name) (Some i) (Some n) (Some "2024-05-01T10:00:00")
       (Some "5d41402a")).

Definition db : Collection :=
  [ mkEntry 0 (document "a.txt" "hello" 0 1);
    mkEntry 1 (document "b.txt" "goodbye" 0 1) ].

(** A backend that scans the collection in order; the distance of a chunk
    is a tenth of the difference in length between query and chunk. *)
Definition distance (query text : string) : Q :=
  Z.abs (Py.len query - Py.len text) # 10.

Definition search (db : Collection) (query : string) (k : Z)
  : outcome (list (Document * Q)) :=
  Ok (firstn (Z.to_nat k)
        (map (fun e => (entry_doc e, distance query (page_content (entry_doc e)))) db)).

(** A backend that is down. *)
Definition failing_search (db : Collection) (query : string) (k : Z)
  : outcome (list (Document * Q)) :=
  Raised (Raise LibraryError "connection refused").

Definition retrieval : DocumentRetrieval :=
  mkDocumentRetrieval "sentence-transformers/all-MiniLM-L6-v2"
    (Some (mkEmbeddings "sentence-transformers/all-MiniLM-L6-v2"))
    (Some (mkChroma "data/vector_store")).

Definition unavailable_retrieval : DocumentRetrieval :=
  mkDocumentRetrieval "sentence-transformers/all-MiniLM-L6-v2" None None.

(** A file system with a small text file, an oversized one and an
    executable. *)
Definition getsize (path : string) : outcome Z :=
  if path =? "notes.txt" then Ok 11%Z
  else if path =? "todo.md" then Ok 8%Z
  else if path =? "huge.txt" then Ok (60 * 1024 * 1024)%Z
  else if path =? "tool.exe" then Ok 2048%Z
  else Raised (Raise OSError "No such file or directory").

Definition read_file (path encoding : string) : outcome string :=
  if path =? "notes.txt" then Ok "hello world"
  else if path =? "todo.md" then Ok "buy milk"
  else if path =? "huge.txt" then Ok "lorem ipsum"
  else if path =? "tool.exe" then Raised (Raise UnicodeDecodeError "invalid start byte")
  else Raised (Raise OSError "No such file or directory").

(** [pandas], which the module imports unconditionally; a table is
    rendered on one line here. *)
Definition pandas : Pandas :=
  mkPandas
    (fun path => Ok "item qty apples 3")
    (fun path => Ok [("Sheet1"%string, "item qty apples 3"%string)]).

(** Neither [pypdf] nor [docx2txt] is installed; the splitter leaves a
    short text in one chunk. *)
Definition env : Externals :=
  mkExternals getsize read_file None None (Some pandas)
    (fun text => [text])
    (fun t => ("2024-05-01T10:00:" ++ Py.two_digits (Z.of_nat t))%string)
    (fun _ => "5eb63bbbe01eeed093cb22bb8f5acdc3").

Definition ingestion : DocumentIngestion :=
  mkDocumentIngestion "data/vector_store" "sentence-transformers/all-MiniLM-L6-v2"
    (Some (mkEmbeddings "sentence-transformers/all-MiniLM-L6-v2"))
    (Some (mkChroma "data/vector_store")).

(** An ingestion object whose embedding model failed to load. *)
Definition uninitialised_ingestion : DocumentIngestion :=
  mkDocumentIngestion "data/vector_store" "sentence-transformers/all-MiniLM-L6-v2"
    None None.

Definition empty_world : World := mkWorld [] 0 0 [].

(** Two files ingested into an empty index, then the first one deleted. *)
Definition two_files : World :=
  run env (OpIngestDocument ingestion "todo.md" None)
    (run env (OpIngestDocument ingestion "notes.txt" None) empty_world).

Definition one_file_left : World :=
  run env (OpDeleteDocument ingestion "notes.txt") two_files.

Definition world : World := mkWorld db 2 0 [].

(** An index holding a note that quotes the sentence of the empty
    context. *)
Definition quoting_db : Collection :=
  [ mkEntry 0 (document "faq.md"
                 "If you see No relevant documents found, upload a file first." 0 1) ].

Definition base_prompt : string := "You are a helpful AI assistant.".

(** A file whose name begins with a capital A umlaut (character 196), and
    the same name in lower case (character 228). *)
Definition umlaut_name : string := String (ascii_of_nat 196) "rger.txt".

Definition umlaut_name_lower : string := String (ascii_of_nat 228) "rger.txt".

Definition umlaut_db : Collection := [ mkEntry 0 (document umlaut_name "hello" 0 1) ].

End Sample.

(** A file system with office documents, on a machine where neither
    [pypdf] nor [docx2txt] is installed. *)
Module Office.

Definition getsize (path : string) : outcome Z :=
  if existsb (String.eqb path) ["report.pdf"; "letter.docx"; "table.csv"; "book.xlsx"]
  then Ok 4096%Z
  else Raised (Raise OSError "No such file or directory").

Definition read_file (path encoding : string) : outcome string :=
  Raised (Raise UnicodeDecodeError "invalid start byte").

Definition env : Externals :=
  mkExternals getsize read_file None None (Some Sample.pandas)
    (fun text => [text])
    (fun t => ("2024-05-01T10:00:" ++ Py.two_digits (Z.of_nat t))%string)
    (fun _ => "5eb63bbbe01eeed093cb22bb8f5acdc3").

End Office.

(** A file system for the first definitions of ingestion.py, standing
    alone, with langchain_chroma's [Chroma] as the vector store. *)
Module Archive.

Definition env : Shadowed.Externals :=
  Shadowed.mkExternals
    (fun path => (path =? "notes.txt") || (path =? "todo.md"))
    (fun path => if path =? "notes.txt" then Ok 11%Z else Ok 8%Z)
    (fun path =>
       if path =? "notes.txt" then Ok "5eb63bbbe01eeed093cb22bb8f5acdc3"
       else Ok "0f6f1a3c8a5c1d2e9b7a4c6d8e0f1a2b")
    true
    (fun parser path => if path =? "notes.txt" then Ok "hello world" else Ok "buy milk")
    (fun text => [text])
    (fun t => ("2024-05-01T10:00:" ++ Py.two_digits (Z.of_nat t))%string)
    (Raised (Raise AttributeError "'Chroma' object has no attribute 'persist'")).

Definition empty : Shadowed.State := Shadowed.mkState [] [] 0.

End Archive.

(* ================================================================== *)
(** * Properties *)

(** ** The stable descending sort *)

Lemma insert_by_score_perm (x : RetrievalResult) (l : list RetrievalResult) :
  Permutation (insert_by_score x l) (x :: l).
Proof.
  induction l as [|y l IH]; simpl.
  - reflexivity.
  - destruct (Qle_bool (score y) (score x)).
    + reflexivity.
    + rewrite IH. apply perm_swap.
Qed.

Lemma sort_by_score_perm (l : list RetrievalResult) :
  Permutation (sort_by_score l) l.
Proof.
  induction l as [|x l IH]; simpl.
  - constructor.
  - rewrite insert_by_score_perm. now constructor.
Qed.

Lemma insert_by_score_sorted (x : RetrievalResult) (l : list RetrievalResult) :
  StronglySorted score_ge l -> StronglySorted score_ge (insert_by_score x l).
Proof.
  induction 1 as [|y l Hs IH Hy]; simpl.
  - repeat constructor.
  - destruct (Qle_bool (score y) (score x)) eqn:E.
    + apply Qle_bool_iff in E.
      constructor; [now constructor|].
      constructor; [exact E|].
      eapply Forall_impl; [|exact Hy].
      intros z Hz. unfold score_ge in *. now apply Qle_trans with (score y).
    + constructor; [exact IH|].
      assert (Hxy : score_ge y x).
      { unfold score_ge. apply Qlt_le_weak, Qnot_le_lt.
        intro H. apply Qle_bool_iff in H. congruence. }
      eapply Permutation_Forall.
      * symmetry. apply insert_by_score_perm.
      * now constructor.
Qed.

Lemma sort_by_score_sorted (l : list RetrievalResult) :
  StronglySorted score_ge (sort_by_score l).
Proof.
  induction l as [|x l IH]; simpl.
  - constructor.
  - now apply insert_by_score_sorted.
Qed.

(** Inserting moves [x] only past results of strictly larger score, so
    the results of any one score keep their order. *)
Lemma insert_by_score_stable (s : Q) (x : RetrievalResult) (l : list RetrievalResult) :
  with_score s (insert_by_score x l) = with_score s (x :: l).
Proof.
  induction l as [|y l IH]; simpl.
  - reflexivity.
  - destruct (Qle_bool (score y) (score x)) eqn:E.
    + reflexivity.
    + simpl in IH |- *. rewrite IH.
      destruct (Qeq_bool (score x) s) eqn:Ex; [|reflexivity].
      destruct (Qeq_bool (score y) s) eqn:Ey; [|reflexivity].
      exfalso.
      apply Qeq_bool_iff in Ex, Ey.
      assert (H : Qle_bool (score y) (score x) = true).
      { apply Qle_bool_iff. rewrite Ex, Ey. apply Qle_refl. }
      congruence.
Qed.

Lemma sort_by_score_stable (s : Q) (l : list RetrievalResult) :
  with_score s (sort_by_score l) = with_score s l.
Proof.
  induction l as [|x l IH]; simpl.
  - reflexivity.
  - rewrite insert_by_score_stable.
    unfold with_score in *. simpl. now rewrite IH.
Qed.

(** ** Score normalisation *)

Lemma similarity_score_nonneg (d : Q) : (0 <= similarity_score d)%Q.
Proof.
  unfold similarity_score, Py.max.
  destruct (Qle_bool (1 - d) 0) eqn:E.
  - apply Qle_refl.
  - apply Qlt_le_weak, Qnot_le_lt.
    intro H. apply Qle_bool_iff in H. congruence.
Qed.

Lemma similarity_score_le_1 (d : Q) : (0 <= d)%Q -> (similarity_score d <= 1)%Q.
Proof.
  intro Hd. unfold similarity_score, Py.max.
  destruct (Qle_bool (1 - d) 0); lra.
Qed.

Lemma similarity_score_is_max (d : Q) : (similarity_score d == Qmax 0 (1 - d))%Q.
Proof.
  unfold similarity_score, Py.max.
  destruct (Qle_bool (1 - d) 0) eqn:E.
  - apply Qle_bool_iff in E. symmetry. now apply Q.max_l.
  - symmetry. apply Q.max_r.
    apply Qlt_le_weak, Qnot_le_lt.
    intro H. apply Qle_bool_iff in H. congruence.
Qed.

(** The clamp is from below only: a negative number in the place of a
    distance would give a score above 1. *)
Example similarity_score_of_negative :
  (similarity_score (- (1 # 2)) == 3 # 2)%Q.
Proof.
  reflexivity.
Qed.

(** ** The filtering loop *)

Lemma In_collect_results (thr : Q) (hits : list (Document * Q)) (r : RetrievalResult) :
  In r (collect_results thr hits) <->
  exists doc d, In (doc, d) hits /\ (thr <= similarity_score d)%Q
                /\ r = make_result doc (similarity_score d).
Proof.
  induction hits as [|[doc0 d0] hits IH]; simpl.
  - split; [tauto|]. intros (doc & d & [] & _).
  - destruct (Qle_bool thr (similarity_score d0)) eqn:E; simpl; rewrite IH; split.
    + intros [<- | (doc & d & Hin & Hle & ->)].
      * exists doc0, d0. apply Qle_bool_iff in E. auto.
      * exists doc, d. auto.
    + intros (doc & d & [Heq | Hin] & Hle & ->).
      * inversion Heq; subst. now left.
      * right. exists doc, d. auto.
    + intros (doc & d & Hin & Hle & ->). exists doc, d. auto.
    + intros (doc & d & [Heq | Hin] & Hle & ->).
      * inversion Heq; subst. apply Qle_bool_iff in Hle. congruence.
      * exists doc, d. auto.
Qed.

Lemma length_collect_results (thr : Q) (hits : list (Document * Q)) :
  length (collect_results thr hits) =
  length (filter (fun h => Qle_bool thr (similarity_score (snd h))) hits).
Proof.
  induction hits as [|[doc d] hits IH]; simpl.
  - reflexivity.
  - destruct (Qle_bool thr (similarity_score d)); simpl; now rewrite IH.
Qed.

Lemma collect_results_scores (thr : Q) (hits : list (Document * Q)) :
  Forall (fun h => 0 <= snd h)%Q hits ->
  Forall (fun r => 0 <= score r <= 1)%Q (collect_results thr hits).
Proof.
  intros Hd. apply Forall_forall. intros r Hr.
  apply In_collect_results in Hr. destruct Hr as (doc & d & Hin & _ & ->).
  rewrite Forall_forall in Hd. specialize (Hd _ Hin). simpl in *.
  split; [apply similarity_score_nonneg | now apply similarity_score_le_1].
Qed.

Lemma collect_results_scores_nonneg (thr : Q) (hits : list (Document * Q)) :
  Forall (fun r => 0 <= score r)%Q (collect_results thr hits).
Proof.
  apply Forall_forall. intros r Hr.
  apply In_collect_results in Hr. destruct Hr as (doc & d & _ & _ & ->).
  apply similarity_score_nonneg.
Qed.

(** ** retrieve_relevant_docs *)

Lemma retrieve_relevant_docs_available
    (search : SimilaritySearch)
    (self : DocumentRetrieval) (db : Collection) (query : string) (k : Z) (thr : Q)
    (hits : list (Document * Q)) :
  is_available self = true ->
  search db query k = Ok hits ->
  retrieve_relevant_docs search self db query k thr
  = Ok (sort_by_score (collect_results thr hits)).
Proof.
  intros Ha Hs. unfold retrieve_relevant_docs. rewrite Ha, Hs. reflexivity.
Qed.

(** The three ways [retrieve_relevant_docs] can go. *)
Lemma retrieve_relevant_docs_cases
    (search : SimilaritySearch)
    (self : DocumentRetrieval) (db : Collection) (query : string) (k : Z) (thr : Q) :
  (is_available self = false
   /\ retrieve_relevant_docs search self db query k thr = Ok [])
  \/ (is_available self = true /\ (exists e, search db query k = Raised e)
      /\ retrieve_relevant_docs search self db query k thr = Ok [])
  \/ (is_available self = true
      /\ exists hits, search db query k = Ok hits
         /\ retrieve_relevant_docs search self db query k thr
            = Ok (sort_by_score (collect_results thr hits))).
Proof.
  unfold retrieve_relevant_docs.
  destruct (is_available self); simpl; [|now left].
  right. destruct (search db query k) as [hits|e]; simpl.
  - right. split; [reflexivity|]. now exists hits.
  - left. split; [reflexivity|]. split; [now exists e | reflexivity].
Qed.

Lemma search_within_empty
    (search : SimilaritySearch)
    (query : string) (k : Z) (hits : list (Document * Q)) :
  search_within search -> search [] query k = Ok hits -> hits = [].
Proof.
  intros Hw Hs. destruct hits as [|[doc d] hits]; [reflexivity|].
  exfalso. apply (Hw [] query k _ Hs doc d). now left.
Qed.

Lemma In_firstn {A : Type} (x : A) (n : nat) (l : list A) :
  In x (firstn n l) -> In x l.
Proof.
  revert l. induction n as [|n IH]; intros [|y l]; simpl; try tauto.
  intros [H | H]; [now left | right; now apply IH].
Qed.

Lemma Sample_search_within : search_within Sample.search.
Proof.
  intros db query k hits Hs doc d Hin.
  unfold Sample.search in Hs. inversion Hs; subst; clear Hs.
  apply In_firstn in Hin. apply in_map_iff in Hin.
  destruct Hin as (e & Heq & He). inversion Heq; subst.
  now apply in_map.
Qed.

(** C3.  When the index is available and the search returns its hits,
    [retrieve_relevant_docs] returns exactly the hits whose normalised score
    [max(0, 1 - d)] is at least [score_threshold], each carrying that
    score: a result is in the list iff it comes from such a hit, a hit is
    in the list iff its score reaches the threshold, and nothing is
    duplicated or lost. *)
Theorem retrieve_normalises_and_thresholds
    (search : SimilaritySearch)
    (self : DocumentRetrieval) (db : Collection) (query : string) (k : Z)
    (score_threshold : Q) (hits : list (Document * Q)) :
  is_available self = true ->
  search db query k = Ok hits ->
  exists results,
    retrieve_relevant_docs search self db query k score_threshold = Ok results
    /\ (forall r, In r results <->
          exists doc d, In (doc, d) hits
                        /\ (score_threshold <= similarity_score d)%Q
                        /\ r = make_result doc (similarity_score d))
    /\ (forall doc d, In (doc, d) hits ->
          (In (make_result doc (similarity_score d)) results
           <-> (score_threshold <= similarity_score d)%Q))
    /\ length results
       = length (filter (fun h => Qle_bool score_threshold (similarity_score (snd h))) hits)
    /\ (forall d, similarity_score d == Qmax 0 (1 - d))%Q.
Proof.
  intros Ha Hs.
  exists (sort_by_score (collect_results score_threshold hits)).
  split; [now apply retrieve_relevant_docs_available|].
  assert (Hin : forall r,
             In r (sort_by_score (collect_results score_threshold hits)) <->
             In r (collect_results score_threshold hits)).
  { intro r. split; apply Permutation_in;
      [|symmetry]; apply sort_by_score_perm. }
  split; [|split; [|split]].
  - intro r. rewrite Hin. apply In_collect_results.
  - intros doc d Hd. rewrite Hin, In_collect_results. split.
    + intros (doc' & d' & _ & Hle & Heq).
      apply (f_equal score) in Heq. simpl in Heq. now rewrite Heq.
    + intro Hle. exists doc, d. auto.
  - rewrite <- length_collect_results.
    apply Permutation_length, sort_by_score_perm.
  - apply similarity_score_is_max.
Qed.

Lemma retrieve_normalises_and_thresholds_witness :
  exists results,
    retrieve_relevant_docs Sample.search Sample.retrieval Sample.db "hello" 5 (9 # 10)
    = Ok results
    /\ (forall r, In r results <->
          exists doc d,
            In (doc, d) [ (Sample.document "a.txt" "hello" 0 1, 0 # 10);
                          (Sample.document "b.txt" "goodbye" 0 1, 2 # 10) ]
            /\ (9 # 10 <= similarity_score d)%Q
            /\ r = make_result doc (similarity_score d))
    /\ (forall doc d,
          In (doc, d) [ (Sample.document "a.txt" "hello" 0 1, 0 # 10);
                        (Sample.document "b.txt" "goodbye" 0 1, 2 # 10) ] ->
          (In (make_result doc (similarity_score d)) results
           <-> (9 # 10 <= similarity_score d)%Q))
    /\ length results
       = length (filter (fun h => Qle_bool (9 # 10) (similarity_score (snd h)))
                   [ (Sample.document "a.txt" "hello" 0 1, 0 # 10);
                     (Sample.document "b.txt" "goodbye" 0 1, 2 # 10) ])
    /\ (forall d, similarity_score d == Qmax 0 (1 - d))%Q.
Proof.
  apply (retrieve_normalises_and_thresholds Sample.search Sample.retrieval Sample.db
           "hello" 5 (9 # 10)); reflexivity.
Defined.

(** C4.  Every result returned by [retrieve_relevant_docs] has a score of
    at least 0 and, the backend reporting non-negative distances, of at
    most 1; the list is sorted by non-increasing score; and the sort is
    stable: the results of any one score stand in the order the search
    returned them. *)
Theorem retrieve_scores_bounded_sorted_stable
    (search : SimilaritySearch)
    (self : DocumentRetrieval) (db : Collection) (query : string) (k : Z)
    (score_threshold : Q) :
  exists results,
    retrieve_relevant_docs search self db query k score_threshold = Ok results
    /\ Forall (fun r => 0 <= score r)%Q results
    /\ ((forall hits, search db query k = Ok hits -> Forall (fun h => 0 <= snd h)%Q hits) ->
        Forall (fun r => 0 <= score r <= 1)%Q results)
    /\ StronglySorted score_ge results
    /\ (forall hits,
          is_available self = true ->
          search db query k = Ok hits ->
          forall s, with_score s results
                    = with_score s (collect_results score_threshold hits)).
Proof.
  destruct (retrieve_relevant_docs_cases search self db query k score_threshold)
    as [(Ha & ->) | [(Ha & (e & He) & ->) | (Ha & hits & Hs & ->)]].
  - exists []. repeat split; try constructor.
    intros hits Ha'. congruence.
  - exists []. repeat split; try constructor.
    intros hits _ Hs. congruence.
  - exists (sort_by_score (collect_results score_threshold hits)).
    split; [reflexivity|].
    assert (Hsorted : forall P : RetrievalResult -> Prop,
               Forall P (collect_results score_threshold hits) ->
               Forall P (sort_by_score (collect_results score_threshold hits))).
    { intros P. apply Permutation_Forall. symmetry. apply sort_by_score_perm. }
    split; [|split; [|split]].
    + apply Hsorted, collect_results_scores_nonneg.
    + intro Hd. apply Hsorted, collect_results_scores. now apply Hd.
    + apply sort_by_score_sorted.
    + intros hits' _ Hs' s.
      assert (hits' = hits) by congruence. subst.
      apply sort_by_score_stable.
Qed.

Lemma retrieve_scores_bounded_sorted_stable_witness :
  exists results,
    retrieve_relevant_docs Sample.search Sample.retrieval Sample.db "hello" 5 0 = Ok results
    /\ Forall (fun r => 0 <= score r <= 1)%Q results
    /\ StronglySorted score_ge results
    /\ (forall s, with_score s results
                  = with_score s
                      (collect_results 0
                         [ (Sample.document "a.txt" "hello" 0 1, 0 # 10);
                           (Sample.document "b.txt" "goodbye" 0 1, 2 # 10) ])).
Proof.
  destruct (retrieve_scores_bounded_sorted_stable Sample.search Sample.retrieval Sample.db
              "hello" 5 0) as (results & Hr & _ & Hbound & Hsorted & Hstable).
  exists results. split; [exact Hr|]. split; [|split].
  - apply Hbound. intros hits H. vm_compute in H. injection H as <-.
    repeat constructor; simpl; discriminate.
  - exact Hsorted.
  - apply Hstable; reflexivity.
Defined.

(** ** get_context_for_query *)

Lemma get_context_for_query_unfold
    (search : SimilaritySearch)
    (self : DocumentRetrieval) (db : Collection) (query : string) (max_tokens : Z)
    (results : list RetrievalResult) :
  retrieve_relevant_docs search self db query 10 0 = Ok results ->
  get_context_for_query search self db query max_tokens
  = Ok match pack_chunks max_tokens 0 results with
       | [] => no_relevant_documents
       | _ :: _ => render_context (pack_chunks max_tokens 0 results)
       end.
Proof.
  intro Hr. unfold get_context_for_query. rewrite Hr. simpl.
  destruct results as [|doc rest]; [reflexivity|].
  now destruct (pack_chunks max_tokens 0 (doc :: rest)).
Qed.

Lemma retrieve_relevant_docs_returns
    (search : SimilaritySearch)
    (self : DocumentRetrieval) (db : Collection) (query : string) (k : Z) (thr : Q) :
  exists results, retrieve_relevant_docs search self db query k thr = Ok results.
Proof.
  destruct (retrieve_relevant_docs_cases search self db query k thr)
    as [(_ & ->) | [(_ & _ & ->) | (_ & hits & _ & ->)]]; eauto.
Qed.

Lemma render_context_not_sentinel (context_parts : list string) :
  render_context context_parts <> no_relevant_documents.
Proof.
  unfold render_context, no_relevant_documents. simpl. discriminate.
Qed.

(** The packing loop keeps a prefix of the results, each chunk whole; what
    it keeps fits the budget; and it stops only at the end of the results
    or before a chunk that would overflow. *)
Lemma pack_chunks_prefix (max_tokens : Z) (docs : list RetrievalResult) :
  forall total_length : Z,
  exists n,
    (n <= length docs)%nat
    /\ pack_chunks max_tokens total_length docs = map format_chunk (firstn n docs)
    /\ ((0 < n)%nat ->
        (total_length + total_tokens (map format_chunk (firstn n docs)) <= max_tokens)%Z)
    /\ (n = length docs
        \/ exists next,
             nth_error docs n = Some next
             /\ (max_tokens < total_length
                              + total_tokens (map format_chunk (firstn n docs))
                              + estimate_tokens (format_chunk next))%Z).
Proof.
  induction docs as [|doc rest IH]; intro total_length; simpl.
  - exists 0%nat. simpl. repeat split; lia.
  - destruct (total_length + estimate_tokens (format_chunk doc) >? max_tokens)%Z eqn:E.
    + exists 0%nat. simpl. repeat split; try lia.
      right. exists doc. split; [reflexivity|]. lia.
    + destruct (IH (total_length + estimate_tokens (format_chunk doc))%Z)
        as (n & Hn & Hp & Hfit & Hstop).
      exists (S n). simpl. split; [lia|]. split; [now rewrite Hp|]. split.
      * intros _. destruct n as [|n].
        -- simpl. lia.
        -- specialize (Hfit ltac:(lia)). simpl in Hfit |- *. lia.
      * destruct Hstop as [-> | (next & Hnext & Hover)]; [now left|].
        right. exists next. split; [exact Hnext|]. lia.
Qed.

(** C6.  Retrieval does not raise: [retrieve_relevant_docs] and
    [get_context_for_query] always return.  When the index is unavailable,
    empty, or its search fails, [retrieve_relevant_docs] returns the empty
    list and [get_context_for_query] returns the "no relevant documents"
    sentence, which is not the empty string. *)
Theorem retrieval_degrades_without_raising
    (search : SimilaritySearch)
    (self : DocumentRetrieval) (db : Collection) (query : string) (k : Z)
    (score_threshold : Q) (max_tokens : Z) :
  search_within search ->
  (exists results,
      retrieve_relevant_docs search self db query k score_threshold = Ok results)
  /\ (exists text, get_context_for_query search self db query max_tokens = Ok text)
  /\ (is_available self = false \/ db = [] \/ (exists e, search db query k = Raised e) ->
      retrieve_relevant_docs search self db query k score_threshold = Ok [])
  /\ (is_available self = false \/ db = [] \/ (exists e, search db query 10%Z = Raised e) ->
      get_context_for_query search self db query max_tokens = Ok no_relevant_documents)
  /\ no_relevant_documents <> "".
Proof.
  intro Hw.
  assert (Hempty : forall k' thr,
             is_available self = false \/ db = []
             \/ (exists e, search db query k' = Raised e) ->
             retrieve_relevant_docs search self db query k' thr = Ok []).
  { intros k' thr Hcase.
    destruct (retrieve_relevant_docs_cases search self db query k' thr)
      as [(_ & H) | [(_ & _ & H) | (Ha & hits & Hs & H)]]; try exact H.
    destruct Hcase as [Hu | [-> | (e & He)]]; try congruence.
    rewrite H. now rewrite (search_within_empty search query k' hits Hw Hs). }
  split; [apply retrieve_relevant_docs_returns|].
  split.
  { destruct (retrieve_relevant_docs_returns search self db query 10 0) as (results & Hr).
    rewrite (get_context_for_query_unfold _ _ _ _ _ _ Hr). eauto. }
  split; [apply Hempty|].
  split.
  { intro Hcase.
    now rewrite (get_context_for_query_unfold _ _ _ _ _ _ (Hempty 10%Z 0%Q Hcase)). }
  unfold no_relevant_documents. discriminate.
Qed.

Lemma retrieval_degrades_without_raising_witness :
  (exists results,
      retrieve_relevant_docs Sample.search Sample.retrieval [] "hello" 5 0 = Ok results)
  /\ (exists text, get_context_for_query Sample.search Sample.retrieval [] "hello" 3000 = Ok text)
  /\ (is_available Sample.retrieval = false \/ @nil Entry = []
      \/ (exists e, Sample.search [] "hello" 5 = Raised e) ->
      retrieve_relevant_docs Sample.search Sample.retrieval [] "hello" 5 0 = Ok [])
  /\ (is_available Sample.retrieval = false \/ @nil Entry = []
      \/ (exists e, Sample.search [] "hello" 10 = Raised e) ->
      get_context_for_query Sample.search Sample.retrieval [] "hello" 3000
      = Ok no_relevant_documents)
  /\ no_relevant_documents <> "".
Proof.
  apply (retrieval_degrades_without_raising Sample.search Sample.retrieval [] "hello" 5 0 3000).
  exact Sample_search_within.
Defined.

(** C10.  [get_context_for_query] returns the "no relevant documents"
    sentence exactly when retrieval returned nothing or when the estimate
    of the best chunk alone exceeds [max_tokens]; the second case occurs
    for a non-empty retrieval, and the returned text is the same in
    both. *)
Theorem no_context_sentence_has_two_causes :
  (forall (search : SimilaritySearch)
          (self : DocumentRetrieval) (db : Collection) (query : string)
          (max_tokens : Z) (results : list RetrievalResult),
      retrieve_relevant_docs search self db query 10 0 = Ok results ->
      (get_context_for_query search self db query max_tokens = Ok no_relevant_documents
       <-> results = []
           \/ exists doc rest,
                results = doc :: rest
                /\ (max_tokens < estimate_tokens (format_chunk doc))%Z))
  /\ (exists doc rest,
        retrieve_relevant_docs Sample.search Sample.retrieval Sample.db "hello" 10 0
        = Ok (doc :: rest)
        /\ get_context_for_query Sample.search Sample.retrieval Sample.db "hello" 5
           = Ok no_relevant_documents
        /\ get_context_for_query Sample.search Sample.retrieval [] "hello" 5
           = Ok no_relevant_documents).
Proof.
  split.
  - intros search self db query max_tokens results Hr.
    rewrite (get_context_for_query_unfold _ _ _ _ _ _ Hr).
    destruct results as [|doc rest]; simpl.
    + split; [now left | reflexivity].
    + destruct (estimate_tokens (format_chunk doc) >? max_tokens)%Z eqn:E.
      * split; [|reflexivity]. intros _. right. exists doc, rest.
        split; [reflexivity | lia].
      * split.
        -- intro H. exfalso.
           apply (render_context_not_sentinel
                    (format_chunk doc
                     :: pack_chunks max_tokens (estimate_tokens (format_chunk doc)) rest)).
           congruence.
        -- intros [H | (doc' & rest' & H & Hlt)]; [discriminate|].
           inversion H; subst. lia.
  - eexists. eexists. split; [|split]; vm_compute; reflexivity.
Qed.

Lemma no_context_sentence_has_two_causes_witness :
  get_context_for_query Sample.search Sample.retrieval Sample.db "hello" 5
  = Ok no_relevant_documents
  <-> sort_by_score (collect_results 0
        [ (Sample.document "a.txt" "hello" 0 1, 0 # 10);
          (Sample.document "b.txt" "goodbye" 0 1, 2 # 10) ]) = []
      \/ exists doc rest,
           sort_by_score (collect_results 0
             [ (Sample.document "a.txt" "hello" 0 1, 0 # 10);
               (Sample.document "b.txt" "goodbye" 0 1, 2 # 10) ]) = doc :: rest
           /\ (5 < estimate_tokens (format_chunk doc))%Z.
Proof.
  apply (proj1 no_context_sentence_has_two_causes
           Sample.search Sample.retrieval Sample.db "hello" 5%Z).
  reflexivity.
Defined.

(** C2, as the code has it.  [get_context_for_query] takes the retrieved
    results, which are in descending score order, and includes the first
    [n] of them, each chunk whole.  The number [n] is fixed by the greedy
    loop: the sum of the per-chunk estimates [len(chunk_text) // 4] of the
    included chunks is at most [max_tokens], and the loop stopped only at
    the end of the results or before the first chunk whose estimate would
    overflow.  The text returned is the "no relevant documents" sentence
    exactly when no chunk is included, and otherwise a header, the
    formatted texts of the included chunks and a footer. *)
Theorem context_packs_whole_chunks_within_budget
    (search : SimilaritySearch)
    (self : DocumentRetrieval) (db : Collection) (query : string) (max_tokens : Z) :
  exists results text n,
    retrieve_relevant_docs search self db query 10 0 = Ok results
    /\ get_context_for_query search self db query max_tokens = Ok text
    /\ StronglySorted score_ge results
    /\ (n <= length results)%nat
    /\ text = match n with
              | O => no_relevant_documents
              | S _ => render_context (map format_chunk (firstn n results))
              end
    /\ (text = no_relevant_documents <-> n = 0%nat)
    /\ ((0 < n)%nat ->
        (total_tokens (map format_chunk (firstn n results)) <= max_tokens)%Z)
    /\ (n = length results
        \/ exists next,
             nth_error results n = Some next
             /\ (max_tokens
                 < total_tokens (map format_chunk (firstn n results))
                   + estimate_tokens (format_chunk next))%Z).
Proof.
  destruct (retrieve_relevant_docs_returns search self db query 10 0) as (results & Hr).
  destruct (pack_chunks_prefix max_tokens results 0) as (n & Hn & Hp & Hfit & Hstop).
  exists results. eexists. exists n. split; [exact Hr|].
  split; [apply (get_context_for_query_unfold _ _ _ _ _ _ Hr)|].
  split.
  { destruct (retrieve_relevant_docs_cases search self db query 10 0)
      as [(_ & H) | [(_ & _ & H) | (_ & hits & _ & H)]];
      rewrite Hr in H; injection H as ->; try constructor.
    apply sort_by_score_sorted. }
  split; [exact Hn|].
  rewrite Hp.
  assert (Htext : match map format_chunk (firstn n results) with
                  | [] => no_relevant_documents
                  | _ :: _ => render_context (map format_chunk (firstn n results))
                  end
                  = match n with
                    | O => no_relevant_documents
                    | S _ => render_context (map format_chunk (firstn n results))
                    end).
  { destruct n as [|n]; [reflexivity|].
    destruct results as [|doc rest]; [simpl in Hn; lia | reflexivity]. }
  split; [exact Htext|].
  split.
  { rewrite Htext. destruct n as [|n]; [tauto|].
    split; [|discriminate]. intro H. exfalso.
    now apply (render_context_not_sentinel (map format_chunk (firstn (S n) results))). }
  split; [intro Hpos; specialize (Hfit Hpos); lia|].
  destruct Hstop as [Hall | (next & Hnext & Hover)]; [now left|].
  right. exists next. split; [exact Hnext | lia].
Qed.

(** C2 as stated fails: with a budget of 12 tokens the one chunk that fits
    is estimated at exactly 12, and the text returned around it is
    estimated at more than twice the budget. *)
Lemma context_estimate_exceeds_budget :
  exists text,
    get_context_for_query Sample.search Sample.retrieval Sample.db "hello" 12 = Ok text
    /\ estimate_tokens text = 28%Z
    /\ ~ (estimate_tokens text <= 12)%Z.
Proof.
  eexists. split; [vm_compute; reflexivity|].
  split; [vm_compute; reflexivity|].
  vm_compute. intro H. now apply H.
Qed.

(** ** ingest_document *)

Lemma log_calls_app (w : World) (cs cs' : list Call) :
  log_calls (log_calls w cs) cs' = log_calls w (cs ++ cs').
Proof.
  unfold log_calls. simpl. now rewrite <- app_assoc.
Qed.

Lemma parse_document_eq (env : Externals) (file_path : string) (w : World) :
  parse_document env file_path w
  = match get_file_type file_path with
    | None =>
        (Raised (Raise ValueError
                   ("Unsupported file type: " ++ Py.path_suffix file_path)%string), w)
    | Some file_type =>
        (dispatch_parser env file_type file_path,
         log_calls w [CallParser file_type file_path])
    end.
Proof.
  unfold parse_document.
  destruct (get_file_type file_path) as [file_type|]; [|reflexivity].
  unfold attempt, bind, call, lift, log_calls. simpl.
  now destruct (dispatch_parser env file_type file_path).
Qed.

Lemma chunk_text_eq (env : Externals) (text file_name : string) (w : World) :
  chunk_text env text file_name w
  = (Ok (make_documents env (clock w) text file_name (split_text env text)),
     mkWorld (collection w) (next_id w) (clock w + length (split_text env text))
       (calls w ++ [CallSplitText text])).
Proof.
  reflexivity.
Qed.

Lemma length_enumerate_from {A : Type} (i : nat) (l : list A) :
  length (enumerate_from i l) = length l.
Proof.
  revert i. induction l as [|x l IH]; intro i; simpl; [reflexivity|]. now rewrite IH.
Qed.

Lemma length_make_documents (env : Externals) (t : nat) (text file_name : string)
    (chunks : list string) :
  length (make_documents env t text file_name chunks) = length chunks.
Proof.
  unfold make_documents. now rewrite length_map, length_enumerate_from.
Qed.

(** What [ingest_document] does on an initialised pipeline, step by step. *)
Lemma ingest_document_eq (env : Externals) (self : DocumentIngestion) (store : Chroma)
    (file_path : string) (file_name : option string) (w : World) :
  ing_vector_store self = Some store ->
  ingest_document env self file_path file_name w
  = let name := default_file_name file_path file_name in
    match getsize env file_path with
    | Raised e => (Ok (IngestError name (exn_msg e)), log_calls w [CallGetsize file_path])
    | Ok file_size =>
        if (file_size >? MAX_FILE_SIZE)%Z
        then (Ok (IngestError name "File too large (max 50MB)"),
              log_calls w [CallGetsize file_path])
        else
          match get_file_type file_path with
          | None =>
              (Ok (IngestError name
                     ("Unsupported file type: " ++ Py.path_suffix file_path)%string),
               log_calls w [CallGetsize file_path])
          | Some file_type =>
              match dispatch_parser env file_type file_path with
              | Raised e =>
                  (Ok (IngestError name (exn_msg e)),
                   log_calls w [CallGetsize file_path; CallParser file_type file_path])
              | Ok text =>
                  if Py.strip_is_empty text
                  then (Ok (IngestError name "No text content extracted from document"),
                        log_calls w [CallGetsize file_path; CallParser file_type file_path])
                  else
                    let chunks := split_text env text in
                    let documents := make_documents env (clock w) text name chunks in
                    (Ok (IngestSuccess name (Some file_size) (length documents)
                           (seq (next_id w) (length documents))
                           (isoformat env (clock w + length chunks))),
                     mkWorld
                       (collection w
                        ++ map (fun '(i, d) => mkEntry i d)
                             (enumerate_from (next_id w) documents))
                       (next_id w + length documents)
                       (S (clock w + length chunks))
                       (calls w ++ [ CallGetsize file_path;
                                     CallParser file_type file_path;
                                     CallSplitText text;
                                     CallAddDocuments documents ]))
              end
          end
    end.
Proof.
  intro Hstore. unfold ingest_document. rewrite Hstore.
  unfold attempt, bind at 1 2. unfold call, lift. simpl.
  destruct (getsize env file_path) as [file_size|e]; [|reflexivity].
  destruct (file_size >? MAX_FILE_SIZE)%Z; [reflexivity|].
  unfold bind at 1. rewrite parse_document_eq.
  destruct (get_file_type file_path) as [file_type|]; [|reflexivity].
  destruct (dispatch_parser env file_type file_path) as [text|e]; simpl.
  - destruct (Py.strip_is_empty text); simpl.
    + unfold log_calls. simpl. now rewrite <- app_assoc.
    + unfold bind, chunk_text, attempt, call, chroma_add_documents, datetime_now, ret, bind.
      simpl. now rewrite <- !app_assoc.
  - unfold log_calls. simpl. now rewrite <- app_assoc.
Qed.

Lemma ingest_document_uninitialised (env : Externals) (self : DocumentIngestion)
    (file_path : string) (file_name : option string) (w : World) :
  ing_vector_store self = None ->
  ingest_document env self file_path file_name w
  = (Raised (Raise RuntimeError "Vector store not initialized"), w).
Proof.
  intro Hstore. unfold ingest_document. now rewrite Hstore.
Qed.

Lemma total_chunks_get_statistics (self : DocumentRetrieval) (db : Collection) :
  is_available self = true ->
  total_chunks (get_statistics self db) = Some (Z.of_nat (length db)).
Proof.
  intro Ha. unfold get_statistics. rewrite Ha. now destruct db.
Qed.

(** C9, as the code has it.  A file larger than 50MB, or one whose
    extension is not supported, is rejected before any work: on a pipeline
    whose vector store is initialised [ingest_document] returns an error
    result, the only call it made is the size query (no parser, splitter or
    index call) and the collection is unchanged; on a pipeline whose vector
    store is not initialised it raises [RuntimeError] at once, having done
    nothing. *)
Theorem ingest_document_rejects_before_parsing
    (env : Externals) (self : DocumentIngestion) (file_path : string)
    (file_name : option string) (w : World) :
  (exists file_size,
      getsize env file_path = Ok file_size /\ (file_size > MAX_FILE_SIZE)%Z)
  \/ is_supported file_path = false ->
  (forall store,
      ing_vector_store self = Some store ->
      exists error w',
        ingest_document env self file_path file_name w
        = (Ok (IngestError (default_file_name file_path file_name) error), w')
        /\ status (IngestError (default_file_name file_path file_name) error) = "error"
        /\ collection w' = collection w
        /\ calls w' = calls w ++ [CallGetsize file_path]
        /\ Forall (fun c => is_work c = false) [CallGetsize file_path])
  /\ (ing_vector_store self = None ->
      ingest_document env self file_path file_name w
      = (Raised (Raise RuntimeError "Vector store not initialized"), w)).
Proof.
  intro Hreject. split; [|apply ingest_document_uninitialised].
  intros store Hstore.
  rewrite (ingest_document_eq env self store file_path file_name w Hstore). simpl.
  assert (Hdone : forall error,
             exists error' w',
               (Ok (IngestError (default_file_name file_path file_name) error),
                log_calls w [CallGetsize file_path])
               = (Ok (IngestError (default_file_name file_path file_name) error'), w')
               /\ "error" = "error"
               /\ collection w' = collection w
               /\ calls w' = calls w ++ [CallGetsize file_path]
               /\ Forall (fun c => is_work c = false) [CallGetsize file_path]).
  { intro error. exists error, (log_calls w [CallGetsize file_path]).
    repeat split. repeat constructor. }
  destruct (getsize env file_path) as [file_size|e]; [|apply Hdone].
  destruct (file_size >? MAX_FILE_SIZE)%Z eqn:Hsize; [apply Hdone|].
  destruct Hreject as [(file_size' & Heq & Hlarge) | Hunsupported].
  - injection Heq as <-. lia.
  - unfold is_supported in Hunsupported. unfold get_file_type.
    destruct (dict_get SUPPORTED_EXTENSIONS (Py.lower (Py.path_suffix file_path)));
      [discriminate | apply Hdone].
Qed.

Lemma ingest_document_rejects_before_parsing_witness :
  (forall store,
      ing_vector_store Sample.ingestion = Some store ->
      exists error w',
        ingest_document Sample.env Sample.ingestion "huge.txt" None Sample.empty_world
        = (Ok (IngestError (default_file_name "huge.txt" None) error), w')
        /\ status (IngestError (default_file_name "huge.txt" None) error) = "error"
        /\ collection w' = collection Sample.empty_world
        /\ calls w' = calls Sample.empty_world ++ [CallGetsize "huge.txt"]
        /\ Forall (fun c => is_work c = false) [CallGetsize "huge.txt"])
  /\ (ing_vector_store Sample.ingestion = None ->
      ingest_document Sample.env Sample.ingestion "huge.txt" None Sample.empty_world
      = (Raised (Raise RuntimeError "Vector store not initialized"), Sample.empty_world)).
Proof.
  apply (ingest_document_rejects_before_parsing Sample.env Sample.ingestion "huge.txt"
           None Sample.empty_world).
  left. exists (60 * 1024 * 1024)%Z. split; [reflexivity | vm_compute; reflexivity].
Defined.

(** C9 as stated fails: on a pipeline whose vector store did not
    initialise, [ingest_document] does not return an error result for the
    oversized file nor for the unsupported one; it raises. *)
Lemma rejected_file_raises_when_uninitialised :
  getsize Sample.env "huge.txt" = Ok (60 * 1024 * 1024)%Z
  /\ (60 * 1024 * 1024 > MAX_FILE_SIZE)%Z
  /\ is_supported "tool.exe" = false
  /\ ingest_document Sample.env Sample.uninitialised_ingestion "huge.txt" None
       Sample.empty_world
     = (Raised (Raise RuntimeError "Vector store not initialized"), Sample.empty_world)
  /\ ingest_document Sample.env Sample.uninitialised_ingestion "tool.exe" None
       Sample.empty_world
     = (Raised (Raise RuntimeError "Vector store not initialized"), Sample.empty_world)
  /\ (forall r w',
        ingest_document Sample.env Sample.uninitialised_ingestion "huge.txt" None
          Sample.empty_world <> (Ok r, w')).
Proof.
  repeat split; try (vm_compute; reflexivity).
  intros r w'. vm_compute. discriminate.
Qed.

(** A branch in which the ingestion ended in an error result cannot be
    the successful first call of [H]. *)
Ltac not_a_success H := injection H as <- _; discriminate.

(** C1 on the code.  [ingest_document] keeps no record of what it has
    ingested: when a first call succeeded, a second call on the same file
    succeeds again, with status ["success"] and the same number of chunks,
    and stores the chunks a second time, so the chunk count reported by
    [get_statistics] grows by that number. *)
Theorem ingest_document_twice_stores_twice
    (env : Externals) (self : DocumentIngestion) (file_path : string)
    (file_name : option string) (w w1 : World) (r1 : IngestResult) :
  ingest_document env self file_path file_name w = (Ok r1, w1) ->
  status r1 = "success" ->
  exists name size n ids1 date1 ids2 date2 w2,
    r1 = IngestSuccess name size n ids1 date1
    /\ ingest_document env self file_path file_name w1
       = (Ok (IngestSuccess name size n ids2 date2), w2)
    /\ status (IngestSuccess name size n ids2 date2) = "success"
    /\ length (collection w1) = (length (collection w) + n)%nat
    /\ length (collection w2) = (length (collection w1) + n)%nat
    /\ (forall retrieval,
          is_available retrieval = true ->
          total_chunks (get_statistics retrieval (collection w2))
          = Some (Z.of_nat (length (collection w1) + n))).
Proof.
  intros Hfirst Hstatus.
  destruct (ing_vector_store self) as [store|] eqn:Hstore;
    [|rewrite ingest_document_uninitialised in Hfirst by exact Hstore; discriminate].
  rewrite (ingest_document_eq env self store _ _ w1 Hstore).
  rewrite (ingest_document_eq env self store _ _ w Hstore) in Hfirst.
  simpl in Hfirst |- *.
  destruct (getsize env file_path) as [file_size|e];
    [|not_a_success Hfirst].
  destruct (file_size >? MAX_FILE_SIZE)%Z;
    [not_a_success Hfirst|].
  destruct (get_file_type file_path) as [file_type|];
    [|not_a_success Hfirst].
  destruct (dispatch_parser env file_type file_path) as [text|e];
    [|not_a_success Hfirst].
  destruct (Py.strip_is_empty text);
    [not_a_success Hfirst|].
  injection Hfirst as <- <-. simpl.
  rewrite !length_make_documents.
  do 8 eexists. split; [reflexivity|]. split; [reflexivity|]. split; [reflexivity|].
  assert (Hlen : forall t i,
             length (map (fun '(i, d) => mkEntry i d)
                       (enumerate_from i
                          (make_documents env t text
                             (default_file_name file_path file_name)
                             (split_text env text))))
             = length (split_text env text)).
  { intros t i. now rewrite length_map, length_enumerate_from, length_make_documents. }
  split; [|split].
  - now rewrite length_app, Hlen.
  - simpl. rewrite !length_app, !Hlen. lia.
  - intros retrieval Ha. rewrite total_chunks_get_statistics by exact Ha.
    simpl. now rewrite !length_app, !Hlen.
Qed.

Lemma ingest_document_twice_stores_twice_witness :
  exists name size n ids1 date1 ids2 date2 w2,
    IngestSuccess "notes.txt" (Some 11%Z) 1 [0%nat] "2024-05-01T10:00:01"
    = IngestSuccess name size n ids1 date1
    /\ ingest_document Sample.env Sample.ingestion "notes.txt" None
         (snd (ingest_document Sample.env Sample.ingestion "notes.txt" None
                 Sample.empty_world))
       = (Ok (IngestSuccess name size n ids2 date2), w2)
    /\ status (IngestSuccess name size n ids2 date2) = "success"
    /\ length (collection (snd (ingest_document Sample.env Sample.ingestion "notes.txt"
                                  None Sample.empty_world)))
       = (length (collection Sample.empty_world) + n)%nat
    /\ length (collection w2)
       = (length (collection (snd (ingest_document Sample.env Sample.ingestion
                                     "notes.txt" None Sample.empty_world))) + n)%nat
    /\ (forall retrieval,
          is_available retrieval = true ->
          total_chunks (get_statistics retrieval (collection w2))
          = Some (Z.of_nat
                    (length (collection (snd (ingest_document Sample.env Sample.ingestion
                                                "notes.txt" None Sample.empty_world)))
                     + n))).
Proof.
  apply (ingest_document_twice_stores_twice Sample.env Sample.ingestion "notes.txt" None
           Sample.empty_world); reflexivity.
Defined.

(** The failing input of C1, evaluated: the second ingestion of the same
    file reports success and leaves two copies of its chunk in the index. *)
Example ingest_notes_twice :
  let first := ingest_document Sample.env Sample.ingestion "notes.txt" None
                 Sample.empty_world in
  let second := ingest_document Sample.env Sample.ingestion "notes.txt" None (snd first) in
  fst first = Ok (IngestSuccess "notes.txt" (Some 11%Z) 1 [0%nat] "2024-05-01T10:00:01")
  /\ fst second = Ok (IngestSuccess "notes.txt" (Some 11%Z) 1 [1%nat] "2024-05-01T10:00:03")
  /\ total_chunks (get_statistics Sample.retrieval (collection (snd first))) = Some 1%Z
  /\ total_chunks (get_statistics Sample.retrieval (collection (snd second))) = Some 2%Z
  /\ map page_content (map entry_doc (collection (snd second)))
     = ["hello world"; "hello world"].
Proof.
  vm_compute. repeat split; reflexivity.
Qed.

(** ** delete_document *)

Lemma delete_document_eq (self : DocumentIngestion) (store : Chroma)
    (file_name : string) (w : World) :
  ing_vector_store self = Some store ->
  delete_document self file_name w
  = match filter (has_file_name file_name) (collection w) with
    | [] => (Ok false, log_calls w [CallGet])
    | (_ :: _) as chunks =>
        (Ok true,
         mkWorld
           (filter (fun e => negb (existsb (Nat.eqb (entry_id e)) (map entry_id chunks)))
              (collection w))
           (next_id w) (clock w)
           (calls w ++ [CallGet; CallDelete (map entry_id chunks)]))
    end.
Proof.
  intro Hstore. unfold delete_document. rewrite Hstore.
  destruct w as [db ids t cs].
  unfold attempt, bind, chroma_get, chroma_delete, bind, call, ret, log_calls. simpl.
  destruct db as [|e db]; [reflexivity|].
  destruct (filter (has_file_name file_name) (e :: db)) as [|c chunks]; simpl.
  - reflexivity.
  - now rewrite <- app_assoc.
Qed.



(** Ids stay unique when entries are removed. *)
Lemma entry_ids_unique_after_filter (keep : Entry -> bool) (db : Collection) :
  NoDup (map entry_id db) -> NoDup (map entry_id (filter keep db)).
Proof.
  induction db as [|e db IH]; simpl; intro Hnd; [constructor|].
  inversion Hnd as [|? ? He Hnd']; subst.
  destruct (keep e); simpl; [|now apply IH].
  constructor; [|now apply IH].
  intro Hin. apply He. apply in_map_iff in Hin. destruct Hin as (e' & Hid & Hin).
  apply filter_In in Hin. rewrite <- Hid. apply in_map. tauto.
Qed.

Lemma well_formed_filter (p : Entry -> bool) (w w' : World) :
  collection w' = filter p (collection w) ->
  next_id w' = next_id w ->
  well_formed w -> well_formed w'.
Proof.
  intros Hc Hn (Hnd & Hid & Hname). unfold well_formed. rewrite Hc, Hn.
  split; [now apply entry_ids_unique_after_filter|].
  split; apply Forall_forall; intros e He; apply filter_In in He;
    destruct He as (He & _).
  - rewrite Forall_forall in Hid. now apply Hid.
  - rewrite Forall_forall in Hname. now apply Hname.
Qed.

Lemma well_formed_same (w w' : World) :
  collection w' = collection w ->
  next_id w' = next_id w ->
  well_formed w -> well_formed w'.
Proof.
  intros Hc Hn H. unfold well_formed. now rewrite Hc, Hn.
Qed.

(** ** get_statistics *)

Lemma fi_name_count_chunk (name upload_date : string) (files_info : list FileInfo) :
  map fi_name (count_chunk name upload_date files_info)
  = if existsb (fun n => n =? name) (map fi_name files_info)
    then map fi_name files_info
    else map fi_name files_info ++ [name].
Proof.
  induction files_info as [|f rest IH]; simpl; [reflexivity|].
  destruct (fi_name f =? name) eqn:E; simpl; [reflexivity|].
  rewrite IH. now destruct (existsb _ _).
Qed.

Lemma existsb_eqb_In (name : string) (names : list string) :
  existsb (fun n => n =? name) names = true <-> In name names.
Proof.
  rewrite existsb_exists. split.
  - intros (n & Hn & Heq). apply String.eqb_eq in Heq. now subst.
  - intro H. exists name. split; [exact H | apply String.eqb_refl].
Qed.

(** The keys of [files_info] are the distinct names of the chunks. *)
Lemma collect_files_info_names (db : Collection) (files_info : list FileInfo) :
  NoDup (map fi_name files_info) ->
  let result :=
    fold_left
      (fun acc e =>
         count_chunk (Py.get (md_file_name (doc_metadata (entry_doc e))) "unknown")
           (Py.get (md_upload_date (doc_metadata (entry_doc e))) "unknown") acc)
      db files_info in
  NoDup (map fi_name result)
  /\ forall name, In name (map fi_name result)
                  <-> In name (map fi_name files_info) \/ In name (map listed_name db).
Proof.
  revert files_info. induction db as [|e db IH]; intros files_info Hnd; simpl.
  - split; [exact Hnd|]. intro name. tauto.
  - set (step := count_chunk _ _ files_info).
    assert (Hstep : map fi_name step
                    = if existsb (fun n => n =? listed_name e) (map fi_name files_info)
                      then map fi_name files_info
                      else map fi_name files_info ++ [listed_name e])
      by apply fi_name_count_chunk.
    assert (Hnd' : NoDup (map fi_name step)).
    { rewrite Hstep. destruct (existsb _ _) eqn:E; [exact Hnd|].
      apply NoDup_app; [exact Hnd | repeat constructor; simpl; tauto |].
      intros name Hin [<- | []].
      apply existsb_eqb_In in Hin. congruence. }
    destruct (IH step Hnd') as (Hres & Hin). split; [exact Hres|].
    intro name. rewrite Hin, Hstep.
    destruct (existsb _ _) eqn:E.
    + apply existsb_eqb_In in E. split; [tauto|].
      intros [H | [<- | H]]; tauto.
    + rewrite in_app_iff. simpl. tauto.
Qed.

Lemma total_files_get_statistics (self : DocumentRetrieval) (db : Collection) :
  is_available self = true ->
  total_files (get_statistics self db)
  = Some (Z.of_nat (length (collect_files_info db))).
Proof.
  intro Ha. unfold get_statistics. rewrite Ha. now destruct db.
Qed.


Lemma filter_all {A : Type} (p : A -> bool) (l : list A) :
  (forall x, In x l -> p x = true) -> filter p l = l.
Proof.
  induction l as [|x l IH]; simpl; intro H; [reflexivity|].
  rewrite (H x) by now left. f_equal. apply IH. intros y Hy. apply H. now right.
Qed.



Lemma Sample_world_well_formed : well_formed Sample.world.
Proof.
  unfold well_formed. simpl. repeat split.
  - repeat constructor; simpl; intuition discriminate.
  - repeat constructor.
  - repeat constructor; discriminate.
Qed.




(** ** The states the library can build *)

Lemma entry_ids_enumerate_from (i : nat) (documents : list Document) :
  map entry_id (map (fun '(i, d) => mkEntry i d) (enumerate_from i documents))
  = seq i (length documents).
Proof.
  revert i. induction documents as [|d documents IH]; intro i; simpl; [reflexivity|].
  now rewrite IH.
Qed.

Lemma entry_docs_enumerate_from (i : nat) (documents : list Document) :
  map entry_doc (map (fun '(i, d) => mkEntry i d) (enumerate_from i documents))
  = documents.
Proof.
  revert i. induction documents as [|d documents IH]; intro i; simpl; [reflexivity|].
  now rewrite IH.
Qed.

Lemma make_documents_named (env : Externals) (t : nat) (text file_name : string)
    (chunks : list string) :
  Forall (fun d => md_file_name (doc_metadata d) = Some file_name)
    (make_documents env t text file_name chunks).
Proof.
  unfold make_documents. apply Forall_forall. intros d Hd.
  apply in_map_iff in Hd. destruct Hd as ([i chunk] & <- & _). reflexivity.
Qed.

Lemma well_formed_add (w : World) (documents : list Document) (t : nat) (cs : list Call) :
  well_formed w ->
  Forall (fun d => md_file_name (doc_metadata d) <> None) documents ->
  well_formed
    (mkWorld
       (collection w
        ++ map (fun '(i, d) => mkEntry i d) (enumerate_from (next_id w) documents))
       (next_id w + length documents) t cs).
Proof.
  intros (Hnd & Hid & Hname) Hdocs. unfold well_formed. simpl.
  rewrite Forall_forall in Hid.
  split; [|split].
  - rewrite map_app, entry_ids_enumerate_from.
    apply NoDup_app; [exact Hnd | apply seq_NoDup |].
    intros i Hi Hseq. apply in_seq in Hseq.
    apply in_map_iff in Hi. destruct Hi as (e & <- & He).
    specialize (Hid e He). lia.
  - apply Forall_app. split.
    + apply Forall_forall. intros e He. specialize (Hid e He). lia.
    + apply Forall_forall. intros e He.
      assert (Hin : In (entry_id e) (seq (next_id w) (length documents))).
      { rewrite <- entry_ids_enumerate_from. now apply in_map. }
      apply in_seq in Hin. lia.
  - apply Forall_app. split; [exact Hname|].
    apply Forall_forall. intros e He.
    rewrite Forall_forall in Hdocs. apply Hdocs.
    rewrite <- (entry_docs_enumerate_from (next_id w) documents). now apply in_map.
Qed.

Lemma ingest_text_eq (env : Externals) (self : DocumentIngestion) (store : Chroma)
    (text title : string) (w : World) :
  ing_vector_store self = Some store ->
  ingest_text env self text title w
  = let chunks := split_text env text in
    let documents := make_documents env (clock w) text title chunks in
    (Ok (IngestSuccess title None (length documents)
           (seq (next_id w) (length documents))
           (isoformat env (clock w + length chunks))),
     mkWorld
       (collection w
        ++ map (fun '(i, d) => mkEntry i d) (enumerate_from (next_id w) documents))
       (next_id w + length documents)
       (S (clock w + length chunks))
       (calls w ++ [CallSplitText text; CallAddDocuments documents])).
Proof.
  intro Hstore. unfold ingest_text. rewrite Hstore.
  unfold attempt, bind, chunk_text, attempt, bind, call, chroma_add_documents,
    datetime_now, ret, bind, call. simpl.
  now rewrite <- app_assoc.
Qed.

Lemma clear_all_documents_eq (self : DocumentIngestion) (store : Chroma) (w : World) :
  ing_vector_store self = Some store ->
  clear_all_documents self w
  = match collection w with
    | [] => (Ok true, log_calls w [CallGet])
    | _ :: _ =>
        (Ok true,
         mkWorld
           (filter (fun e => negb (existsb (Nat.eqb (entry_id e))
                                     (map entry_id (collection w))))
              (collection w))
           (next_id w) (clock w)
           (calls w ++ [CallGet; CallDelete (map entry_id (collection w))]))
    end.
Proof.
  intro Hstore. unfold clear_all_documents. rewrite Hstore.
  destruct w as [db ids t cs].
  unfold attempt, bind, chroma_get, chroma_delete, bind, call, ret, log_calls. simpl.
  destruct db as [|e db]; [reflexivity|]. simpl. now rewrite <- app_assoc.
Qed.

Lemma Forall_named_weaken (file_name : string) (documents : list Document) :
  Forall (fun d => md_file_name (doc_metadata d) = Some file_name) documents ->
  Forall (fun d => md_file_name (doc_metadata d) <> None) documents.
Proof.
  apply Forall_impl. intros d H. congruence.
Qed.

(** X1.  Every state built by the operations of the library from an empty
    collection is well formed: the ids of the entries are distinct, all
    were handed out by the counter, and every chunk carries the name of
    its file. *)
Lemma reachable_well_formed (env : Externals) (w : World) :
  reachable env w -> well_formed w.
Proof.
  induction 1 as [t | op w Hreach IH].
  - unfold well_formed. simpl. repeat split; constructor.
  - destruct op as [self file_path file_name | self text title | self file_name | self];
      simpl; destruct (ing_vector_store self) as [store|] eqn:Hstore.
    + rewrite (ingest_document_eq env self store _ _ w Hstore). simpl.
      destruct (getsize env file_path) as [file_size|e];
        [|now apply (well_formed_same w)].
      destruct (file_size >? MAX_FILE_SIZE)%Z; [now apply (well_formed_same w)|].
      destruct (get_file_type file_path) as [file_type|];
        [|now apply (well_formed_same w)].
      destruct (dispatch_parser env file_type file_path) as [text|e];
        [|now apply (well_formed_same w)].
      destruct (Py.strip_is_empty text); [now apply (well_formed_same w)|].
      simpl. apply well_formed_add; [exact IH|].
      eapply Forall_named_weaken, make_documents_named.
    + now rewrite ingest_document_uninitialised.
    + rewrite (ingest_text_eq env self store _ _ w Hstore). simpl.
      apply well_formed_add; [exact IH|].
      eapply Forall_named_weaken, make_documents_named.
    + unfold ingest_text. now rewrite Hstore.
    + rewrite (delete_document_eq self store _ w Hstore).
      destruct (filter (has_file_name file_name) (collection w)); simpl.
      * now apply (well_formed_same w).
      * now apply (well_formed_filter
                     (fun e0 => negb (existsb (Nat.eqb (entry_id e0))
                                        (map entry_id (e :: l)))) w).
    + unfold delete_document. now rewrite Hstore.
    + rewrite (clear_all_documents_eq self store w Hstore).
      destruct (collection w) as [|e db] eqn:Hdb; simpl.
      * apply (well_formed_same w); [reflexivity | reflexivity | exact IH].
      * apply (well_formed_filter
                 (fun e0 => negb (existsb (Nat.eqb (entry_id e0))
                                    (map entry_id (e :: db)))) w);
          [simpl; now rewrite Hdb | reflexivity | exact IH].
    + unfold clear_all_documents. now rewrite Hstore.
Qed.

(** Scenario D of the specification, evaluated: two files are ingested,
    one is deleted; the statistics then count one file and a query returns
    the chunk of the other file only. *)
Example two_files_one_deleted :
  reachable Sample.env Sample.one_file_left
  /\ total_files (get_statistics Sample.retrieval (collection Sample.two_files)) = Some 2%Z
  /\ total_files (get_statistics Sample.retrieval (collection Sample.one_file_left))
     = Some 1%Z
  /\ (x <- retrieve_relevant_docs Sample.search Sample.retrieval
             (collection Sample.one_file_left) "milk" 5 0 ;;
      Ok (map file_name x))%outcome
     = Ok ["todo.md"].
Proof.
  split; [repeat constructor|].
  vm_compute. repeat split; reflexivity.
Qed.

(** ** chunk_text *)

Lemma documents_of_chunks (name hash : string) (date : nat -> string) (total : Z)
    (chunks : list string) (i : nat) :
  let documents :=
    map (fun '(i, chunk) =>
           mkDocument chunk
             (mkMetadata (Some name) (Some (Z.of_nat i)) (Some total) (Some (date i))
                (Some hash)))
        (enumerate_from i chunks) in
  map page_content documents = chunks
  /\ map (fun d => md_chunk_id (doc_metadata d)) documents
     = map (fun i => Some (Z.of_nat i)) (seq i (length chunks))
  /\ Forall (fun d => md_total_chunks (doc_metadata d) = Some total) documents.
Proof.
  revert i. induction chunks as [|chunk chunks IH]; intro i; simpl.
  - repeat split. constructor.
  - destruct (IH (S i)) as (Hc & Hi & Ht). simpl in Hc, Hi, Ht.
    repeat split.
    + now rewrite Hc.
    + now rewrite Hi.
    + constructor; [reflexivity | exact Ht].
Qed.

(** X2.  [chunk_text] hands the chunks of the splitter on unchanged and
    in order, numbered densely from 0, each with the total count, and does
    not touch the collection. *)
Lemma chunk_text_documents (env : Externals) (text file_name : string) (w : World) :
  exists documents w',
    chunk_text env text file_name w = (Ok documents, w')
    /\ map page_content documents = split_text env text
    /\ map (fun d => md_chunk_id (doc_metadata d)) documents
       = map (fun i => Some (Z.of_nat i)) (seq 0 (length (split_text env text)))
    /\ Forall (fun d => md_total_chunks (doc_metadata d)
                        = Some (Z.of_nat (length (split_text env text)))) documents
    /\ collection w' = collection w.
Proof.
  rewrite chunk_text_eq. do 2 eexists. split; [reflexivity|].
  destruct (documents_of_chunks file_name (substring 0 8 (md5_hexdigest env text))
              (fun i => isoformat env (clock w + i))
              (Z.of_nat (length (split_text env text))) (split_text env text) 0)
    as (Hc & Hi & Ht).
  repeat split; assumption.
Qed.

(** ** The first definitions of ingestion.py *)

Lemma Shadowed_known_record (hash : string) (r : Shadowed.DocumentRecord)
    (ledger : list (string * Shadowed.DocumentRecord)) :
  Shadowed.known hash (Shadowed.record hash r ledger) = true.
Proof.
  induction ledger as [|[h r'] ledger IH]; simpl.
  - now rewrite String.eqb_refl.
  - destruct (h =? hash) eqn:E; simpl; rewrite E; [reflexivity | exact IH].
Qed.

(** The first [ingest_document] is idempotent: after a successful
    ingestion, ingesting the same file again is skipped and changes
    nothing, so the counts of [get_document_stats] stay as they were. *)
Lemma Shadowed_ingest_document_idempotent (env : Shadowed.Externals)
    (file_path : string) (original_name : option string) (s s1 : Shadowed.State)
    (r1 : Shadowed.IngestResult) :
  Shadowed.ingest_document env file_path original_name s = (r1, s1) ->
  Shadowed.status r1 = "success" ->
  Shadowed.ingest_document env file_path original_name s1
  = (Shadowed.Skipped (default_file_name file_path original_name), s1)
  /\ Shadowed.status (Shadowed.Skipped (default_file_name file_path original_name))
     = "skipped".
Proof.
  unfold Shadowed.ingest_document. intros Hfirst Hstatus.
  destruct (negb (Shadowed.file_exists env file_path));
    [not_a_success Hfirst|].
  destruct (Shadowed.st_size env file_path) as [size|e];
    [|not_a_success Hfirst].
  destruct (Shadowed.get_file_hash env file_path) as [hash|e];
    [|not_a_success Hfirst].
  destruct (Shadowed.known hash (Shadowed.ledger s));
    [not_a_success Hfirst|].
  destruct (Shadowed.resolve_parse_file env file_path) as [text|e];
    [|not_a_success Hfirst].
  destruct (Py.strip_is_empty text);
    [not_a_success Hfirst|].
  cbv zeta in Hfirst.
  destruct (Shadowed.persist env) as [u|e];
    [|not_a_success Hfirst].
  injection Hfirst as _ <-. simpl.
  now rewrite Shadowed_known_record.
Qed.

(** The first [remove_document] leaves every chunk in the vector store. *)
Lemma Shadowed_remove_document_keeps_chunks (hash : string) (s : Shadowed.State) :
  Shadowed.vector_store (snd (Shadowed.remove_document hash s)) = Shadowed.vector_store s.
Proof.
  unfold Shadowed.remove_document. now destruct (Shadowed.known hash (Shadowed.ledger s)).
Qed.

(** Scenario C of the specification, evaluated: whether the retrieval
    object has no index, the search fails, or the index is empty, a query
    returns the empty list and the context is the "no relevant documents"
    sentence. *)
Example degraded_retrieval :
  retrieve_relevant_docs Sample.search Sample.unavailable_retrieval Sample.db "hello" 5 0
  = Ok []
  /\ retrieve_relevant_docs Sample.failing_search Sample.retrieval Sample.db "hello" 5 0
     = Ok []
  /\ retrieve_relevant_docs Sample.search Sample.retrieval [] "hello" 5 0 = Ok []
  /\ get_context_for_query Sample.search Sample.unavailable_retrieval Sample.db "hello" 3000
     = Ok no_relevant_documents
  /\ get_context_for_query Sample.failing_search Sample.retrieval Sample.db "hello" 3000
     = Ok no_relevant_documents
  /\ get_context_for_query Sample.search Sample.retrieval [] "hello" 3000
     = Ok no_relevant_documents.
Proof.
  repeat split; reflexivity.
Qed.

(* ================================================================== *)
(** * Further properties of the code *)

Lemma reachable_well_formed_witness : well_formed Sample.one_file_left.
Proof.
  apply (reachable_well_formed Sample.env). repeat constructor.
Defined.

(** ** ingest_document: what an ingestion leaves behind *)

(** What a successful [ingest_document] has gone through and done. *)
Lemma ingest_document_success (env : Externals) (self : DocumentIngestion)
    (file_path : string) (file_name : option string) (w w' : World)
    (name : string) (size : option Z) (n : nat) (ids : list nat) (date : string) :
  ingest_document env self file_path file_name w
  = (Ok (IngestSuccess name size n ids date), w') ->
  exists file_size file_type text,
    getsize env file_path = Ok file_size
    /\ (file_size <= MAX_FILE_SIZE)%Z
    /\ get_file_type file_path = Some file_type
    /\ dispatch_parser env file_type file_path = Ok text
    /\ Py.strip_is_empty text = false
    /\ name = default_file_name file_path file_name
    /\ size = Some file_size
    /\ n = length (split_text env text)
    /\ ids = seq (next_id w) n
    /\ collection w'
       = collection w
         ++ map (fun '(i, d) => mkEntry i d)
              (enumerate_from (next_id w)
                 (make_documents env (clock w) text name (split_text env text)))
    /\ next_id w' = (next_id w + n)%nat.
Proof.
  intro H.
  destruct (ing_vector_store self) as [store|] eqn:Hstore;
    [|rewrite ingest_document_uninitialised in H by exact Hstore; discriminate].
  rewrite (ingest_document_eq env self store _ _ w Hstore) in H. simpl in H.
  destruct (getsize env file_path) as [file_size|e] eqn:Hgetsize; [|discriminate].
  destruct (file_size >? MAX_FILE_SIZE)%Z eqn:Hsize; [discriminate|].
  destruct (get_file_type file_path) as [file_type|] eqn:Htype; [|discriminate].
  destruct (dispatch_parser env file_type file_path) as [text|e] eqn:Hparse;
    [|discriminate].
  destruct (Py.strip_is_empty text) eqn:Hblank; [discriminate|].
  injection H as <- <- <- <- <- <-.
  exists file_size, file_type, text. rewrite length_make_documents. simpl.
  repeat split; try reflexivity; try assumption. lia.
Qed.

(** The entries stored for the chunks of one file. *)
Lemma new_entries_named (env : Externals) (t i : nat) (text name : string)
    (chunks : list string) :
  Forall (fun e => md_file_name (doc_metadata (entry_doc e)) = Some name)
    (map (fun '(i, d) => mkEntry i d)
       (enumerate_from i (make_documents env t text name chunks))).
Proof.
  apply Forall_forall. intros e He.
  assert (Hd : In (entry_doc e) (make_documents env t text name chunks)).
  { rewrite <- (entry_docs_enumerate_from i). now apply in_map. }
  pose proof (make_documents_named env t text name chunks) as Hn.
  rewrite Forall_forall in Hn. now apply Hn.
Qed.

Lemma new_entries_contents (env : Externals) (t i : nat) (text name : string)
    (chunks : list string) :
  map (fun e => page_content (entry_doc e))
    (map (fun '(i, d) => mkEntry i d)
       (enumerate_from i (make_documents env t text name chunks)))
  = chunks.
Proof.
  rewrite <- map_map, entry_docs_enumerate_from.
  unfold make_documents.
  apply (documents_of_chunks name (substring 0 8 (md5_hexdigest env text))
           (fun i => isoformat env (t + i)) (Z.of_nat (length chunks)) chunks 0).
Qed.

(** X3.  Whatever makes [ingest_document] give up before it chunks and
    stores (the size query failing, a file above the limit, an unsupported
    extension, a parser raising, a blank text), on an initialised pipeline
    it returns an error result that carries the text of the exception, and
    the index is as it was: no entry is added or removed, no id is used up,
    and neither the splitter nor the index has been called. *)
Theorem ingest_document_rejection_changes_nothing
    (env : Externals) (self : DocumentIngestion) (store : Chroma) (file_path : string)
    (file_name : option string) (w : World) (message : string) :
  ing_vector_store self = Some store ->
  rejected env file_path message ->
  exists w',
    ingest_document env self file_path file_name w
    = (Ok (IngestError (default_file_name file_path file_name) message), w')
    /\ collection w' = collection w
    /\ next_id w' = next_id w
    /\ exists cs,
         calls w' = calls w ++ cs
         /\ Forall (fun c => reaches_store c = false) cs.
Proof.
  intros Hstore Hrejected.
  rewrite (ingest_document_eq env self store _ _ w Hstore). cbv zeta.
  assert (Hlog : forall cs,
             Forall (fun c => reaches_store c = false) cs ->
             exists w',
               (Ok (IngestError (default_file_name file_path file_name) message),
                log_calls w cs)
               = (Ok (IngestError (default_file_name file_path file_name) message), w')
               /\ collection w' = collection w
               /\ next_id w' = next_id w
               /\ exists cs',
                    calls w' = calls w ++ cs'
                    /\ Forall (fun c => reaches_store c = false) cs').
  { intros cs Hcs. exists (log_calls w cs). repeat split. now exists cs. }
  destruct Hrejected
    as [e Hsize | file_size Hsize Hlarge | file_size Hsize Hle Hunsupported
        | file_size file_type e Hsize Hle Htype Hparse
        | file_size file_type text Hsize Hle Htype Hparse Hblank];
    rewrite Hsize.
  - apply Hlog. repeat constructor.
  - replace (file_size >? MAX_FILE_SIZE)%Z with true by lia.
    apply Hlog. repeat constructor.
  - replace (file_size >? MAX_FILE_SIZE)%Z with false by lia.
    unfold is_supported in Hunsupported. unfold get_file_type.
    destruct (dict_get SUPPORTED_EXTENSIONS (Py.lower (Py.path_suffix file_path)));
      [discriminate|].
    apply Hlog. repeat constructor.
  - replace (file_size >? MAX_FILE_SIZE)%Z with false by lia.
    rewrite Htype, Hparse. apply Hlog. repeat constructor.
  - replace (file_size >? MAX_FILE_SIZE)%Z with false by lia.
    rewrite Htype, Hparse, Hblank. apply Hlog. repeat constructor.
Qed.

Lemma ingest_document_rejection_changes_nothing_witness :
  exists w',
    ingest_document Sample.env Sample.ingestion "tool.exe" None Sample.world
    = (Ok (IngestError (default_file_name "tool.exe" None)
             ("Unsupported file type: " ++ Py.path_suffix "tool.exe")), w')
    /\ collection w' = collection Sample.world
    /\ next_id w' = next_id Sample.world
    /\ exists cs,
         calls w' = calls Sample.world ++ cs
         /\ Forall (fun c => reaches_store c = false) cs.
Proof.
  apply (ingest_document_rejection_changes_nothing Sample.env Sample.ingestion
           (mkChroma "data/vector_store") "tool.exe" None Sample.world).
  - reflexivity.
  - apply (rejected_unsupported Sample.env "tool.exe" 2048).
    + reflexivity.
    + vm_compute. discriminate.
    + reflexivity.
Defined.

(** X4.  A successful ingestion appends to the index exactly the chunks
    the splitter made of the parsed text, in order, under the ids it
    returns; the ids are consecutive and were not in use; every new chunk
    is listed under the name the result carries; and the entries that were
    there stay as they were. *)
Theorem ingest_document_success_appends
    (env : Externals) (self : DocumentIngestion) (file_path : string)
    (file_name : option string) (w w' : World)
    (name : string) (size : option Z) (n : nat) (ids : list nat) (date : string) :
  well_formed w ->
  ingest_document env self file_path file_name w
  = (Ok (IngestSuccess name size n ids date), w') ->
  exists file_type text added,
    get_file_type file_path = Some file_type
    /\ dispatch_parser env file_type file_path = Ok text
    /\ collection w' = collection w ++ added
    /\ length added = n
    /\ map entry_id added = ids
    /\ map (fun e => page_content (entry_doc e)) added = split_text env text
    /\ Forall (fun e => listed_name e = name) added
    /\ (forall i, In i ids -> ~ In i (map entry_id (collection w)))
    /\ NoDup ids
    /\ name = default_file_name file_path file_name
    /\ well_formed w'.
Proof.
  intros Hwf H.
  destruct (ingest_document_success _ _ _ _ _ _ _ _ _ _ _ H)
    as (file_size & file_type & text & _ & _ & Hft & Hparse & _ & Hname & _ & Hn
        & Hids & Hcoll & Hnext).
  exists file_type, text. eexists. split; [exact Hft|]. split; [exact Hparse|].
  split; [exact Hcoll|].
  split; [now rewrite length_map, length_enumerate_from, length_make_documents|].
  split; [rewrite entry_ids_enumerate_from, length_make_documents; congruence|].
  split; [apply new_entries_contents|].
  split.
  { eapply Forall_impl; [|apply new_entries_named].
    intros e He. unfold listed_name. now rewrite He. }
  split.
  { intros i Hi Hold. subst ids. apply in_seq in Hi.
    destruct Hwf as (_ & Hlt & _). rewrite Forall_forall in Hlt.
    apply in_map_iff in Hold. destruct Hold as (e & <- & He).
    specialize (Hlt e He). lia. }
  split; [subst ids; apply seq_NoDup|].
  split; [exact Hname|].
  destruct w' as [db' ids' t' cs']. simpl in Hcoll, Hnext. subst db' ids'.
  rewrite Hn, <- (length_make_documents env (clock w) text name).
  apply well_formed_add; [exact Hwf|].
  eapply Forall_named_weaken, make_documents_named.
Qed.

Lemma ingest_document_success_appends_witness :
  exists file_type text added,
    get_file_type "todo.md" = Some file_type
    /\ dispatch_parser Sample.env file_type "todo.md" = Ok text
    /\ collection (snd (ingest_document Sample.env Sample.ingestion "todo.md" None
                          Sample.world))
       = collection Sample.world ++ added
    /\ length added = 1%nat
    /\ map entry_id added = [2%nat]
    /\ map (fun e => page_content (entry_doc e)) added = split_text Sample.env text
    /\ Forall (fun e => listed_name e = "todo.md") added
    /\ (forall i, In i [2%nat] -> ~ In i (map entry_id (collection Sample.world)))
    /\ NoDup [2%nat]
    /\ "todo.md" = default_file_name "todo.md" None
    /\ well_formed (snd (ingest_document Sample.env Sample.ingestion "todo.md" None
                           Sample.world)).
Proof.
  apply (ingest_document_success_appends Sample.env Sample.ingestion "todo.md" None
           Sample.world _ "todo.md" (Some 8%Z) 1 [2%nat] "2024-05-01T10:00:01").
  - exact Sample_world_well_formed.
  - reflexivity.
Defined.

(** ** delete_document and clear_all_documents *)


Lemma filter_none {A : Type} (keep : A -> bool) (l : list A) :
  (forall x, In x l -> keep x = false) -> filter keep l = [].
Proof.
  induction l as [|x l IH]; simpl; intro H; [reflexivity|].
  rewrite (H x) by now left. apply IH. intros y Hy. apply H. now right.
Qed.








(** ** parse_document *)

Lemma dict_get_In (d : list (string * string)) (key value : string) :
  dict_get d key = Some value -> In (key, value) d.
Proof.
  induction d as [|[k v] d IH]; simpl; [discriminate|].
  destruct (k =? key) eqn:E.
  - intro H. injection H as <-. apply String.eqb_eq in E. subst. now left.
  - intro H. right. now apply IH.
Qed.

(** X8.  [parse_document] dispatches on the lower-cased extension.  For
    an extension outside [SUPPORTED_EXTENSIONS] it raises [ValueError]
    naming the extension and calls no parser; otherwise it makes exactly
    one parser call, to the text, PDF, Word, CSV or Excel parser, and
    returns or re-raises what that parser gives: the "Unknown file type"
    branch is never taken. *)
Theorem parse_document_dispatches (env : Externals) (file_path : string) (w : World) :
  (is_supported file_path = false /\
   parse_document env file_path w
   = (Raised (Raise ValueError
                ("Unsupported file type: " ++ Py.path_suffix file_path)%string), w))
  \/ (is_supported file_path = true /\
      exists file_type parsed,
        get_file_type file_path = Some file_type
        /\ parse_document env file_path w
           = (parsed, log_calls w [CallParser file_type file_path])
        /\ ((file_type = "text" /\ parsed = parse_text env file_path)
            \/ (file_type = "pdf" /\ parsed = parse_pdf env file_path)
            \/ (file_type = "docx" /\ parsed = parse_docx env file_path)
            \/ (file_type = "csv" /\ parsed = parse_csv env file_path)
            \/ (file_type = "excel" /\ parsed = parse_excel env file_path))).
Proof.
  rewrite parse_document_eq. unfold is_supported, get_file_type.
  destruct (dict_get SUPPORTED_EXTENSIONS (Py.lower (Py.path_suffix file_path)))
    as [file_type|] eqn:E; [right | left; now split].
  split; [reflexivity|]. exists file_type, (dispatch_parser env file_type file_path).
  split; [reflexivity|]. split; [reflexivity|].
  apply dict_get_In in E. simpl in E.
  repeat (destruct E as [E | E]; [injection E as _ <-; unfold dispatch_parser; simpl; tauto|]).
  contradiction.
Qed.

(** X9.  [pypdf] and [docx2txt] are optional modules.  When the one a
    document type needs is not installed, ingesting a PDF or a Word
    document within the size limit returns an error result whose message
    says which package is required, after the size query and a single
    parser call, and stores nothing. *)
Theorem ingest_document_without_optional_module
    (env : Externals) (self : DocumentIngestion) (store : Chroma)
    (file_path : string) (file_name : option string) (w : World)
    (file_size : Z) (file_type : string) :
  ing_vector_store self = Some store ->
  getsize env file_path = Ok file_size ->
  (file_size <= MAX_FILE_SIZE)%Z ->
  get_file_type file_path = Some file_type ->
  (file_type = "pdf"%string /\ pypdf env = None)
  \/ (file_type = "docx"%string /\ docx2txt env = None) ->
  exists message w',
    ingest_document env self file_path file_name w
    = (Ok (IngestError (default_file_name file_path file_name) message), w')
    /\ w' = log_calls w [CallGetsize file_path; CallParser file_type file_path]
    /\ collection w' = collection w
    /\ In (file_type, message)
         [ ("pdf"%string, "pypdf package required for PDF parsing"%string);
           ("docx"%string, "docx2txt package required for DOCX parsing"%string) ].
Proof.
  intros Hstore Hsize Hle Htype Hmissing.
  rewrite (ingest_document_eq env self store _ _ w Hstore). simpl.
  rewrite Hsize, Htype.
  replace (file_size >? MAX_FILE_SIZE)%Z with false by lia.
  destruct Hmissing as [(-> & Hm) | (-> & Hm)];
    unfold dispatch_parser, parse_pdf, parse_docx; simpl;
    rewrite Hm; do 2 eexists; (split; [reflexivity|]);
    (split; [reflexivity|]); (split; [reflexivity|]); simpl; tauto.
Qed.

Lemma ingest_document_without_optional_module_witness :
  exists message w',
    ingest_document Office.env Sample.ingestion "report.pdf" None Sample.world
    = (Ok (IngestError (default_file_name "report.pdf" None) message), w')
    /\ w' = log_calls Sample.world [CallGetsize "report.pdf"; CallParser "pdf" "report.pdf"]
    /\ collection w' = collection Sample.world
    /\ In ("pdf"%string, message)
         [ ("pdf"%string, "pypdf package required for PDF parsing"%string);
           ("docx"%string, "docx2txt package required for DOCX parsing"%string) ].
Proof.
  apply (ingest_document_without_optional_module Office.env Sample.ingestion
           (mkChroma "data/vector_store") "report.pdf" None Sample.world 4096 "pdf").
  - reflexivity.
  - reflexivity.
  - vm_compute. discriminate.
  - reflexivity.
  - left. split; reflexivity.
Defined.

(** ** retrieve_relevant_docs: the threshold *)

Lemma collect_results_all (thr : Q) (hits : list (Document * Q)) :
  (thr <= 0)%Q ->
  collect_results thr hits
  = map (fun h => make_result (fst h) (similarity_score (snd h))) hits.
Proof.
  intro Hthr. induction hits as [|[doc d] hits IH]; simpl; [reflexivity|].
  assert (H : Qle_bool thr (similarity_score d) = true).
  { apply Qle_bool_iff. apply Qle_trans with 0%Q; [exact Hthr|].
    apply similarity_score_nonneg. }
  now rewrite H, IH.
Qed.

Lemma collect_results_none (thr : Q) (hits : list (Document * Q)) :
  (1 < thr)%Q ->
  Forall (fun h => 0 <= snd h)%Q hits ->
  collect_results thr hits = [].
Proof.
  intros Hthr Hd. induction Hd as [|[doc d] hits Hd0 Hd IH]; simpl; [reflexivity|].
  destruct (Qle_bool thr (similarity_score d)) eqn:E; [|exact IH].
  exfalso. apply Qle_bool_iff in E. simpl in Hd0.
  pose proof (similarity_score_le_1 d Hd0). lra.
Qed.

(** X10.  A query returns at most as many results as the search had hits.
    With a threshold of 0 or less, the default, no hit is dropped, however
    far away it is; with a threshold above 1, and the backend reporting
    non-negative distances, every hit is dropped. *)
Theorem retrieve_threshold_extremes
    (search : SimilaritySearch) (self : DocumentRetrieval) (db : Collection)
    (query : string) (k : Z) (score_threshold : Q) (hits : list (Document * Q)) :
  is_available self = true ->
  search db query k = Ok hits ->
  exists results,
    retrieve_relevant_docs search self db query k score_threshold = Ok results
    /\ (length results <= length hits)%nat
    /\ ((score_threshold <= 0)%Q ->
        Permutation results
          (map (fun h => make_result (fst h) (similarity_score (snd h))) hits))
    /\ ((1 < score_threshold)%Q ->
        Forall (fun h => 0 <= snd h)%Q hits ->
        results = []).
Proof.
  intros Ha Hs. exists (sort_by_score (collect_results score_threshold hits)).
  split; [now apply retrieve_relevant_docs_available|].
  split; [|split].
  - rewrite (Permutation_length (sort_by_score_perm _)), length_collect_results.
    apply filter_length_le.
  - intro Hthr. rewrite sort_by_score_perm. now rewrite collect_results_all.
  - intros Hthr Hd. now rewrite collect_results_none.
Qed.

Lemma retrieve_threshold_extremes_witness :
  exists results,
    retrieve_relevant_docs Sample.search Sample.retrieval Sample.db "hello" 5 0 = Ok results
    /\ (length results
        <= length [ (Sample.document "a.txt" "hello" 0 1, 0 # 10);
                    (Sample.document "b.txt" "goodbye" 0 1, 2 # 10) ])%nat
    /\ ((0 <= 0)%Q ->
        Permutation results
          (map (fun h => make_result (fst h) (similarity_score (snd h)))
             [ (Sample.document "a.txt" "hello" 0 1, 0 # 10);
               (Sample.document "b.txt" "goodbye" 0 1, 2 # 10) ]))
    /\ ((1 < 0)%Q ->
        Forall (fun h => 0 <= snd h)%Q
          [ (Sample.document "a.txt" "hello" 0 1, 0 # 10);
            (Sample.document "b.txt" "goodbye" 0 1, 2 # 10) ] ->
        results = []).
Proof.
  apply (retrieve_threshold_extremes Sample.search Sample.retrieval Sample.db "hello" 5 0);
    reflexivity.
Defined.

Lemma insert_by_score_head (x : RetrievalResult) (l : list RetrievalResult) :
  Forall (fun y => score y <= score x)%Q l -> insert_by_score x l = x :: l.
Proof.
  intros [|y l' Hy _]; simpl; [reflexivity|].
  apply Qle_bool_iff in Hy. now rewrite Hy.
Qed.

(** Dropping results commutes with inserting into a sorted list. *)
Lemma filter_insert_by_score (keep : RetrievalResult -> bool) (x : RetrievalResult)
    (l : list RetrievalResult) :
  StronglySorted score_ge l ->
  filter keep (insert_by_score x l)
  = if keep x then insert_by_score x (filter keep l) else filter keep l.
Proof.
  induction 1 as [|y l Hs IH Hy].
  - simpl. now destruct (keep x).
  - cbn [insert_by_score]. destruct (Qle_bool (score y) (score x)) eqn:E.
    + change (filter keep (x :: y :: l))
        with (if keep x then x :: filter keep (y :: l) else filter keep (y :: l)).
      destruct (keep x); [|reflexivity].
      symmetry. apply insert_by_score_head.
      apply Qle_bool_iff in E.
      assert (Hall : Forall (fun z => score z <= score x)%Q (y :: l)).
      { constructor; [exact E|].
        eapply Forall_impl; [|exact Hy].
        intros z Hz. unfold score_ge in Hz. now apply Qle_trans with (score y). }
      rewrite Forall_forall in Hall. apply Forall_forall.
      intros z Hz. apply filter_In in Hz. apply Hall. tauto.
    + cbn [filter]. rewrite IH.
      destruct (keep y), (keep x); try reflexivity.
      cbn [insert_by_score]. now rewrite E.
Qed.

Lemma filter_sort_by_score (keep : RetrievalResult -> bool) (l : list RetrievalResult) :
  filter keep (sort_by_score l) = sort_by_score (filter keep l).
Proof.
  induction l as [|x l IH]; simpl; [reflexivity|].
  rewrite filter_insert_by_score by apply sort_by_score_sorted.
  destruct (keep x); simpl; now rewrite IH.
Qed.

Lemma collect_results_raise (thr1 thr2 : Q) (hits : list (Document * Q)) :
  (thr1 <= thr2)%Q ->
  collect_results thr2 hits
  = filter (fun r => Qle_bool thr2 (score r)) (collect_results thr1 hits).
Proof.
  intro Hle. induction hits as [|[doc d] hits IH]; simpl; [reflexivity|].
  destruct (Qle_bool thr2 (similarity_score d)) eqn:E2.
  - assert (E1 : Qle_bool thr1 (similarity_score d) = true).
    { apply Qle_bool_iff. apply Qle_bool_iff in E2. lra. }
    rewrite E1. simpl. now rewrite E2, IH.
  - destruct (Qle_bool thr1 (similarity_score d)); simpl; [rewrite E2|]; exact IH.
Qed.

(** X11.  Raising the threshold only removes results: the answer at the
    higher threshold is the answer at the lower one without the results
    whose score is below the higher threshold, in the same order. *)
Theorem retrieve_monotone_in_threshold
    (search : SimilaritySearch) (self : DocumentRetrieval) (db : Collection)
    (query : string) (k : Z) (thr1 thr2 : Q) :
  (thr1 <= thr2)%Q ->
  exists results1 results2,
    retrieve_relevant_docs search self db query k thr1 = Ok results1
    /\ retrieve_relevant_docs search self db query k thr2 = Ok results2
    /\ results2 = filter (fun r => Qle_bool thr2 (score r)) results1.
Proof.
  intro Hle.
  destruct (retrieve_relevant_docs_cases search self db query k thr1)
    as [(Ha & H1) | [(Ha & (e & He) & H1) | (Ha & hits & Hs & H1)]].
  - exists [], []. split; [exact H1|]. split; [|reflexivity].
    unfold retrieve_relevant_docs. now rewrite Ha.
  - exists [], []. split; [exact H1|]. split; [|reflexivity].
    unfold retrieve_relevant_docs. now rewrite Ha, He.
  - exists (sort_by_score (collect_results thr1 hits)),
      (sort_by_score (collect_results thr2 hits)).
    split; [exact H1|].
    split; [now apply retrieve_relevant_docs_available|].
    now rewrite filter_sort_by_score, <- collect_results_raise.
Qed.

Lemma retrieve_monotone_in_threshold_witness :
  exists results1 results2,
    retrieve_relevant_docs Sample.search Sample.retrieval Sample.db "hello" 5 0
    = Ok results1
    /\ retrieve_relevant_docs Sample.search Sample.retrieval Sample.db "hello" 5 (9 # 10)
       = Ok results2
    /\ results2 = filter (fun r => Qle_bool (9 # 10) (score r)) results1.
Proof.
  apply (retrieve_monotone_in_threshold Sample.search Sample.retrieval Sample.db "hello" 5
           0 (9 # 10)).
  vm_compute. discriminate.
Defined.

(** ** get_context_for_query: the budget *)

Lemma pack_chunks_monotone (max1 max2 : Z) (docs : list RetrievalResult) :
  (max1 <= max2)%Z ->
  forall total_length,
  exists more,
    pack_chunks max2 total_length docs = pack_chunks max1 total_length docs ++ more.
Proof.
  intro Hle. induction docs as [|doc rest IH]; intro total_length; simpl.
  - now exists [].
  - destruct (total_length + estimate_tokens (format_chunk doc) >? max1)%Z eqn:E1;
      destruct (total_length + estimate_tokens (format_chunk doc) >? max2)%Z eqn:E2.
    + now exists [].
    + eexists. reflexivity.
    + lia.
    + destruct (IH (total_length + estimate_tokens (format_chunk doc))%Z) as (more & ->).
      now exists more.
Qed.

(** X12.  A larger budget never drops a chunk: the chunks packed under
    the smaller [max_tokens] are a prefix of those packed under the larger
    one, so a context found with the smaller budget is not lost with the
    larger. *)
Theorem context_monotone_in_budget
    (search : SimilaritySearch) (self : DocumentRetrieval) (db : Collection)
    (query : string) (max1 max2 : Z) :
  (max1 <= max2)%Z ->
  exists parts more,
    get_context_for_query search self db query max1
    = Ok (match parts with [] => no_relevant_documents | _ :: _ => render_context parts end)
    /\ get_context_for_query search self db query max2
       = Ok (match parts ++ more with
             | [] => no_relevant_documents
             | _ :: _ => render_context (parts ++ more)
             end)
    /\ (get_context_for_query search self db query max2 = Ok no_relevant_documents ->
        get_context_for_query search self db query max1 = Ok no_relevant_documents).
Proof.
  intro Hle.
  destruct (retrieve_relevant_docs_returns search self db query 10 0) as (results & Hr).
  destruct (pack_chunks_monotone max1 max2 results Hle 0) as (more & Hmore).
  exists (pack_chunks max1 0 results), more.
  rewrite !(get_context_for_query_unfold _ _ _ _ _ _ Hr), Hmore.
  split; [reflexivity|]. split; [reflexivity|].
  destruct (pack_chunks max1 0 results) as [|part parts]; [reflexivity|].
  simpl. intro H. exfalso.
  apply (render_context_not_sentinel ((part :: parts) ++ more)). simpl. congruence.
Qed.

Lemma context_monotone_in_budget_witness :
  exists parts more,
    get_context_for_query Sample.search Sample.retrieval Sample.db "hello" 12
    = Ok (match parts with [] => no_relevant_documents | _ :: _ => render_context parts end)
    /\ get_context_for_query Sample.search Sample.retrieval Sample.db "hello" 24
       = Ok (match parts ++ more with
             | [] => no_relevant_documents
             | _ :: _ => render_context (parts ++ more)
             end)
    /\ (get_context_for_query Sample.search Sample.retrieval Sample.db "hello" 24
        = Ok no_relevant_documents ->
        get_context_for_query Sample.search Sample.retrieval Sample.db "hello" 12
        = Ok no_relevant_documents).
Proof.
  apply (context_monotone_in_budget Sample.search Sample.retrieval Sample.db "hello" 12 24).
  lia.
Defined.

(** ** get_statistics and get_document_list *)

Lemma file_count_count_chunk (name n upload_date : string) (files_info : list FileInfo) :
  file_count name (count_chunk n upload_date files_info)
  = (file_count name files_info + (if (n =? name)%string then 1 else 0))%Z.
Proof.
  unfold file_count. induction files_info as [|f rest IH]; simpl.
  - destruct (n =? name); reflexivity.
  - destruct (fi_name f =? n) eqn:E; simpl.
    + apply String.eqb_eq in E. subst n.
      destruct (fi_name f =? name); simpl; lia.
    + destruct (fi_name f =? name) eqn:E'; [|exact IH].
      apply String.eqb_eq in E'. subst name. rewrite String.eqb_sym, E. lia.
Qed.

Lemma file_count_fold (name : string) (db : Collection) (files_info : list FileInfo) :
  file_count name
    (fold_left
       (fun acc e =>
          count_chunk (Py.get (md_file_name (doc_metadata (entry_doc e))) "unknown")
            (Py.get (md_upload_date (doc_metadata (entry_doc e))) "unknown") acc)
       db files_info)
  = (file_count name files_info + chunk_count_of name db)%Z.
Proof.
  unfold chunk_count_of. revert files_info.
  induction db as [|e db IH]; intro files_info; simpl; [lia|].
  rewrite IH, file_count_count_chunk. fold (listed_name e).
  destruct (listed_name e =? name); simpl length; lia.
Qed.

Lemma file_count_of_member (f : FileInfo) (files_info : list FileInfo) :
  NoDup (map fi_name files_info) ->
  In f files_info ->
  file_count (fi_name f) files_info = fi_chunk_count f.
Proof.
  unfold file_count. induction files_info as [|g rest IH]; simpl; [tauto|].
  intros Hnd [-> | Hin].
  - now rewrite String.eqb_refl.
  - inversion Hnd as [|? ? Hg Hnd']; subst.
    destruct (fi_name g =? fi_name f) eqn:E; [|now apply IH].
    apply String.eqb_eq in E. exfalso. apply Hg. rewrite E. now apply in_map.
Qed.

Lemma sum_chunk_counts_count_chunk (n upload_date : string) (files_info : list FileInfo) :
  sum_chunk_counts (count_chunk n upload_date files_info)
  = (sum_chunk_counts files_info + 1)%Z.
Proof.
  induction files_info as [|f rest IH]; simpl; [lia|].
  destruct (fi_name f =? n); simpl; lia.
Qed.

Lemma sum_chunk_counts_fold (db : Collection) (files_info : list FileInfo) :
  sum_chunk_counts
    (fold_left
       (fun acc e =>
          count_chunk (Py.get (md_file_name (doc_metadata (entry_doc e))) "unknown")
            (Py.get (md_upload_date (doc_metadata (entry_doc e))) "unknown") acc)
       db files_info)
  = (sum_chunk_counts files_info + Z.of_nat (length db))%Z.
Proof.
  revert files_info. induction db as [|e db IH]; intro files_info; simpl; [lia|].
  rewrite IH, sum_chunk_counts_count_chunk. lia.
Qed.

(** X13.  The inventory of [get_statistics] is consistent with the index:
    [total_chunks] is the number of entries; the files have distinct
    names, which are exactly the names chunks are listed under;
    [total_files] is their number; each file's [chunk_count] is the number
    of chunks listed under its name, at least 1; and the chunk counts add
    up to [total_chunks]. *)
Theorem get_statistics_consistent (self : DocumentRetrieval) (db : Collection) :
  is_available self = true ->
  exists files embedding_model,
    get_statistics self db
    = StatisticsOf (Z.of_nat (length db)) (Z.of_nat (length files)) files embedding_model
    /\ NoDup (map fi_name files)
    /\ (forall name, In name (map fi_name files) <-> In name (map listed_name db))
    /\ Forall (fun f => fi_chunk_count f = chunk_count_of (fi_name f) db
                        /\ (1 <= fi_chunk_count f)%Z) files
    /\ sum_chunk_counts files = Z.of_nat (length db).
Proof.
  intro Ha.
  destruct (collect_files_info_names db [] ltac:(constructor)) as (Hnd & Hkeys).
  fold (collect_files_info db) in Hnd, Hkeys.
  exists (collect_files_info db),
    (match db with [] => None | _ :: _ => Some (embedding_model_name self) end).
  split; [unfold get_statistics; rewrite Ha; now destruct db|].
  split; [exact Hnd|].
  split; [intro name; rewrite Hkeys; simpl; tauto|].
  split.
  - apply Forall_forall. intros f Hf.
    assert (Hcount : fi_chunk_count f = chunk_count_of (fi_name f) db).
    { rewrite <- (file_count_of_member f _ Hnd Hf).
      unfold collect_files_info. now rewrite file_count_fold. }
    split; [exact Hcount|]. rewrite Hcount.
    assert (Hin : In (fi_name f) (map listed_name db)).
    { assert (Hk : In (fi_name f) (map fi_name (collect_files_info db)))
        by now apply in_map.
      apply Hkeys in Hk. simpl in Hk. tauto. }
    apply in_map_iff in Hin. destruct Hin as (e & He & Hin).
    unfold chunk_count_of.
    assert (Hne : In e (filter (fun e => listed_name e =? fi_name f) db)).
    { apply filter_In. split; [exact Hin|]. rewrite He. apply String.eqb_refl. }
    destruct (filter _ db); [contradiction | simpl length; lia].
  - unfold collect_files_info. rewrite sum_chunk_counts_fold. simpl. lia.
Qed.

Lemma get_statistics_consistent_witness :
  exists files embedding_model,
    get_statistics Sample.retrieval Sample.db
    = StatisticsOf (Z.of_nat (length Sample.db)) (Z.of_nat (length files)) files
        embedding_model
    /\ NoDup (map fi_name files)
    /\ (forall name, In name (map fi_name files) <-> In name (map listed_name Sample.db))
    /\ Forall (fun f => fi_chunk_count f = chunk_count_of (fi_name f) Sample.db
                        /\ (1 <= fi_chunk_count f)%Z) files
    /\ sum_chunk_counts files = Z.of_nat (length Sample.db).
Proof.
  apply (get_statistics_consistent Sample.retrieval Sample.db). reflexivity.
Defined.

Lemma file_names_of_statistics (db : Collection) :
  NoDup (map fi_name (collect_files_info db))
  /\ forall name, In name (map fi_name (collect_files_info db))
                  <-> In name (map listed_name db).
Proof.
  destruct (collect_files_info_names db [] ltac:(constructor)) as (Hnd & Hkeys).
  split; [exact Hnd|]. intro name. rewrite (Hkeys name). simpl. tauto.
Qed.

(** X14.  What a successful ingestion does to the inventory:
    [total_chunks] grows by the number of chunks stored; [total_files]
    grows by one when the name is new to the index and at least one chunk
    was stored, and stays as it was otherwise, a file ingested under a name
    the index already holds being counted with the file of that name. *)
Theorem ingest_document_updates_statistics
    (env : Externals) (self : DocumentIngestion) (file_path : string)
    (file_name : option string) (w w' : World)
    (name : string) (size : option Z) (n : nat) (ids : list nat) (date : string)
    (retrieval : DocumentRetrieval) :
  is_available retrieval = true ->
  ingest_document env self file_path file_name w
  = (Ok (IngestSuccess name size n ids date), w') ->
  total_chunks (get_statistics retrieval (collection w'))
  = Some (Z.of_nat (length (collection w)) + Z.of_nat n)%Z
  /\ (In name (map listed_name (collection w)) \/ n = 0%nat ->
      total_files (get_statistics retrieval (collection w'))
      = total_files (get_statistics retrieval (collection w)))
  /\ (~ In name (map listed_name (collection w)) -> n <> 0%nat ->
      total_files (get_statistics retrieval (collection w'))
      = Some (Z.of_nat (length (collect_files_info (collection w))) + 1)%Z
      /\ total_files (get_statistics retrieval (collection w))
         = Some (Z.of_nat (length (collect_files_info (collection w))))).
Proof.
  intros Ha H.
  destruct (ingest_document_success _ _ _ _ _ _ _ _ _ _ _ H)
    as (file_size & file_type & text & _ & _ & _ & _ & _ & _ & _ & Hn & _ & Hcoll & _).
  set (added := map (fun '(i, d) => mkEntry i d)
                  (enumerate_from (next_id w)
                     (make_documents env (clock w) text name (split_text env text))))
    in Hcoll.
  assert (Hlen : length added = n).
  { unfold added.
    now rewrite length_map, length_enumerate_from, length_make_documents. }
  assert (Hadded : forall x, In x (map listed_name added) <-> n <> 0%nat /\ x = name).
  { assert (Hall : Forall (fun e => listed_name e = name) added).
    { eapply Forall_impl; [|apply new_entries_named].
      intros e He. unfold listed_name. now rewrite He. }
    rewrite Forall_forall in Hall. intro x. split.
    - intro Hin. apply in_map_iff in Hin. destruct Hin as (e & <- & He).
      split; [|now apply Hall].
      destruct added; [contradiction | simpl in Hlen; lia].
    - intros (Hne & ->). destruct added as [|e added']; [simpl in Hlen; lia|].
      left. apply Hall. now left. }
  destruct (file_names_of_statistics (collection w)) as (Hnd & Hkeys).
  destruct (file_names_of_statistics (collection w')) as (Hnd' & Hkeys').
  assert (Hkeys'' : forall x, In x (map fi_name (collect_files_info (collection w')))
                              <-> In x (map listed_name (collection w))
                                  \/ (n <> 0%nat /\ x = name)).
  { intro x. rewrite Hkeys', Hcoll, map_app, in_app_iff, Hadded. tauto. }
  rewrite total_chunks_get_statistics, !total_files_get_statistics by exact Ha.
  split; [rewrite Hcoll, length_app, Hlen; f_equal; lia|].
  rewrite <- !(length_map fi_name).
  split.
  - intro Hold. do 2 f_equal. apply Permutation_length.
    apply NoDup_Permutation; [exact Hnd' | exact Hnd |].
    intro x. rewrite Hkeys'', Hkeys. split; [|tauto].
    intros [Hx | (Hne & ->)]; [exact Hx|]. destruct Hold; [assumption | contradiction].
  - intros Hnew Hne. split; [|reflexivity]. f_equal.
    change (Z.of_nat (length (map fi_name (collect_files_info (collection w)))) + 1)%Z
      with (Z.of_nat (length (map fi_name (collect_files_info (collection w)))) + Z.of_nat 1)%Z.
    rewrite <- Nat2Z.inj_add, Nat.add_comm. f_equal.
    change (1 + length ?l)%nat with (length (name :: l)).
    apply Permutation_length.
    apply NoDup_Permutation; [exact Hnd' | |].
    + constructor; [now rewrite Hkeys | exact Hnd].
    + intro x. rewrite Hkeys''. simpl. rewrite Hkeys. split.
      * intros [Hx | (_ & ->)]; auto.
      * intros [<- | Hx]; auto.
Qed.

Lemma ingest_document_updates_statistics_witness :
  total_chunks (get_statistics Sample.retrieval
                  (collection (snd (ingest_document Sample.env Sample.ingestion "todo.md"
                                      None Sample.world))))
  = Some (Z.of_nat (length (collection Sample.world)) + Z.of_nat 1)%Z
  /\ (In "todo.md" (map listed_name (collection Sample.world)) \/ 1%nat = 0%nat ->
      total_files (get_statistics Sample.retrieval
                     (collection (snd (ingest_document Sample.env Sample.ingestion
                                         "todo.md" None Sample.world))))
      = total_files (get_statistics Sample.retrieval (collection Sample.world)))
  /\ (~ In "todo.md" (map listed_name (collection Sample.world)) -> 1%nat <> 0%nat ->
      total_files (get_statistics Sample.retrieval
                     (collection (snd (ingest_document Sample.env Sample.ingestion
                                         "todo.md" None Sample.world))))
      = Some (Z.of_nat (length (collect_files_info (collection Sample.world))) + 1)%Z
      /\ total_files (get_statistics Sample.retrieval (collection Sample.world))
         = Some (Z.of_nat (length (collect_files_info (collection Sample.world))))).
Proof.
  apply (ingest_document_updates_statistics Sample.env Sample.ingestion "todo.md" None
           Sample.world _ "todo.md" (Some 8%Z) 1 [2%nat] "2024-05-01T10:00:01"
           Sample.retrieval); reflexivity.
Defined.





(** ** retrieve_by_file *)

(** The loop with its [break] keeps the first [limit] chunks of the file,
    in the order of the store. *)
Lemma collect_file_chunks_eq (name : string) (limit : Z) (db : Collection) :
  forall results,
    collect_file_chunks name limit db results
    = results
      ++ map (file_result name)
           (firstn (Z.to_nat (limit - Z.of_nat (length results)))
              (filter (has_file_name name) db)).
Proof.
  induction db as [|e db IH]; intro results; simpl.
  - now rewrite firstn_nil, app_nil_r.
  - destruct (has_file_name name e) eqn:E; [|apply IH].
    destruct (Z.of_nat (length results) >=? limit)%Z eqn:L.
    + replace (Z.to_nat (limit - Z.of_nat (length results))) with 0%nat by lia.
      simpl. now rewrite app_nil_r.
    + rewrite IH, length_app. simpl.
      replace (Z.to_nat (limit - Z.of_nat (length results)))
        with (S (Z.to_nat (limit - Z.of_nat (length results + 1)))) by lia.
      simpl. now rewrite <- app_assoc.
Qed.

Lemma retrieve_by_file_available (self : DocumentRetrieval) (db : Collection)
    (name : string) (limit : Z) :
  is_available self = true ->
  retrieve_by_file self db name limit
  = sort_by_chunk_id
      (map (file_result name)
         (firstn (Z.to_nat limit) (filter (has_file_name name) db))).
Proof.
  intro H. unfold retrieve_by_file. rewrite H. simpl.
  destruct db as [|e db]; [now rewrite firstn_nil|].
  rewrite collect_file_chunks_eq. simpl length.
  now replace (limit - Z.of_nat 0)%Z with limit by lia.
Qed.

Lemma insert_by_chunk_id_perm (x : RetrievalResult) (l : list RetrievalResult) :
  Permutation (insert_by_chunk_id x l) (x :: l).
Proof.
  induction l as [|y l IH]; simpl; [reflexivity|].
  destruct (chunk_id x <=? chunk_id y)%Z; [reflexivity|].
  rewrite IH. apply perm_swap.
Qed.

Lemma sort_by_chunk_id_perm (l : list RetrievalResult) :
  Permutation (sort_by_chunk_id l) l.
Proof.
  induction l as [|x l IH]; simpl; [constructor|].
  rewrite insert_by_chunk_id_perm. now constructor.
Qed.

Lemma insert_by_chunk_id_sorted (x : RetrievalResult) (l : list RetrievalResult) :
  StronglySorted chunk_id_le l -> StronglySorted chunk_id_le (insert_by_chunk_id x l).
Proof.
  induction 1 as [|y l Hs IH Hy]; simpl; [repeat constructor|].
  destruct (chunk_id x <=? chunk_id y)%Z eqn:E.
  - constructor; [now constructor|].
    constructor; [unfold chunk_id_le; lia|].
    eapply Forall_impl; [|exact Hy].
    intros z Hz. unfold chunk_id_le in *. lia.
  - constructor; [exact IH|].
    eapply Permutation_Forall; [symmetry; apply insert_by_chunk_id_perm|].
    constructor; [unfold chunk_id_le; lia | exact Hy].
Qed.

Lemma sort_by_chunk_id_sorted (l : list RetrievalResult) :
  StronglySorted chunk_id_le (sort_by_chunk_id l).
Proof.
  induction l as [|x l IH]; simpl; [constructor|].
  now apply insert_by_chunk_id_sorted.
Qed.

(** Sorting a list that is in ascending order of chunk id changes nothing. *)
Lemma sort_by_chunk_id_of_sorted (l : list RetrievalResult) :
  StronglySorted chunk_id_le l -> sort_by_chunk_id l = l.
Proof.
  induction 1 as [|x l Hs IH Hx]; simpl; [reflexivity|].
  rewrite IH. destruct l as [|y l]; [reflexivity|]. simpl.
  apply Forall_inv in Hx. unfold chunk_id_le in Hx.
  now replace (chunk_id x <=? chunk_id y)%Z with true by lia.
Qed.

(** X16.  [retrieve_by_file] on an available index returns the first
    [limit] chunks the store holds under the name, in the store's order,
    and sorts them afterwards: the answer is in ascending order of chunk
    id, holds at most [limit] results (none for a limit of 0 or less),
    each with score 1, the name asked for and the content and chunk id of
    its chunk (0 when the chunk has none).  The limit is applied before
    the sort.  On an unavailable index the answer is empty. *)
Theorem retrieve_by_file_truncates_then_sorts
    (self : DocumentRetrieval) (db : Collection) (name : string) (limit : Z) :
  (is_available self = true ->
   Permutation (retrieve_by_file self db name limit)
     (map (file_result name)
        (firstn (Z.to_nat limit) (filter (has_file_name name) db)))
   /\ StronglySorted chunk_id_le (retrieve_by_file self db name limit)
   /\ (Z.of_nat (length (retrieve_by_file self db name limit)) <= Z.max 0 limit)%Z
   /\ (Z.of_nat (length (retrieve_by_file self db name limit))
       <= Z.of_nat (length (filter (has_file_name name) db)))%Z
   /\ Forall (fun r =>
                file_name r = name /\ score r = 1
                /\ exists e,
                     In e db /\ has_file_name name e = true
                     /\ content r = page_content (entry_doc e)
                     /\ metadata r = doc_metadata (entry_doc e)
                     /\ chunk_id r = Py.get (md_chunk_id (doc_metadata (entry_doc e))) 0%Z)
        (retrieve_by_file self db name limit))
  /\ (is_available self = false -> retrieve_by_file self db name limit = []).
Proof.
  split.
  - intro H. rewrite (retrieve_by_file_available self db name limit H).
    pose proof (sort_by_chunk_id_perm
                  (map (file_result name)
                     (firstn (Z.to_nat limit) (filter (has_file_name name) db)))) as Hperm.
    split; [exact Hperm|]. split; [apply sort_by_chunk_id_sorted|].
    pose proof (Permutation_length Hperm) as Hlen.
    rewrite length_map, length_firstn in Hlen.
    split; [lia|]. split; [lia|].
    eapply Permutation_Forall; [symmetry; exact Hperm|].
    apply Forall_forall. intros r Hr. apply in_map_iff in Hr.
    destruct Hr as (e & <- & He). apply In_firstn in He.
    apply filter_In in He. destruct He as (He & Hname).
    repeat split. now exists e.
  - intro H. unfold retrieve_by_file. now rewrite H.
Qed.

Lemma retrieve_by_file_truncates_then_sorts_witness :
  Permutation (retrieve_by_file Sample.retrieval Sample.db "a.txt" 10)
    (map (file_result "a.txt")
       (firstn (Z.to_nat 10) (filter (has_file_name "a.txt") Sample.db)))
  /\ StronglySorted chunk_id_le (retrieve_by_file Sample.retrieval Sample.db "a.txt" 10)
  /\ retrieve_by_file Sample.unavailable_retrieval Sample.db "a.txt" 10 = [].
Proof.
  destruct (retrieve_by_file_truncates_then_sorts Sample.retrieval Sample.db "a.txt" 10)
    as [Havailable _].
  destruct (Havailable eq_refl) as (Hperm & Hsorted & _).
  destruct (retrieve_by_file_truncates_then_sorts Sample.unavailable_retrieval Sample.db
              "a.txt" 10) as [_ Hunavailable].
  split; [exact Hperm|]. split; [exact Hsorted|]. apply Hunavailable. reflexivity.
Defined.

(** The first [k] numbers of a run of chunk ids. *)
Lemma chunk_ids_firstn (k i n : nat) :
  firstn k (map Z.of_nat (seq i n)) = map Z.of_nat (seq i (Nat.min k n)).
Proof.
  revert i n. induction k as [|k IH]; intros i [|n]; simpl; try reflexivity.
  now rewrite IH.
Qed.

(** Results numbered like a run of chunk ids are in ascending order. *)
Lemma ascending_chunk_ids (l : list RetrievalResult) :
  forall i m, map chunk_id l = map Z.of_nat (seq i m) -> StronglySorted chunk_id_le l.
Proof.
  induction l as [|r l IH]; intros i m H; [constructor|].
  destruct m as [|m]; [discriminate|]. simpl in H. injection H as Hr Hl.
  constructor; [now apply (IH (S i) m)|].
  apply Forall_forall. intros z Hz. apply (in_map chunk_id) in Hz.
  rewrite Hl in Hz. apply in_map_iff in Hz. destruct Hz as (j & Hj & Hin).
  apply in_seq in Hin. unfold chunk_id_le. lia.
Qed.

(** The chunk ids [retrieve_by_file] reads off the entries of one
    ingestion. *)
Lemma new_entries_chunk_ids (env : Externals) (t i : nat) (text name : string)
    (chunks : list string) :
  map (fun e => Py.get (md_chunk_id (doc_metadata (entry_doc e))) 0%Z)
    (map (fun '(i, d) => mkEntry i d)
       (enumerate_from i (make_documents env t text name chunks)))
  = map Z.of_nat (seq 0 (length chunks)).
Proof.
  rewrite <- (map_map entry_doc (fun d => Py.get (md_chunk_id (doc_metadata d)) 0%Z)).
  rewrite entry_docs_enumerate_from.
  rewrite <- (map_map (fun d => md_chunk_id (doc_metadata d)) (fun o => Py.get o 0%Z)).
  unfold make_documents.
  destruct (documents_of_chunks name (substring 0 8 (md5_hexdigest env text))
              (fun i => isoformat env (t + i)) (Z.of_nat (length chunks)) chunks 0)
    as (_ & Hids & _).
  simpl in Hids. rewrite Hids, map_map. reflexivity.
Qed.

(** X17.  Ingestion and [retrieve_by_file] form a round trip: after a
    successful ingestion under a name the index did not hold,
    [retrieve_by_file] for that name on an available index returns the
    chunks the splitter made of the parsed text, in the splitter's order,
    cut to the first [limit], numbered 0, 1, ...; with a limit of at least
    [num_chunks] it returns them all. *)
Theorem ingest_then_retrieve_by_file
    (env : Externals) (self : DocumentIngestion) (file_path : string)
    (name_given : option string) (w w' : World)
    (name : string) (size : option Z) (n : nat) (ids : list nat) (date : string)
    (retrieval : DocumentRetrieval) (limit : Z) :
  is_available retrieval = true ->
  ~ In name (map listed_name (collection w)) ->
  ingest_document env self file_path name_given w
  = (Ok (IngestSuccess name size n ids date), w') ->
  exists file_type text,
    get_file_type file_path = Some file_type
    /\ dispatch_parser env file_type file_path = Ok text
    /\ map content (retrieve_by_file retrieval (collection w') name limit)
       = firstn (Z.to_nat limit) (split_text env text)
    /\ map chunk_id (retrieve_by_file retrieval (collection w') name limit)
       = map Z.of_nat (seq 0 (Nat.min (Z.to_nat limit) n))
    /\ Forall (fun r => file_name r = name /\ score r = 1)
         (retrieve_by_file retrieval (collection w') name limit)
    /\ ((Z.of_nat n <= limit)%Z ->
        map content (retrieve_by_file retrieval (collection w') name limit)
        = split_text env text).
Proof.
  intros Havailable Hnew H.
  destruct (ingest_document_success _ _ _ _ _ _ _ _ _ _ _ H)
    as (file_size & file_type & text & _ & _ & Hft & Hparse & _ & _ & _ & Hn & _ & Hcoll & _).
  exists file_type, text. split; [exact Hft|]. split; [exact Hparse|].
  rewrite (retrieve_by_file_available retrieval _ name limit Havailable).
  set (added := map (fun '(i, d) => mkEntry i d)
                  (enumerate_from (next_id w)
                     (make_documents env (clock w) text name (split_text env text))))
    in Hcoll.
  assert (Hfilter : filter (has_file_name name) (collection w') = added).
  { rewrite Hcoll, filter_app.
    rewrite (filter_none _ (collection w)), app_nil_l.
    - apply filter_all. intros e He.
      pose proof (new_entries_named env (clock w) (next_id w) text name (split_text env text))
        as Hnamed.
      rewrite Forall_forall in Hnamed. unfold has_file_name.
      rewrite (Hnamed e He). apply String.eqb_refl.
    - intros e He. unfold has_file_name.
      destruct (md_file_name (doc_metadata (entry_doc e))) as [stored|] eqn:Hstored;
        [|reflexivity].
      apply String.eqb_neq. intros ->. apply Hnew. apply in_map_iff.
      exists e. split; [|exact He]. unfold listed_name. now rewrite Hstored. }
  rewrite Hfilter.
  assert (Hids : map chunk_id (map (file_result name) (firstn (Z.to_nat limit) added))
                 = map Z.of_nat (seq 0 (Nat.min (Z.to_nat limit) n))).
  { rewrite map_map. simpl. rewrite <- firstn_map. unfold added.
    rewrite new_entries_chunk_ids, chunk_ids_firstn. now rewrite Hn. }
  assert (Hcontents : map content (map (file_result name) (firstn (Z.to_nat limit) added))
                      = firstn (Z.to_nat limit) (split_text env text)).
  { rewrite map_map. simpl. rewrite <- firstn_map. unfold added.
    now rewrite new_entries_contents. }
  rewrite (sort_by_chunk_id_of_sorted _ (ascending_chunk_ids _ _ _ Hids)).
  split; [exact Hcontents|]. split; [exact Hids|].
  split.
  { apply Forall_forall. intros r Hr. apply in_map_iff in Hr.
    destruct Hr as (e & <- & _). now split. }
  intro Hlimit. rewrite Hcontents. apply firstn_all2. lia.
Qed.

Lemma ingest_then_retrieve_by_file_witness :
  exists file_type text,
    get_file_type "todo.md" = Some file_type
    /\ dispatch_parser Sample.env file_type "todo.md" = Ok text
    /\ map content
         (retrieve_by_file Sample.retrieval
            (collection (snd (ingest_document Sample.env Sample.ingestion "todo.md" None
                                Sample.world)))
            "todo.md" 10)
       = firstn (Z.to_nat 10) (split_text Sample.env text)
    /\ map chunk_id
         (retrieve_by_file Sample.retrieval
            (collection (snd (ingest_document Sample.env Sample.ingestion "todo.md" None
                                Sample.world)))
            "todo.md" 10)
       = map Z.of_nat (seq 0 (Nat.min (Z.to_nat 10) 1))
    /\ Forall (fun r => file_name r = "todo.md" /\ score r = 1)
         (retrieve_by_file Sample.retrieval
            (collection (snd (ingest_document Sample.env Sample.ingestion "todo.md" None
                                Sample.world)))
            "todo.md" 10)
    /\ ((Z.of_nat 1 <= 10)%Z ->
        map content
          (retrieve_by_file Sample.retrieval
             (collection (snd (ingest_document Sample.env Sample.ingestion "todo.md" None
                                 Sample.world)))
             "todo.md" 10)
        = split_text Sample.env text).
Proof.
  apply (ingest_then_retrieve_by_file Sample.env Sample.ingestion "todo.md" None
           Sample.world _ "todo.md" (Some 8%Z) 1 [2%nat] "2024-05-01T10:00:01"
           Sample.retrieval 10).
  - reflexivity.
  - simpl. intros [H | [H | []]]; discriminate.
  - reflexivity.
Defined.

(** ** search_files *)

Lemma prefix_is_app (needle s : string) :
  String.prefix needle s = true <-> exists rest, s = (needle ++ rest)%string.
Proof.
  revert s. induction needle as [|c needle IH]; intro s.
  - split; [intros _; now exists s | intros _; now destruct s].
  - destruct s as [|d s]; simpl.
    + split; [discriminate | intros (rest & H); discriminate].
    + destruct (ascii_dec c d) as [->|Hne].
      * rewrite IH. split; intros (rest & H); exists rest.
        -- now rewrite H.
        -- now injection H.
      * split; [discriminate|]. intros (rest & H). injection H as Hc _. congruence.
Qed.

(** [needle in s] holds exactly when [needle] occurs somewhere in [s]. *)
Lemma str_contains_occurs (needle s : string) :
  str_contains needle s = true
  <-> exists before rest, s = (before ++ needle ++ rest)%string.
Proof.
  induction s as [|c s IH]; cbn [str_contains].
  - destruct (String.prefix needle "") eqn:P.
    + split; [intros _|reflexivity]. apply prefix_is_app in P.
      destruct P as (rest & P). now exists ""%string, rest.
    + split; [discriminate|]. intros ([|d before] & rest & H); [|discriminate].
      assert (P' : String.prefix needle "" = true)
        by (apply prefix_is_app; now exists rest).
      congruence.
  - destruct (String.prefix needle (String c s)) eqn:P.
    + split; [intros _|reflexivity]. apply prefix_is_app in P.
      destruct P as (rest & P). now exists ""%string, rest.
    + rewrite IH. split.
      * intros (before & rest & ->). now exists (String c before), rest.
      * intros ([|d before] & rest & H).
        -- assert (P' : String.prefix needle (String c s) = true)
             by (apply prefix_is_app; now exists rest).
           congruence.
        -- injection H as _ ->. now exists before, rest.
Qed.

Lemma In_set_add (x y : string) (names : list string) :
  In y (set_add x names) <-> In y names \/ y = x.
Proof.
  unfold set_add. destruct (existsb (String.eqb x) names) eqn:E.
  - split; [tauto|]. intros [H | ->]; [exact H|].
    apply existsb_exists in E. destruct E as (z & Hz & Heq).
    apply String.eqb_eq in Heq. now subst.
  - rewrite in_app_iff. simpl. intuition congruence.
Qed.

Lemma NoDup_set_add (x : string) (names : list string) :
  NoDup names -> NoDup (set_add x names).
Proof.
  intro H. unfold set_add. destruct (existsb (String.eqb x) names) eqn:E; [exact H|].
  apply NoDup_app; [exact H | repeat constructor; intros [] |].
  intros y Hy [Heq | []]. subst y.
  assert (E' : existsb (String.eqb x) names = true).
  { apply existsb_exists. exists x. split; [exact Hy | apply String.eqb_refl]. }
  congruence.
Qed.

(** The set [search_files] collects: the names that match, each once. *)
Lemma matching_files_collects (search_term : string) (db : Collection) :
  NoDup (matching_files search_term db)
  /\ forall name,
       In name (matching_files search_term db)
       <-> exists e,
             In e db /\ searched_name e = name
             /\ str_contains (Py.lower search_term) (Py.lower name) = true.
Proof.
  unfold matching_files.
  assert (Hgen : forall matching,
             NoDup matching ->
             let result :=
               fold_left
                 (fun matching e =>
                    let file_name := Py.get (md_file_name (doc_metadata (entry_doc e))) "" in
                    if str_contains (Py.lower search_term) (Py.lower file_name)
                    then set_add file_name matching
                    else matching)
                 db matching in
             NoDup result
             /\ forall name,
                  In name result
                  <-> In name matching
                      \/ exists e,
                           In e db /\ searched_name e = name
                           /\ str_contains (Py.lower search_term) (Py.lower name) = true).
  { induction db as [|e db IH]; intros matching Hnodup; simpl.
    - split; [exact Hnodup|]. intro name. split; [tauto|].
      intros [H | (e & [] & _)]. exact H.
    - fold (searched_name e).
      destruct (str_contains (Py.lower search_term) (Py.lower (searched_name e))) eqn:E.
      + destruct (IH (set_add (searched_name e) matching) (NoDup_set_add _ _ Hnodup))
          as (Hn & Hin).
        split; [exact Hn|]. intro name. rewrite Hin, In_set_add. split.
        * intros [[H | ->] | (e' & He' & Hname & Hc)].
          -- now left.
          -- right. exists e. repeat split; [now left | exact E].
          -- right. exists e'. repeat split; [now right | exact Hname | exact Hc].
        * intros [H | (e' & [<- | He'] & Hname & Hc)].
          -- left. now left.
          -- left. right. now symmetry.
          -- right. now exists e'.
      + destruct (IH matching Hnodup) as (Hn & Hin).
        split; [exact Hn|]. intro name. rewrite Hin. split.
        * intros [H | (e' & He' & Hname & Hc)]; [now left|].
          right. exists e'. repeat split; [now right | exact Hname | exact Hc].
        * intros [H | (e' & [<- | He'] & Hname & Hc)]; [now left | | right; now exists e'].
          rewrite Hname in E. congruence. }
  destruct (Hgen [] (NoDup_nil _)) as (Hn & Hin). split; [exact Hn|].
  intro name. rewrite Hin. simpl. tauto.
Qed.

Lemma insert_string_perm (x : string) (names : list string) :
  Permutation (insert_string x names) (x :: names).
Proof.
  induction names as [|y names IH]; simpl; [reflexivity|].
  destruct (x <=? y)%string; [reflexivity|].
  rewrite IH. apply perm_swap.
Qed.

Lemma sorted_strings_perm (names : list string) :
  Permutation (sorted_strings names) names.
Proof.
  induction names as [|x names IH]; simpl; [constructor|].
  rewrite insert_string_perm. now constructor.
Qed.

Lemma insert_string_sorted (x : string) (names : list string) :
  Sorted name_le names -> Sorted name_le (insert_string x names).
Proof.
  induction 1 as [|y names Hs IH Hy]; simpl; [repeat constructor|].
  destruct (x <=? y)%string eqn:E.
  - constructor; [now constructor | now constructor].
  - constructor; [exact IH|].
    assert (Hyx : name_le y x).
    { destruct (String.leb_total x y) as [H | H]; [congruence | exact H]. }
    destruct names as [|z names]; simpl; [now constructor|].
    destruct (x <=? z)%string; constructor; [exact Hyx|].
    now apply HdRel_inv in Hy.
Qed.

Lemma sorted_strings_sorted (names : list string) :
  Sorted name_le (sorted_strings names).
Proof.
  induction names as [|x names IH]; simpl; [constructor|].
  now apply insert_string_sorted.
Qed.

(** X18.  [search_files] on an available index returns the file names
    that contain the search term, letter case disregarded: a name is
    returned exactly when some chunk carries it (a chunk without name
    counting as the empty name) and the lower-cased term occurs in the
    lower-cased name.  Each name is returned once, and the names are in
    ascending order.  The empty term matches every name.  On an
    unavailable index the answer is empty. *)
Theorem search_files_finds_names
    (self : DocumentRetrieval) (db : Collection) (search_term : string) :
  (is_available self = true ->
   NoDup (search_files self db search_term)
   /\ Sorted name_le (search_files self db search_term)
   /\ (forall name,
         In name (search_files self db search_term)
         <-> In name (map searched_name db)
             /\ exists before rest,
                  Py.lower name = (before ++ Py.lower search_term ++ rest)%string)
   /\ (search_term = ""%string ->
       forall name,
         In name (search_files self db search_term) <-> In name (map searched_name db)))
  /\ (is_available self = false -> search_files self db search_term = []).
Proof.
  split.
  - intro H.
    assert (Heq : search_files self db search_term
                  = sorted_strings (matching_files search_term db)).
    { unfold search_files. rewrite H. simpl. now destruct db. }
    rewrite Heq.
    destruct (matching_files_collects search_term db) as (Hnodup & Hin).
    pose proof (sorted_strings_perm (matching_files search_term db)) as Hperm.
    assert (Hmember : forall name,
               In name (sorted_strings (matching_files search_term db))
               <-> In name (map searched_name db)
                   /\ exists before rest,
                        Py.lower name = (before ++ Py.lower search_term ++ rest)%string).
    { intro name. split.
      - intro Hname. apply (Permutation_in _ Hperm) in Hname.
        apply Hin in Hname. destruct Hname as (e & He & Hn & Hc).
        split; [rewrite <- Hn; now apply in_map | now apply str_contains_occurs].
      - intros (Hname & Hc). apply (Permutation_in _ (Permutation_sym Hperm)).
        apply Hin. apply in_map_iff in Hname. destruct Hname as (e & Hn & He).
        exists e. repeat split; [exact He | exact Hn | now apply str_contains_occurs]. }
    split; [exact (Permutation_NoDup (Permutation_sym Hperm) Hnodup)|].
    split; [apply sorted_strings_sorted|]. split; [exact Hmember|].
    intros -> name. rewrite Hmember. split; [tauto|].
    intro Hname. split; [exact Hname|]. now exists ""%string, (Py.lower name).
  - intro H. unfold search_files. now rewrite H.
Qed.

Lemma search_files_finds_names_witness :
  NoDup (search_files Sample.retrieval Sample.db "TXT")
  /\ Sorted name_le (search_files Sample.retrieval Sample.db "TXT")
  /\ search_files Sample.retrieval Sample.db "TXT" = ["a.txt"%string; "b.txt"%string]
  /\ search_files Sample.unavailable_retrieval Sample.db "TXT" = []
  /\ search_files Sample.retrieval Sample.umlaut_db Sample.umlaut_name_lower
     = [Sample.umlaut_name].
Proof.
  destruct (search_files_finds_names Sample.retrieval Sample.db "TXT") as [Havailable _].
  destruct (Havailable eq_refl) as (Hnodup & Hsorted & _).
  split; [exact Hnodup|]. split; [exact Hsorted|]. repeat split; reflexivity.
Defined.

(** ** _create_system_prompt *)

Lemma append_assoc (a b c : string) : ((a ++ b) ++ c = a ++ b ++ c)%string.
Proof.
  induction a as [|ch a IH]; simpl; [reflexivity | now rewrite IH].
Qed.

(** A phrase that occurs in a text occurs in every text around it. *)
Lemma str_contains_after (needle before s : string) :
  str_contains needle s = true -> str_contains needle (before ++ s) = true.
Proof.
  intro H. apply str_contains_occurs in H. destruct H as (x & y & ->).
  apply str_contains_occurs. exists (before ++ x)%string, y.
  now rewrite append_assoc.
Qed.

Lemma str_contains_before (needle s rest : string) :
  str_contains needle s = true -> str_contains needle (s ++ rest) = true.
Proof.
  intro H. apply str_contains_occurs in H. destruct H as (x & y & ->).
  apply str_contains_occurs. exists x, (y ++ rest)%string.
  now rewrite !append_assoc.
Qed.

Lemma concat_holds_part (part : string) (context_parts : list string) :
  In part context_parts ->
  exists before rest, String.concat "" context_parts = (before ++ part ++ rest)%string.
Proof.
  induction context_parts as [|p ps IH]; intro Hin; [destruct Hin|].
  destruct Hin as [-> | H].
  - destruct ps as [|p' ps].
    + exists ""%string, ""%string. simpl. clear IH.
      induction part as [|ch part IH]; simpl; [reflexivity | now rewrite <- IH].
    + now exists ""%string, (String.concat "" (p' :: ps)).
  - destruct (IH H) as (before & rest & Heq).
    destruct ps as [|p' ps]; [destruct H|].
    exists (p ++ before)%string, rest.
    change (String.concat "" (p :: p' :: ps))
      with (p ++ String.concat "" (p' :: ps))%string.
    now rewrite Heq, append_assoc.
Qed.

(** A phrase in the content of a packed chunk is a phrase of the context. *)
Lemma render_context_holds_content (needle : string) (doc : RetrievalResult)
    (context_parts : list string) :
  In (format_chunk doc) context_parts ->
  str_contains needle (content doc) = true ->
  str_contains needle (render_context context_parts) = true.
Proof.
  intros Hin Hc. destruct (concat_holds_part _ _ Hin) as (before & rest & Heq).
  unfold render_context. rewrite Heq.
  do 3 apply str_contains_after. apply str_contains_before.
  apply str_contains_after, str_contains_before.
  unfold format_chunk.
  do 10 apply str_contains_after. now apply str_contains_before.
Qed.

(** X19.  [_create_system_prompt] always returns.  It returns the base
    prompt alone when RAG is off, when there is no query or an empty one,
    when the index is unavailable, and when no chunk fits the budget of
    2000 tokens; otherwise the base prompt followed by the context section
    with the packed chunks, unless the text of the context contains the
    phrase "No relevant documents found", which is the case whenever the
    content of a packed chunk contains it: then the retrieved context is
    left out. *)
Theorem system_prompt_adds_context
    (search : SimilaritySearch) (base_prompt : string) (retrieval : DocumentRetrieval)
    (db : Collection) (use_rag : bool) (query : option string) :
  exists prompt,
    _create_system_prompt search base_prompt retrieval db use_rag query = Ok prompt
    /\ (use_rag = false \/ query = None \/ query = Some ""%string
        \/ is_available retrieval = false ->
        prompt = base_prompt)
    /\ forall q results,
         use_rag = true -> query = Some q -> q <> ""%string ->
         is_available retrieval = true ->
         retrieve_relevant_docs search retrieval db q 10 0 = Ok results ->
         (pack_chunks 2000 0 results = [] -> prompt = base_prompt)
         /\ (pack_chunks 2000 0 results <> [] ->
             str_contains "No relevant documents found"
               (render_context (pack_chunks 2000 0 results)) = false ->
             prompt = (base_prompt ++ rag_prompt (render_context (pack_chunks 2000 0 results)))%string)
         /\ (forall doc,
               In (format_chunk doc) (pack_chunks 2000 0 results) ->
               str_contains "No relevant documents found" (content doc) = true ->
               prompt = base_prompt).
Proof.
  unfold _create_system_prompt.
  destruct query as [q|].
  2:{ exists base_prompt. split; [reflexivity|]. split; [reflexivity|]. discriminate. }
  destruct use_rag.
  2:{ exists base_prompt. split; [reflexivity|]. split; [reflexivity|]. discriminate. }
  destruct (q =? "")%string eqn:Hq.
  { apply String.eqb_eq in Hq. subst q.
    exists base_prompt. split; [reflexivity|]. split; [reflexivity|].
    intros q results _ Heq Hne. congruence. }
  destruct (is_available retrieval) eqn:Havailable.
  2:{ exists base_prompt. split; [reflexivity|]. split; [reflexivity|]. discriminate. }
  cbn [andb negb].
  destruct (retrieve_relevant_docs_returns search retrieval db q 10 0) as (results & Hr).
  rewrite (get_context_for_query_unfold search retrieval db q 2000 results Hr).
  cbn [obind].
  assert (Hsame : forall q' results',
             Some q = Some q' ->
             retrieve_relevant_docs search retrieval db q' 10 0 = Ok results' ->
             results' = results).
  { intros q' results' Heq Hr'. injection Heq as <-. congruence. }
  apply String.eqb_neq in Hq.
  destruct (pack_chunks 2000 0 results) as [|part parts] eqn:Hparts.
  - exists base_prompt. split; [reflexivity|].
    split; [intros [H | [H | [H | H]]]; congruence|].
    intros q' results' _ Heq _ _ Hr'. rewrite (Hsame q' results' Heq Hr'), Hparts.
    split; [reflexivity|]. split; [congruence|]. intros doc [].
  - assert (Hnonempty : (render_context (part :: parts) =? "")%string = false)
      by reflexivity.
    rewrite Hnonempty. cbn [andb negb].
    destruct (str_contains "No relevant documents found" (render_context (part :: parts)))
      eqn:Hphrase; cbn [negb].
    + exists base_prompt. split; [reflexivity|].
      split; [intros [H | [H | [H | H]]]; congruence|].
      intros q' results' _ Heq _ _ Hr'. rewrite (Hsame q' results' Heq Hr'), Hparts.
      split; [discriminate|]. split; [congruence | reflexivity].
    + eexists. split; [reflexivity|].
      split; [intros [H | [H | [H | H]]]; congruence|].
      intros q' results' _ Heq _ _ Hr'. rewrite (Hsame q' results' Heq Hr'), Hparts.
      split; [discriminate|]. split; [reflexivity|].
      intros doc Hin Hc.
      rewrite (render_context_holds_content _ doc _ Hin Hc) in Hphrase. discriminate.
Qed.

Lemma system_prompt_adds_context_witness :
  (exists prompt results,
      _create_system_prompt Sample.search Sample.base_prompt Sample.retrieval Sample.db
        true (Some "hello"%string) = Ok prompt
      /\ retrieve_relevant_docs Sample.search Sample.retrieval Sample.db "hello" 10 0
         = Ok results
      /\ prompt
         = (Sample.base_prompt
            ++ rag_prompt (render_context (pack_chunks 2000 0 results)))%string)
  /\ _create_system_prompt Sample.search Sample.base_prompt Sample.retrieval
       Sample.quoting_db true (Some "hello"%string)
     = Ok Sample.base_prompt.
Proof.
  split.
  - destruct (system_prompt_adds_context Sample.search Sample.base_prompt Sample.retrieval
                Sample.db true (Some "hello"%string))
      as (prompt & Hreturns & _ & Hcontext).
    exists prompt. eexists. split; [exact Hreturns|]. split; [reflexivity|].
    edestruct (Hcontext "hello"%string) as (_ & Hwith & _);
      [reflexivity | reflexivity | discriminate | reflexivity | reflexivity |].
    apply Hwith; [intro H; vm_compute in H; discriminate | vm_compute; reflexivity].
  - destruct (system_prompt_adds_context Sample.search Sample.base_prompt Sample.retrieval
                Sample.quoting_db true (Some "hello"%string))
      as (prompt & Hreturns & _ & Hcontext).
    rewrite Hreturns. f_equal.
    edestruct (Hcontext "hello"%string) as (_ & _ & Hquoted);
      [reflexivity | reflexivity | discriminate | reflexivity | reflexivity |].
    apply (Hquoted
             (make_result
                (Sample.document "faq.md"
                   "If you see No relevant documents found, upload a file first." 0 1)
                (similarity_score
                   (Sample.distance "hello"
                      "If you see No relevant documents found, upload a file first.")))).
    + vm_compute. left. reflexivity.
    + vm_compute. reflexivity.
Defined.

(** ** The first definitions of ingestion.py: the ledger *)

(** The two ways a call of the first [ingest_document] can go: it leaves
    the state as it was, or it writes the chunks and the ledger record and
    then calls [persist]. *)
Lemma Shadowed_ingest_document_cases (env : Shadowed.Externals)
    (file_path : string) (original_name : option string) (s s1 : Shadowed.State)
    (r1 : Shadowed.IngestResult) :
  Shadowed.ingest_document env file_path original_name s = (r1, s1) ->
  (s1 = s /\ Shadowed.status r1 <> "success"%string)
  \/ exists size hash text record,
       Shadowed.file_exists env file_path = true
       /\ Shadowed.st_size env file_path = Ok size
       /\ Shadowed.get_file_hash env file_path = Ok hash
       /\ Shadowed.known hash (Shadowed.ledger s) = false
       /\ Shadowed.resolve_parse_file env file_path = Ok text
       /\ Py.strip_is_empty text = false
       /\ Shadowed.chunk_count record = Z.of_nat (length (Shadowed.split_text env text))
       /\ s1 = Shadowed.mkState
                 (Shadowed.vector_store s
                  ++ Shadowed.make_chunks env (Shadowed.clock s)
                       (default_file_name file_path original_name) hash size
                       (Py.lower (Py.path_suffix file_path))
                       (Shadowed.split_text env text))
                 (Shadowed.record hash record (Shadowed.ledger s))
                 (S (Shadowed.clock s + length (Shadowed.split_text env text)))
       /\ ((exists u,
              Shadowed.persist env = Ok u
              /\ r1 = Shadowed.Success (default_file_name file_path original_name)
                        (length (Shadowed.split_text env text)) size)
           \/ (exists e,
                 Shadowed.persist env = Raised e
                 /\ r1 = Shadowed.error_result
                           (default_file_name file_path original_name) (exn_msg e))).
Proof.
  unfold Shadowed.ingest_document. intro H.
  assert (Hleft : forall r,
             (r, s) = (r1, s1) ->
             Shadowed.status r <> "success"%string ->
             s1 = s /\ Shadowed.status r1 <> "success"%string).
  { intros r Heq Hr. injection Heq as <- <-. now split. }
  destruct (Shadowed.file_exists env file_path) eqn:Hexists; simpl in H;
    [|left; apply (Hleft _ H); discriminate].
  destruct (Shadowed.st_size env file_path) as [size|e] eqn:Hsize;
    [|left; apply (Hleft _ H); discriminate].
  destruct (Shadowed.get_file_hash env file_path) as [hash|e] eqn:Hhash;
    [|left; apply (Hleft _ H); discriminate].
  destruct (Shadowed.known hash (Shadowed.ledger s)) eqn:Hknown;
    [left; apply (Hleft _ H); discriminate|].
  destruct (Shadowed.resolve_parse_file env file_path) as [text|e] eqn:Hparse;
    [|left; apply (Hleft _ H); discriminate].
  destruct (Py.strip_is_empty text) eqn:Hblank;
    [left; apply (Hleft _ H); discriminate|].
  cbv zeta in H. right. exists size, hash, text.
  exists (Shadowed.mkDocumentRecord (default_file_name file_path original_name) size
            (Z.of_nat (length (Shadowed.split_text env text)))
            (Shadowed.isoformat env
               (Shadowed.clock s + length (Shadowed.split_text env text)))
            (Py.lower (Py.path_suffix file_path))
            (if (200 <? Py.len text)%Z
             then (substring 0 200 text ++ "...")%string
             else text)).
  split; [reflexivity|]. split; [reflexivity|]. split; [reflexivity|].
  split; [exact Hknown|]. split; [reflexivity|]. split; [exact Hblank|].
  destruct (Shadowed.persist env) as [u|e] eqn:Hpersist; injection H as <- <-.
  - split; [reflexivity|]. split; [reflexivity|]. left. now exists u.
  - split; [reflexivity|]. split; [reflexivity|]. right. now exists e.
Qed.

(** A file whose hash is in the ledger is skipped, whatever its path. *)
Lemma Shadowed_ingest_document_known (env : Shadowed.Externals)
    (file_path : string) (original_name : option string) (s : Shadowed.State)
    (size : Z) (hash : string) :
  Shadowed.file_exists env file_path = true ->
  Shadowed.st_size env file_path = Ok size ->
  Shadowed.get_file_hash env file_path = Ok hash ->
  Shadowed.known hash (Shadowed.ledger s) = true ->
  Shadowed.ingest_document env file_path original_name s
  = (Shadowed.Skipped (default_file_name file_path original_name), s).
Proof.
  intros Hexists Hsize Hhash Hknown. unfold Shadowed.ingest_document.
  now rewrite Hexists, Hsize, Hhash, Hknown.
Qed.

Lemma Shadowed_record_new (hash : string) (r : Shadowed.DocumentRecord)
    (ledger : list (string * Shadowed.DocumentRecord)) :
  Shadowed.known hash ledger = false ->
  Shadowed.record hash r ledger = ledger ++ [(hash, r)].
Proof.
  induction ledger as [|[h r'] ledger IH]; simpl; intro H; [reflexivity|].
  apply orb_false_iff in H. destruct H as (Hh & Hrest).
  rewrite Hh. now rewrite IH.
Qed.

Lemma Shadowed_forget_new (hash : string) (r : Shadowed.DocumentRecord)
    (ledger : list (string * Shadowed.DocumentRecord)) :
  Shadowed.known hash ledger = false ->
  Shadowed.forget hash (ledger ++ [(hash, r)]) = ledger.
Proof.
  intro H. unfold Shadowed.forget. rewrite filter_app. simpl.
  rewrite String.eqb_refl. simpl. rewrite app_nil_r.
  apply filter_all. intros entry Hentry.
  unfold Shadowed.known in H.
  destruct (fst entry =? hash)%string eqn:E; [|reflexivity].
  assert (Hex : existsb (fun entry => fst entry =? hash)%string ledger = true).
  { apply existsb_exists. now exists entry. }
  congruence.
Qed.

Lemma Shadowed_known_kept (hash hash' : string) (r : Shadowed.DocumentRecord)
    (ledger : list (string * Shadowed.DocumentRecord)) :
  Shadowed.known hash ledger = true ->
  Shadowed.known hash (Shadowed.record hash' r ledger) = true.
Proof.
  induction ledger as [|[h r'] ledger IH]; simpl; [discriminate|].
  intro H. destruct (h =? hash')%string; simpl.
  - exact H.
  - apply orb_true_iff in H. apply orb_true_iff.
    destruct H as [H | H]; [now left | right; now apply IH].
Qed.

Lemma Shadowed_stats_of_new_record (chunks : list Shadowed.Chunk)
    (ledger : list (string * Shadowed.DocumentRecord)) (hash : string)
    (r : Shadowed.DocumentRecord) (t t' : nat) (chunks' : list Shadowed.Chunk) :
  Shadowed.stats_total_documents (Shadowed.mkState chunks' (ledger ++ [(hash, r)]) t')
  = (Shadowed.stats_total_documents (Shadowed.mkState chunks ledger t) + 1)%Z
  /\ Shadowed.stats_total_chunks (Shadowed.mkState chunks' (ledger ++ [(hash, r)]) t')
     = (Shadowed.stats_total_chunks (Shadowed.mkState chunks ledger t)
        + Shadowed.chunk_count r)%Z.
Proof.
  unfold Shadowed.stats_total_documents, Shadowed.stats_total_chunks. simpl.
  split; [rewrite length_app; simpl; lia|].
  induction ledger as [|entry ledger IH]; simpl; lia.
Qed.

Lemma Shadowed_length_make_chunks (env : Shadowed.Externals) (t : nat)
    (name hash : string) (size : Z) (suffix : string) (chunks : list string) :
  length (Shadowed.make_chunks env t name hash size suffix chunks) = length chunks.
Proof.
  unfold Shadowed.make_chunks. now rewrite length_map, length_enumerate_from.
Qed.

(** What a call that wrote has done to the counts. *)
Lemma Shadowed_written_counts (s : Shadowed.State) (added : list Shadowed.Chunk)
    (hash : string) (record : Shadowed.DocumentRecord) (t : nat) (n : nat) :
  Shadowed.known hash (Shadowed.ledger s) = false ->
  Shadowed.chunk_count record = Z.of_nat n ->
  length added = n ->
  let s1 := Shadowed.mkState (Shadowed.vector_store s ++ added)
              (Shadowed.record hash record (Shadowed.ledger s)) t in
  Shadowed.known hash (Shadowed.ledger s1) = true
  /\ length (Shadowed.vector_store s1) = (length (Shadowed.vector_store s) + n)%nat
  /\ Shadowed.stats_total_documents s1 = (Shadowed.stats_total_documents s + 1)%Z
  /\ Shadowed.stats_total_chunks s1 = (Shadowed.stats_total_chunks s + Z.of_nat n)%Z.
Proof.
  intros Hknown Hcount Hlength. simpl.
  split; [apply Shadowed_known_record|].
  split; [rewrite length_app; lia|].
  rewrite (Shadowed_record_new hash record _ Hknown).
  destruct s as [chunks ledger t0]. simpl.
  destruct (Shadowed_stats_of_new_record chunks ledger hash record t0 t (chunks ++ added))
    as (Hdocs & Hchunks).
  split; [exact Hdocs | now rewrite Hchunks, Hcount].
Qed.

(** X20.  The first [ingest_document] writes all or nothing and counts a
    file once.  A call either leaves the vector store and the ledger as
    they were, and then its status is not "success"; or it has added the
    chunks of the file to the vector store and one record to the ledger,
    so that [get_document_stats] counts one document and that many chunks
    more.  In the second case the status is "success" when [persist]
    returned and "error", with the text of its exception, when [persist]
    raised; either way every later ingestion of a file with the same
    content hash, under whatever path or name, has the status "skipped"
    and changes nothing. *)
Theorem Shadowed_ingest_document_counts_once
    (env : Shadowed.Externals) (file_path : string) (original_name : option string)
    (s s1 : Shadowed.State) (r1 : Shadowed.IngestResult) :
  Shadowed.ingest_document env file_path original_name s = (r1, s1) ->
  (s1 = s /\ Shadowed.status r1 <> "success"%string)
  \/ exists hash n,
       Shadowed.get_file_hash env file_path = Ok hash
       /\ Shadowed.known hash (Shadowed.ledger s) = false
       /\ Shadowed.known hash (Shadowed.ledger s1) = true
       /\ length (Shadowed.vector_store s1) = (length (Shadowed.vector_store s) + n)%nat
       /\ Shadowed.stats_total_documents s1 = (Shadowed.stats_total_documents s + 1)%Z
       /\ Shadowed.stats_total_chunks s1 = (Shadowed.stats_total_chunks s + Z.of_nat n)%Z
       /\ ((exists u size,
              Shadowed.persist env = Ok u
              /\ r1 = Shadowed.Success (default_file_name file_path original_name) n size)
           \/ (exists e,
                 Shadowed.persist env = Raised e
                 /\ r1 = Shadowed.error_result
                           (default_file_name file_path original_name) (exn_msg e)
                 /\ Shadowed.status r1 = "error"%string))
       /\ (forall copy_path copy_name copy_size,
             Shadowed.file_exists env copy_path = true ->
             Shadowed.st_size env copy_path = Ok copy_size ->
             Shadowed.get_file_hash env copy_path = Ok hash ->
             Shadowed.ingest_document env copy_path copy_name s1
             = (Shadowed.Skipped (default_file_name copy_path copy_name), s1)
             /\ Shadowed.status (Shadowed.Skipped (default_file_name copy_path copy_name))
                = "skipped"%string)
       /\ (forall name_again,
             Shadowed.ingest_document env file_path name_again s1
             = (Shadowed.Skipped (default_file_name file_path name_again), s1)).
Proof.
  intro H.
  destruct (Shadowed_ingest_document_cases _ _ _ _ _ _ H)
    as [Hnothing | (size & hash & text & record & Hexists & Hsize & Hhash & Hknown & _ & _
                    & Hcount & Hs1 & Hresult)];
    [now left|].
  right. exists hash, (length (Shadowed.split_text env text)).
  destruct (Shadowed_written_counts s
              (Shadowed.make_chunks env (Shadowed.clock s)
                 (default_file_name file_path original_name) hash size
                 (Py.lower (Py.path_suffix file_path)) (Shadowed.split_text env text))
              hash record
              (S (Shadowed.clock s + length (Shadowed.split_text env text)))
              (length (Shadowed.split_text env text)) Hknown Hcount
              (Shadowed_length_make_chunks _ _ _ _ _ _ _))
    as (Hnow & Hlength & Hdocs & Hchunks).
  rewrite <- Hs1 in Hnow, Hlength, Hdocs, Hchunks.
  split; [exact Hhash|]. split; [exact Hknown|]. split; [exact Hnow|].
  split; [exact Hlength|]. split; [exact Hdocs|]. split; [exact Hchunks|].
  split.
  { destruct Hresult as [(u & Hpersist & ->) | (e & Hpersist & ->)].
    - left. now exists u, size.
    - right. exists e. repeat split. exact Hpersist. }
  split.
  - intros copy_path copy_name copy_size Hcopy Hcopy_size Hcopy_hash.
    split; [|reflexivity].
    now apply (Shadowed_ingest_document_known env copy_path copy_name s1 copy_size hash).
  - intro name_again.
    now apply (Shadowed_ingest_document_known env file_path name_again s1 size hash).
Qed.

Lemma Shadowed_ingest_document_counts_once_witness :
  exists r1 s1,
    Shadowed.ingest_document Archive.env "notes.txt" None Archive.empty = (r1, s1)
    /\ Shadowed.status r1 = "error"%string
    /\ length (Shadowed.vector_store s1) = 1%nat
    /\ Shadowed.stats_total_documents s1 = 1%Z
    /\ Shadowed.ingest_document Archive.env "notes.txt" None s1
       = (Shadowed.Skipped "notes.txt", s1).
Proof.
  exists (fst (Shadowed.ingest_document Archive.env "notes.txt" None Archive.empty)),
    (snd (Shadowed.ingest_document Archive.env "notes.txt" None Archive.empty)).
  destruct (Shadowed_ingest_document_counts_once Archive.env "notes.txt" None Archive.empty
              (snd (Shadowed.ingest_document Archive.env "notes.txt" None Archive.empty))
              (fst (Shadowed.ingest_document Archive.env "notes.txt" None Archive.empty))
              eq_refl)
    as [(Hsame & _) | (hash & n & _ & _ & _ & _ & Hdocs & _ & _ & _ & Hagain)].
  - vm_compute in Hsame. discriminate.
  - split; [reflexivity|]. split; [reflexivity|]. split; [reflexivity|].
    split; [exact Hdocs | exact (Hagain None)].
Defined.

(** X21.  The first [remove_document] removes the record of a file and
    leaves its chunks in the vector store.  After a call of
    [ingest_document] that recorded the file, removing the file by its
    hash returns [True] and restores the ledger; ingesting the file again
    then goes as the first time and stores its chunks a second time, so
    the vector store holds them twice while [get_document_stats] counts
    them once.  Removing a hash the ledger does not hold returns [False]
    and changes nothing. *)
Theorem Shadowed_remove_document_orphans_chunks
    (env : Shadowed.Externals) (file_path : string) (original_name : option string)
    (s s1 : Shadowed.State) (r1 : Shadowed.IngestResult) (hash : string) :
  Shadowed.ingest_document env file_path original_name s = (r1, s1) ->
  Shadowed.get_file_hash env file_path = Ok hash ->
  Shadowed.known hash (Shadowed.ledger s) = false ->
  Shadowed.known hash (Shadowed.ledger s1) = true ->
  Shadowed.remove_document hash s = (false, s)
  /\ exists s2 s3 n,
       Shadowed.remove_document hash s1 = (true, s2)
       /\ Shadowed.vector_store s2 = Shadowed.vector_store s1
       /\ Shadowed.ledger s2 = Shadowed.ledger s
       /\ Shadowed.ingest_document env file_path original_name s2 = (r1, s3)
       /\ length (Shadowed.vector_store s1) = (length (Shadowed.vector_store s) + n)%nat
       /\ length (Shadowed.vector_store s3)
          = (length (Shadowed.vector_store s) + n + n)%nat
       /\ Shadowed.stats_total_chunks s3
          = (Shadowed.stats_total_chunks s + Z.of_nat n)%Z.
Proof.
  intros H Hhash' Hbefore Hafter.
  split; [unfold Shadowed.remove_document; now rewrite Hbefore|].
  destruct (Shadowed_ingest_document_cases _ _ _ _ _ _ H)
    as [(-> & _) | (size & hash0 & text & record & Hexists & Hsize & Hhash & Hknown & Hparse
                    & Hblank & Hcount & Hs1 & Hresult)];
    [congruence|].
  assert (hash0 = hash) by congruence. subst hash0.
  set (n := length (Shadowed.split_text env text)) in *.
  set (name := default_file_name file_path original_name) in *.
  set (added := fun t => Shadowed.make_chunks env t name hash size
                           (Py.lower (Py.path_suffix file_path))
                           (Shadowed.split_text env text)).
  assert (Hs2 : Shadowed.remove_document hash s1
                = (true, Shadowed.mkState (Shadowed.vector_store s1) (Shadowed.ledger s)
                           (Shadowed.clock s1))).
  { unfold Shadowed.remove_document. rewrite Hafter. do 2 f_equal.
    rewrite Hs1. simpl.
    now rewrite (Shadowed_record_new hash record _ Hknown),
      (Shadowed_forget_new hash record _ Hknown). }
  exists (Shadowed.mkState (Shadowed.vector_store s1) (Shadowed.ledger s)
            (Shadowed.clock s1)).
  exists (Shadowed.mkState
            (Shadowed.vector_store s1 ++ added (Shadowed.clock s1))
            (Shadowed.record hash
               (Shadowed.mkDocumentRecord name size (Z.of_nat n)
                  (Shadowed.isoformat env (Shadowed.clock s1 + n))
                  (Py.lower (Py.path_suffix file_path))
                  (if (200 <? Py.len text)%Z
                   then (substring 0 200 text ++ "...")%string
                   else text))
               (Shadowed.ledger s))
            (S (Shadowed.clock s1 + n))).
  exists n.
  split; [exact Hs2|]. split; [reflexivity|]. split; [reflexivity|].
  split.
  { unfold Shadowed.ingest_document. rewrite Hexists, Hsize, Hhash. simpl.
    rewrite Hknown, Hparse, Hblank. cbv zeta.
    destruct Hresult as [(u & Hpersist & ->) | (e & Hpersist & ->)];
      rewrite Hpersist; reflexivity. }
  assert (Hlength1 : length (Shadowed.vector_store s1)
                     = (length (Shadowed.vector_store s) + n)%nat).
  { rewrite Hs1. simpl. now rewrite length_app, Shadowed_length_make_chunks. }
  split; [exact Hlength1|].
  split.
  { simpl. rewrite length_app, Hlength1. unfold added.
    now rewrite Shadowed_length_make_chunks. }
  simpl. rewrite (Shadowed_record_new hash _ _ Hknown).
  destruct s as [chunks ledger t]. simpl.
  match goal with
  | |- Shadowed.stats_total_chunks
         (Shadowed.mkState ?c (ledger ++ [(hash, ?record')]) ?t') = _ =>
      destruct (Shadowed_stats_of_new_record chunks ledger hash record' t t' c)
        as (_ & Hchunks)
  end.
  rewrite Hchunks. reflexivity.
Qed.

Lemma Shadowed_remove_document_orphans_chunks_witness :
  exists s2 s3,
    Shadowed.remove_document "5eb63bbbe01eeed093cb22bb8f5acdc3"
      (snd (Shadowed.ingest_document Archive.env "notes.txt" None Archive.empty))
    = (true, s2)
    /\ Shadowed.ingest_document Archive.env "notes.txt" None s2
       = (fst (Shadowed.ingest_document Archive.env "notes.txt" None Archive.empty), s3)
    /\ length (Shadowed.vector_store s3) = 2%nat
    /\ Shadowed.stats_total_chunks s3 = 1%Z.
Proof.
  destruct (Shadowed_remove_document_orphans_chunks Archive.env "notes.txt" None
              Archive.empty
              (snd (Shadowed.ingest_document Archive.env "notes.txt" None Archive.empty))
              (fst (Shadowed.ingest_document Archive.env "notes.txt" None Archive.empty))
              "5eb63bbbe01eeed093cb22bb8f5acdc3" eq_refl eq_refl eq_refl eq_refl)
    as (_ & s2 & s3 & n & Hremove & _ & _ & Hagain & Hfirst & Hlength & Hchunks).
  vm_compute in Hfirst. subst n.
  exists s2, s3. split; [exact Hremove|]. split; [exact Hagain|].
  split; [exact Hlength | exact Hchunks].
Defined.

(** ** The first definitions of ingestion.py: batches *)

Lemma Shadowed_result_name (env : Shadowed.Externals)
    (file_path : string) (original_name : option string) (s s1 : Shadowed.State)
    (r : Shadowed.IngestResult) :
  Shadowed.ingest_document env file_path original_name s = (r, s1) ->
  Shadowed.result_name r = default_file_name file_path original_name.
Proof.
  unfold Shadowed.ingest_document. intro H.
  destruct (negb (Shadowed.file_exists env file_path)); [now injection H as <- _|].
  destruct (Shadowed.st_size env file_path) as [size|e]; [|now injection H as <- _].
  destruct (Shadowed.get_file_hash env file_path) as [hash|e]; [|now injection H as <- _].
  destruct (Shadowed.known hash (Shadowed.ledger s)); [now injection H as <- _|].
  destruct (Shadowed.resolve_parse_file env file_path) as [text|e];
    [|now injection H as <- _].
  destruct (Py.strip_is_empty text); [now injection H as <- _|].
  cbv zeta in H. destruct (Shadowed.persist env); now injection H as <- _.
Qed.

(** One call of the first [ingest_document], whatever its result. *)
Lemma Shadowed_ingest_document_step (env : Shadowed.Externals)
    (file_path : string) (original_name : option string) (s s1 : Shadowed.State)
    (r : Shadowed.IngestResult) :
  Shadowed.ingest_document env file_path original_name s = (r, s1) ->
  (length (Shadowed.vector_store s) + reported_chunks r
   <= length (Shadowed.vector_store s1))%nat
  /\ (Z.of_nat (length (Shadowed.vector_store s1)) - Shadowed.stats_total_chunks s1
      = Z.of_nat (length (Shadowed.vector_store s)) - Shadowed.stats_total_chunks s)%Z
  /\ (forall u,
        Shadowed.persist env = Ok u ->
        length (Shadowed.vector_store s1)
        = (length (Shadowed.vector_store s) + reported_chunks r)%nat)
  /\ (forall e, Shadowed.persist env = Raised e -> Shadowed.status r <> "success"%string)
  /\ forall hash,
       Shadowed.known hash (Shadowed.ledger s) = true ->
       Shadowed.known hash (Shadowed.ledger s1) = true.
Proof.
  intro H.
  destruct (Shadowed_ingest_document_cases _ _ _ _ _ _ H)
    as [(-> & Hstatus) | (size & hash & text & record & _ & _ & _ & Hknown & _ & _
                          & Hcount & Hs1 & Hresult)].
  - assert (Hnone : reported_chunks r = 0%nat).
    { destruct r; try reflexivity. now contradiction Hstatus. }
    rewrite Hnone. repeat split; try lia; tauto.
  - destruct (Shadowed_written_counts s
                (Shadowed.make_chunks env (Shadowed.clock s)
                   (default_file_name file_path original_name) hash size
                   (Py.lower (Py.path_suffix file_path)) (Shadowed.split_text env text))
                hash record
                (S (Shadowed.clock s + length (Shadowed.split_text env text)))
                (length (Shadowed.split_text env text)) Hknown Hcount
                (Shadowed_length_make_chunks _ _ _ _ _ _ _))
      as (_ & Hlength & _ & Hchunks).
    rewrite <- Hs1 in Hlength, Hchunks.
    assert (Hkept : forall h,
               Shadowed.known h (Shadowed.ledger s) = true ->
               Shadowed.known h (Shadowed.ledger s1) = true).
    { intros h Hh. rewrite Hs1. simpl. now apply Shadowed_known_kept. }
    destruct Hresult as [(u & Hpersist & ->) | (e & Hpersist & ->)]; simpl.
    + repeat split; try lia; try exact Hkept.
      intros e He. congruence.
    + repeat split; try lia; try exact Hkept.
      * intros u Hu. congruence.
      * discriminate.
Qed.

(** Within a batch, a file whose hash the ledger holds is skipped at every
    place it is listed. *)
Lemma Shadowed_batch_skips_known (env : Shadowed.Externals) (path : string)
    (size : Z) (hash : string) :
  Shadowed.file_exists env path = true ->
  Shadowed.st_size env path = Ok size ->
  Shadowed.get_file_hash env path = Ok hash ->
  forall file_paths s results s' k,
    Shadowed.known hash (Shadowed.ledger s) = true ->
    Shadowed.ingest_multiple_documents env file_paths s = (results, s') ->
    nth_error file_paths k = Some path ->
    nth_error results k = Some (Shadowed.Skipped (Py.path_name path)).
Proof.
  intros Hexists Hsize Hhash.
  induction file_paths as [|file_path rest IH]; intros s results s' k Hknown H Hnth;
    [now destruct k|].
  simpl in H.
  destruct (Shadowed.ingest_document env file_path None s) as [r s1] eqn:Hfirst.
  destruct (Shadowed.ingest_multiple_documents env rest s1) as [rs s2] eqn:Hrest.
  injection H as <- <-.
  destruct k as [|k]; simpl in *.
  - injection Hnth as ->.
    rewrite (Shadowed_ingest_document_known env path None s size hash) in Hfirst
      by assumption.
    now injection Hfirst as <- _.
  - apply (IH s1 rs s2 k); [|exact Hrest | exact Hnth].
    destruct (Shadowed_ingest_document_step _ _ _ _ _ _ Hfirst) as (_ & _ & _ & _ & Hkept).
    now apply Hkept.
Qed.

(** After a call on a file that can be read and parsed, the ledger holds
    the hash of the file, whatever the call returned. *)
Lemma Shadowed_ingest_document_then_known (env : Shadowed.Externals)
    (file_path : string) (original_name : option string) (s : Shadowed.State)
    (size : Z) (hash text : string) :
  Shadowed.file_exists env file_path = true ->
  Shadowed.st_size env file_path = Ok size ->
  Shadowed.get_file_hash env file_path = Ok hash ->
  Shadowed.resolve_parse_file env file_path = Ok text ->
  Py.strip_is_empty text = false ->
  Shadowed.known hash
    (Shadowed.ledger (snd (Shadowed.ingest_document env file_path original_name s)))
  = true.
Proof.
  intros Hexists Hsize Hhash Hparse Hblank.
  destruct (Shadowed.known hash (Shadowed.ledger s)) eqn:Hknown.
  - now rewrite (Shadowed_ingest_document_known env file_path original_name s size hash).
  - unfold Shadowed.ingest_document.
    rewrite Hexists, Hsize, Hhash. simpl. rewrite Hknown, Hparse, Hblank. cbv zeta.
    destruct (Shadowed.persist env); simpl; apply Shadowed_known_record.
Qed.

(** Within a batch, a file that is ingested with success was not in the
    ledger when the batch began. *)
Lemma Shadowed_batch_success_is_new (env : Shadowed.Externals) (path : string) :
  forall file_paths s results s' k later_result,
    Shadowed.ingest_multiple_documents env file_paths s = (results, s') ->
    nth_error file_paths k = Some path ->
    nth_error results k = Some later_result ->
    Shadowed.status later_result = "success"%string ->
    exists size hash text,
      Shadowed.file_exists env path = true
      /\ Shadowed.st_size env path = Ok size
      /\ Shadowed.get_file_hash env path = Ok hash
      /\ Shadowed.resolve_parse_file env path = Ok text
      /\ Py.strip_is_empty text = false
      /\ Shadowed.known hash (Shadowed.ledger s) = false.
Proof.
  induction file_paths as [|file_path rest IH];
    intros s results s' k later_result H Hpath Hresult Hsuccess; [now destruct k|].
  simpl in H.
  destruct (Shadowed.ingest_document env file_path None s) as [r s1] eqn:Hfirst.
  destruct (Shadowed.ingest_multiple_documents env rest s1) as [rs s2] eqn:Hrest.
  injection H as <- <-.
  destruct k as [|k]; simpl in Hpath, Hresult.
  - injection Hpath as ->. injection Hresult as ->.
    destruct (Shadowed_ingest_document_cases _ _ _ _ _ _ Hfirst)
      as [(_ & Hstatus) | (size & hash & text & record & Hexists & Hsize & Hhash & Hknown
                           & Hparse & Hblank & _)];
      [contradiction|].
    now exists size, hash, text.
  - destruct (IH s1 rs s2 k later_result Hrest Hpath Hresult Hsuccess)
      as (size & hash & text & Hexists & Hsize & Hhash & Hparse & Hblank & Hknown).
    exists size, hash, text. repeat split; try assumption.
    destruct (Shadowed.known hash (Shadowed.ledger s)) eqn:Hbefore; [|reflexivity].
    destruct (Shadowed_ingest_document_step _ _ _ _ _ _ Hfirst) as (_ & _ & _ & _ & Hkept).
    rewrite (Hkept hash Hbefore) in Hknown. discriminate.
Qed.

(** X22.  The first [ingest_multiple_documents] returns one result per
    path, in the order of the paths, each named after the base name of its
    path.  The vector store grows by as many chunks as the ledger comes to
    count, and by at least the chunks the results report; by exactly
    those when [persist] returns, while no result has the status "success"
    when [persist] raises.  A file listed twice is stored once: no later
    occurrence of a path in the batch has the status "success", and after
    a successful ingestion of a path every later occurrence is
    skipped. *)
Theorem Shadowed_ingest_multiple_documents_results
    (env : Shadowed.Externals) (file_paths : list string) (s s' : Shadowed.State)
    (results : list Shadowed.IngestResult) :
  Shadowed.ingest_multiple_documents env file_paths s = (results, s') ->
  map Shadowed.result_name results = map Py.path_name file_paths
  /\ (length (Shadowed.vector_store s) + list_sum (map reported_chunks results)
      <= length (Shadowed.vector_store s'))%nat
  /\ (Z.of_nat (length (Shadowed.vector_store s')) - Shadowed.stats_total_chunks s'
      = Z.of_nat (length (Shadowed.vector_store s)) - Shadowed.stats_total_chunks s)%Z
  /\ (forall u,
        Shadowed.persist env = Ok u ->
        length (Shadowed.vector_store s')
        = (length (Shadowed.vector_store s) + list_sum (map reported_chunks results))%nat)
  /\ (forall e,
        Shadowed.persist env = Raised e ->
        Forall (fun r => Shadowed.status r <> "success"%string) results)
  /\ forall i j path first_result later_result,
       (i < j)%nat ->
       nth_error file_paths i = Some path ->
       nth_error file_paths j = Some path ->
       nth_error results i = Some first_result ->
       nth_error results j = Some later_result ->
       Shadowed.status later_result <> "success"%string
       /\ (Shadowed.status first_result = "success"%string ->
           Shadowed.status later_result = "skipped"%string).
Proof.
  revert s s' results.
  induction file_paths as [|file_path rest IH]; intros s s' results H; simpl in H.
  - injection H as <- <-. simpl. repeat split; try lia; try constructor.
    + now destruct i.
    + now destruct i.
  - destruct (Shadowed.ingest_document env file_path None s) as [r s1] eqn:Hfirst.
    destruct (Shadowed.ingest_multiple_documents env rest s1) as [rs s2] eqn:Hrest.
    injection H as <- <-.
    destruct (IH s1 s2 rs Hrest) as (Hnames & Hlength & Hledger & Hexact & Hnone & Honce).
    destruct (Shadowed_ingest_document_step _ _ _ _ _ _ Hfirst)
      as (Hstep & Hstep_ledger & Hstep_exact & Hstep_none & _).
    pose proof (Shadowed_result_name _ _ _ _ _ _ Hfirst) as Hname.
    simpl. split; [now rewrite Hname, Hnames|]. split; [lia|]. split; [lia|].
    split; [intros u Hu; rewrite (Hexact u Hu), (Hstep_exact u Hu); lia|].
    split; [intros e He; constructor; [now apply (Hstep_none e) | now apply (Hnone e)]|].
    intros i j path first_result later_result Hlt Hi Hj Hri Hrj.
    destruct j as [|j]; [lia|]. simpl in Hj, Hrj.
    destruct i as [|i]; simpl in Hi, Hri; [|apply (Honce i j path); try assumption; lia].
    injection Hi as ->. injection Hri as ->.
    assert (Hnot : Shadowed.status later_result <> "success"%string).
    { intro Hsuccess.
      destruct (Shadowed_batch_success_is_new env path rest s1 rs s2 j later_result
                  Hrest Hj Hrj Hsuccess)
        as (size & hash & text & Hexists & Hsize & Hhash & Hparse & Hblank & Hknown).
      pose proof (Shadowed_ingest_document_then_known env path None s size hash text
                    Hexists Hsize Hhash Hparse Hblank) as Hthen.
      rewrite Hfirst in Hthen. simpl in Hthen. congruence. }
    split; [exact Hnot|].
    intro Hsuccess.
    destruct (Shadowed_ingest_document_cases _ _ _ _ _ _ Hfirst)
      as [(_ & Hstatus) | (size & hash & text & record & Hexists & Hsize & Hhash & _ & _
                           & _ & _ & Hs1 & _)];
      [contradiction|].
    assert (Hskipped : nth_error rs j = Some (Shadowed.Skipped (Py.path_name path))).
    { eapply (Shadowed_batch_skips_known env path size hash Hexists Hsize Hhash);
        [|exact Hrest | exact Hj].
      rewrite Hs1. simpl. apply Shadowed_known_record. }
    rewrite Hskipped in Hrj. now injection Hrj as <-.
Qed.

Lemma Shadowed_ingest_multiple_documents_results_witness :
  map Shadowed.result_name
    (fst (Shadowed.ingest_multiple_documents Archive.env
            ["notes.txt"; "todo.md"; "notes.txt"]%string Archive.empty))
  = map Py.path_name ["notes.txt"; "todo.md"; "notes.txt"]%string
  /\ length (Shadowed.vector_store
               (snd (Shadowed.ingest_multiple_documents Archive.env
                       ["notes.txt"; "todo.md"; "notes.txt"]%string Archive.empty)))
     = 2%nat
  /\ map Shadowed.status
       (fst (Shadowed.ingest_multiple_documents Archive.env
               ["notes.txt"; "todo.md"; "notes.txt"]%string Archive.empty))
     = ["error"; "error"; "skipped"]%string
  /\ Forall (fun r => Shadowed.status r <> "success"%string)
       (fst (Shadowed.ingest_multiple_documents Archive.env
               ["notes.txt"; "todo.md"; "notes.txt"]%string Archive.empty)).
Proof.
  destruct (Shadowed_ingest_multiple_documents_results Archive.env
              ["notes.txt"; "todo.md"; "notes.txt"]%string Archive.empty
              (snd (Shadowed.ingest_multiple_documents Archive.env
                      ["notes.txt"; "todo.md"; "notes.txt"]%string Archive.empty))
              (fst (Shadowed.ingest_multiple_documents Archive.env
                      ["notes.txt"; "todo.md"; "notes.txt"]%string Archive.empty))
              eq_refl)
    as (Hnames & _ & _ & _ & Hnone & _).
  split; [exact Hnames|]. split; [reflexivity|]. split; [reflexivity|].
  apply (Hnone (Raise AttributeError "'Chroma' object has no attribute 'persist'")).
  reflexivity.
Defined.

(** ** ingest_text *)


